(** * EvoWrite (SAGE agents): a shallow embedding of the analytical core

    The development follows the Python sources
      - [sage_agents.py]   (the record types and [AgentMemory.update_access]),
      - [user_agent.py]    ([UserAgent]: intent classifier, memory store, feedback,
                            conversation state, personalization, learner profile),
      - [checker_agent.py] ([CheckerAgent]: response validator, validation summary),
      - [sage_api.py]      (the [/feedback] route and the learner routes).

    Conventions of the embedding.
      - A Python [str] is a [string]; the character functions ([lower],
        [isspace], the regex classes) are the ASCII ones, so the embedding
        speaks about ASCII text.  A theorem that depends on them names
        the texts it covers ([is_ascii]); the classifier is also given
        over any implementation of the library calls it makes
        ([TextLibrary]), and the theorems about every input text are
        stated there.
      - A Python [float] is an exact rational ([Q]); equality of floats is
        [Qeq] ([==]).  Rounding error of binary64 is outside the model;
        what is stated of [round] leaves open which neighbour a midpoint
        goes to.
      - An integer is a [Z]; the database binds integers as signed 64-bit
        words ([int64]), and a lookup by a key beyond that range raises
        [OverflowError].
      - A [dict] is an association list in insertion order, because the
        classifier's tie-break depends on iteration order.
      - An exception is a value of [exn]; code that can raise returns
        [result], code that also touches the database runs in the monad [M].
      - A method call [self.name(...)] first looks [name] up among the
        attributes of the object; a name that is not there raises
        [AttributeError].
      - [datetime.utcnow()] reads the next value of a clock that is part of
        the store; instants are integers (microseconds). *)

From Stdlib Require Import ZArith QArith Qround Qabs Qminmax Lia Lqa.
From Stdlib Require Import List Permutation String Ascii Bool DecimalString.
Import ListNotations.

Local Open Scope Z_scope.

(* ===================================================================== *)
(** * Python primitives *)
(* ===================================================================== *)

Module Py.

(** Exceptions the modelled code can raise. *)
Inductive exn : Type :=
| AttributeError (name : string)
| ZeroDivisionError
| OverflowError.

Inductive result (A : Type) : Type :=
| Ok (a : A)
| Raise (e : exn).
Arguments Ok {A} a.
Arguments Raise {A} e.

Definition rbind {A B} (r : result A) (f : A -> result B) : result B :=
  match r with
  | Ok a => f a
  | Raise e => Raise e
  end.

(** ** Characters *)

Definition code (a : ascii) : nat := nat_of_ascii a.

Definition between (lo hi n : nat) : bool := (Nat.leb lo n && Nat.leb n hi)%bool.

(** [str.isspace] on an ASCII character: TAB..CR, FS..US and SPACE.  The
    regex class [\s] and [str.split()] use the same test. *)
Definition isspace (a : ascii) : bool :=
  (between 9 13 (code a) || between 28 32 (code a))%bool.

Definition isupper (a : ascii) : bool := between 65 90 (code a).

(** [\w] on an ASCII character: letters, digits and the underscore. *)
Definition isword (a : ascii) : bool :=
  (between 97 122 (code a) || between 65 90 (code a)
   || between 48 57 (code a) || Nat.eqb (code a) 95)%bool.

Definition lower_char (a : ascii) : ascii :=
  if isupper a then ascii_of_nat (code a + 32) else a.

(** ** Strings *)

(** [s.lower()] *)
Fixpoint lower (s : string) : string :=
  match s with
  | EmptyString => EmptyString
  | String a s' => String (lower_char a) (lower s')
  end.

(** [len(s)] *)
Definition len (s : string) : Z := Z.of_nat (String.length s).

(** [needle in hay] *)
Fixpoint contains (needle hay : string) : bool :=
  if String.prefix needle hay then true
  else match hay with
       | EmptyString => false
       | String _ hay' => contains needle hay'
       end.

(** [any(w in s for w in words)] *)
Definition any_in (words : list string) (s : string) : bool :=
  existsb (fun w => contains w s) words.

(** [s.split()]: the maximal runs of non-whitespace characters.  [cur] is
    the run being read. *)
Fixpoint split_from (cur : string) (s : string) : list string :=
  match s with
  | EmptyString => if String.eqb cur EmptyString then [] else [cur]
  | String a s' =>
      if isspace a
      then if String.eqb cur EmptyString then split_from EmptyString s'
           else cur :: split_from EmptyString s'
      else split_from (cur ++ String a EmptyString) s'
  end.

Definition split (s : string) : list string := split_from EmptyString s.

(** A string is truthy when it is not empty. *)
Definition truthy (s : string) : bool := negb (String.eqb s EmptyString).

(** [s.isascii()]: every character is below 128.  On such a string the
    ASCII character functions above are the ones Python applies. *)
Fixpoint is_ascii (s : string) : bool :=
  match s with
  | EmptyString => true
  | String a s' => (Nat.ltb (code a) 128 && is_ascii s')%bool
  end.

(** ** Numbers *)

(** The integers that fit a signed 64-bit word: what an integer column of
    the database, or an integer bound as a query parameter, can hold.  A
    Python [int] outside this range raises [OverflowError] when it is
    bound. *)
Definition int64 (z : Z) : bool :=
  ((-9223372036854775808 <=? z) && (z <=? 9223372036854775807))%bool.

Definition Qlt_bool (a b : Q) : bool := negb (Qle_bool b a).

(** [n / d] on two ints: true division, [ZeroDivisionError] when [d] is 0. *)
Definition truediv (n d : Z) : result Q :=
  if d =? 0 then Raise ZeroDivisionError
  else Ok (inject_Z n / inject_Z d)%Q.

(** [a / b] on floats. *)
Definition fdiv (a b : Q) : result Q :=
  if Qeq_bool b 0 then Raise ZeroDivisionError else Ok (a / b)%Q.

(** [max(a, b)] and [min(a, b)]: the first argument is kept unless the
    second is strictly better. *)
Definition max2 (a b : Q) : Q := if Qlt_bool a b then b else a.
Definition min2 (a b : Q) : Q := if Qlt_bool b a then b else a.

(** Rounding to the nearest integer, ties to the even one. *)
Definition round_half_even (q : Q) : Z :=
  let f := Qfloor q in
  match (q - inject_Z f ?= 1 # 2)%Q with
  | Lt => f
  | Gt => f + 1
  | Eq => if Z.even f then f else f + 1
  end.

(** [round(q, 3)] *)
Definition round3 (q : Q) : Q := Qmake (round_half_even (q * 1000)) 1000.

(** [sum(xs)] over floats, starting from 0 and adding left to right. *)
Definition fsum (xs : list Q) : Q := fold_left Qplus xs 0%Q.

(** ** Dictionaries (insertion ordered) *)

Section Dict.
Context {K V : Type}.
Variable keq : K -> K -> bool.

Definition dict : Type := list (K * V).

Fixpoint dict_get (d : dict) (k : K) : option V :=
  match d with
  | [] => None
  | (k', v) :: d' => if keq k k' then Some v else dict_get d' k
  end.

(** [d[k] = v]: an existing key keeps its place, a new key goes last. *)
Fixpoint dict_set (d : dict) (k : K) (v : V) : dict :=
  match d with
  | [] => [(k, v)]
  | (k', v') :: d' =>
      if keq k k' then (k', v) :: d' else (k', v') :: dict_set d' k v
  end.

Definition dict_keys (d : dict) : list K := map fst d.
Definition dict_values (d : dict) : list V := map snd d.
End Dict.

(** [max(keys, key=f)] on a non-empty iteration: the running best is
    replaced only by a strictly greater key value, so the first maximal
    element wins. *)
Definition max_by {K} (f : K -> Q) (first : K) (rest : list K) : K :=
  fold_left (fun best k => if Qlt_bool (f best) (f k) then k else best)
            rest first.

End Py.

(* ===================================================================== *)
(** * The fragment of [re] the pattern tables use *)
(* ===================================================================== *)

Module Re.
Import Py.

(** One-character classes: a literal, [.] and [\s]. *)
Inductive cclass : Type :=
| CLit (c : ascii)
| CDot
| CSpace.

(** Patterns: a character class, [\b], the empty pattern, concatenation,
    ordered alternation, and greedy repetition [c*] of a class.  Groups
    only capture, so they leave no trace here. *)
Inductive regex : Type :=
| RChar (c : cclass)
| RBoundary
| REmpty
| RSeq (r1 r2 : regex)
| RAlt (r1 r2 : regex)
| RStar (c : cclass).

(** [ic] is the [re.IGNORECASE] flag. *)
Definition class_match (ic : bool) (c : cclass) (a : ascii) : bool :=
  match c with
  | CLit l => if ic then Ascii.eqb (lower_char a) (lower_char l)
              else Ascii.eqb a l
  | CDot => negb (Nat.eqb (code a) 10)
  | CSpace => isspace a
  end.

Definition isword_opt (o : option ascii) : bool :=
  match o with
  | Some a => isword a
  | None => false
  end.

Definition head (s : string) : option ascii :=
  match s with
  | EmptyString => None
  | String a _ => Some a
  end.

(** The matcher is the backtracking one: [prev] is the character before
    the current position, [s] the text from the current position on, [k]
    the rest of the match.  The result is the text left after the match. *)
Definition cont : Type := option ascii -> string -> option string.

Fixpoint star_match (ic : bool) (c : cclass) (prev : option ascii)
         (s : string) (k : cont) {struct s} : option string :=
  match s with
  | EmptyString => k prev s
  | String a s' =>
      if class_match ic c a then
        match star_match ic c (Some a) s' k with
        | Some rest => Some rest
        | None => k prev s
        end
      else k prev s
  end.

Fixpoint rmatch (ic : bool) (r : regex) (prev : option ascii) (s : string)
         (k : cont) {struct r} : option string :=
  match r with
  | RChar c =>
      match s with
      | EmptyString => None
      | String a s' => if class_match ic c a then k (Some a) s' else None
      end
  | RBoundary =>
      if xorb (isword_opt prev) (isword_opt (head s)) then k prev s else None
  | REmpty => k prev s
  | RSeq r1 r2 => rmatch ic r1 prev s (fun p s' => rmatch ic r2 p s' k)
  | RAlt r1 r2 =>
      match rmatch ic r1 prev s k with
      | Some rest => Some rest
      | None => rmatch ic r2 prev s k
      end
  | RStar c => star_match ic c prev s k
  end.

(** A match that starts at the current position. *)
Definition match_here (ic : bool) (r : regex) (prev : option ascii)
           (s : string) : option string :=
  rmatch ic r prev s (fun _ rest => Some rest).

(** The scan of [re.findall]: leftmost matches that do not overlap.
    [skip] counts the characters still covered by the last match.  Each
    match is reported by its text. *)
Fixpoint scan (ic : bool) (r : regex) (prev : option ascii) (skip : nat)
         (s : string) {struct s} : list string :=
  match skip with
  | S n =>
      match s with
      | EmptyString => []
      | String a s' => scan ic r (Some a) n s'
      end
  | O =>
      match match_here ic r prev s with
      | Some rest =>
          let m := (String.length s - String.length rest)%nat in
          String.substring 0 m s ::
            match s with
            | EmptyString => []
            | String a s' => scan ic r (Some a) (Nat.pred m) s'
            end
      | None =>
          match s with
          | EmptyString => []
          | String a s' => scan ic r (Some a) 0 s'
          end
      end
  end.

(** [re.findall(pattern, text)] and [re.findall(pattern, text, re.IGNORECASE)] *)
Definition findall (r : regex) (text : string) : list string :=
  scan false r None 0 text.
Definition findall_ic (r : regex) (text : string) : list string :=
  scan true r None 0 text.

(** ** Writing patterns *)

(** A literal word or phrase. *)
Fixpoint lit (s : string) : regex :=
  match s with
  | EmptyString => REmpty
  | String a EmptyString => RChar (CLit a)
  | String a s' => RSeq (RChar (CLit a)) (lit s')
  end.

(** [(w1|w2|...)] *)
Fixpoint grp (ws : list string) : regex :=
  match ws with
  | [] => REmpty
  | [w] => lit w
  | w :: ws' => RAlt (lit w) (grp ws')
  end.

Fixpoint seq (rs : list regex) : regex :=
  match rs with
  | [] => REmpty
  | [r] => r
  | r :: rs' => RSeq r (seq rs')
  end.

(** [\b(w1|w2|...)\b] *)
Definition words (ws : list string) : regex := seq [RBoundary; grp ws; RBoundary].

(** [\s+] and [.*] *)
Definition spaces1 : regex := RSeq (RChar CSpace) (RStar CSpace).
Definition dotstar : regex := RStar CDot.

End Re.

(* ===================================================================== *)
(** * sage_agents.py: the record types and the store *)
(* ===================================================================== *)

Module Models.
Import Py.

(** [class IntentType(Enum)], in declaration order. *)
Inductive IntentType : Type :=
| ANSWER | ACK | R_LANGUAGE_USE | R_INFORMATION | R_REVISION | R_EVALUATION
| R_GENERATION | NEGOTIATION | OTHER | QUESTION | R_CONFIRMATION
| CONVERSATION | R_TRANSLATION.

Definition IntentType_value (i : IntentType) : string :=
  match i with
  | ANSWER => "Answer" | ACK => "ACK" | R_LANGUAGE_USE => "R Language Use"
  | R_INFORMATION => "R Information" | R_REVISION => "R Revision"
  | R_EVALUATION => "R Evaluation" | R_GENERATION => "R Generation"
  | NEGOTIATION => "Negotiation" | OTHER => "Other" | QUESTION => "Question"
  | R_CONFIRMATION => "R Confirmation" | CONVERSATION => "Conversation"
  | R_TRANSLATION => "R Translation"
  end.

Definition IntentType_eqb (a b : IntentType) : bool :=
  String.eqb (IntentType_value a) (IntentType_value b).

(** What the validator writes on an interaction.  The sub-records carry the
    keys of the dictionaries the validator builds. *)
Module CriterionDetails.
Record t : Type := make
  { positive_indicators_found : list string;
    negative_indicators_found : list string;
    content_length : Z;
    word_count : Z }.
End CriterionDetails.

Module QualityEntry.
Record t : Type := make
  { score : Q; meets_threshold : bool; details : CriterionDetails.t }.
End QualityEntry.

Module ComplianceEntry.
(** [requirements_met] holds what [_check_requirements_met] returns; the
    list type stands for that value. *)
Record t : Type := make
  { score : Q; compliant : bool; requirements_met : list string }.
End ComplianceEntry.

Module BiasDetail.
Record t : Type := make { matches : list string; severity : string }.
End BiasDetail.

Module BiasDetection.
Record t : Type := make
  { detected_biases : list string;
    bias_details : list (string * BiasDetail.t);
    bias_free : bool }.
End BiasDetection.

Module AspectResult.
Record t : Type := make
  { score : Q; consistent : bool; description : string }.
End AspectResult.

Module ConsistencyCheck.
(** The early return of [_check_consistency] has only the keys
    [consistent] and [details]; the full one has the other three. *)
Record t : Type := make
  { overall_consistency : option Q;
    aspect_results : option (list (string * AspectResult.t));
    consistent : bool;
    details : option string }.
End ConsistencyCheck.

(** One line of [recommendations]; the rendering to text is left out. *)
Inductive recommendation : Type :=
| ImproveCriterion (criterion : string) (score threshold : Q)
| AddressCompliance (standard : string) (score : Q)
| RemoveBias (bias_type : string)
| ImproveConsistency (aspect : string).

Module ValidationResults.
Record t : Type := make
  { overall_score : Q;
    quality_scores : list (string * QualityEntry.t);
    educational_compliance : list (string * ComplianceEntry.t);
    bias_detection : BiasDetection.t;
    consistency_check : ConsistencyCheck.t;
    recommendations : list recommendation;
    approved : bool;
    issues : list string }.
End ValidationResults.

(** [class Interaction(db.Model)]; [checker_validation] holds the record
    that the source serialises with [json.dumps]. *)
Module Interaction.
Record t : Type := make
  { id : Z;
    session_id : string;
    learner_id : Z;
    user_input : string;
    assistant_response : option string;
    checker_validation : option ValidationResults.t;
    intent_type : option IntentType;
    confidence_score : Q;
    user_rating : option Z;
    context_data : option string;
    memory_key : option string;
    created_at : Z;
    completed_at : option Z }.

Definition set_feedback (i : t) (rating : Z) (now : Z) : t :=
  make (id i) (session_id i) (learner_id i) (user_input i)
       (assistant_response i) (checker_validation i) (intent_type i)
       (confidence_score i) (Some rating) (context_data i) (memory_key i)
       (created_at i) (Some now).

Definition set_checker_validation (i : t) (v : ValidationResults.t) : t :=
  make (id i) (session_id i) (learner_id i) (user_input i)
       (assistant_response i) (Some v) (intent_type i)
       (confidence_score i) (user_rating i) (context_data i) (memory_key i)
       (created_at i) (completed_at i).
End Interaction.

(** [class AgentMemory(db.Model)] *)
Module AgentMemory.
Record t : Type := make
  { id : Z;
    learner_id : Z;
    memory_key : string;
    memory_type : string;
    content : string;
    importance_score : Q;
    access_count : Z;
    last_accessed : Z;
    decay_factor : Q;
    retention_strength : Q;
    tags : option string;
    created_at : Z }.

(** The three fields [update_access] assigns. *)
Definition set_access (m : t) (count : Z) (accessed : Z) (retention : Q) : t :=
  make (id m) (learner_id m) (memory_key m) (memory_type m) (content m)
       (importance_score m) count accessed (decay_factor m) retention
       (tags m) (created_at m).
End AgentMemory.

(** The database: the two tables the modelled code uses, and the clock.
    [clock n] is what the [n]-th call of [datetime.utcnow()] returns,
    [ticks] counts the calls made so far. *)
Record Store : Type := mkStore
  { interactions : list Interaction.t;
    memories : list AgentMemory.t;
    clock : nat -> Z;
    ticks : nat }.

(** Code that reads or writes the store and may raise. *)
Definition M (A : Type) : Type := Store -> Store * result A.

Definition ret {A} (a : A) : M A := fun st => (st, Ok a).
Definition raise {A} (e : exn) : M A := fun st => (st, Raise e).
Definition bind {A B} (c : M A) (f : A -> M B) : M B :=
  fun st => match c st with
            | (st', Ok a) => f a st'
            | (st', Raise e) => (st', Raise e)
            end.
Definition lift {A} (r : result A) : M A := fun st => (st, r).

Notation "'let*' x ':=' c 'in' k" := (bind c (fun x => k))
  (at level 10, x name, c at level 100, k at level 200).

(** [for x in xs: body(x)], collecting what the body returns. *)
Fixpoint for_each {A B} (body : A -> M B) (xs : list A) : M (list B) :=
  match xs with
  | [] => ret []
  | x :: xs' =>
      let* y := body x in
      let* ys := for_each body xs' in
      ret (y :: ys)
  end.

(** [datetime.utcnow()] *)
Definition utcnow : M Z :=
  fun st => (mkStore (interactions st) (memories st) (clock st) (S (ticks st)),
             Ok (clock st (ticks st))).

(** [timedelta.total_seconds()] of a difference given in microseconds. *)
Definition total_seconds (us : Z) : Q := (inject_Z us / 1000000)%Q.

(** [Interaction.query.get(id)]: the row of that primary key, [None] when
    there is none; a key that no row has and that does not fit the 64-bit
    integer of the column raises [OverflowError] when it is bound. *)
Definition get_interaction (iid : Z) : M (option Interaction.t) :=
  fun st =>
    match find (fun i => Interaction.id i =? iid) (interactions st) with
    | Some interaction => (st, Ok (Some interaction))
    | None => if int64 iid then (st, Ok None) else (st, Raise OverflowError)
    end.

(** Writing a changed row back: the row with the same primary key is
    replaced. *)
Definition put_interaction (i : Interaction.t) : M unit :=
  fun st =>
    (mkStore (map (fun j => if Interaction.id j =? Interaction.id i then i else j)
                  (interactions st))
             (memories st) (clock st) (ticks st), Ok tt).

Definition put_memory (m : AgentMemory.t) : M unit :=
  fun st =>
    (mkStore (interactions st)
             (map (fun j => if AgentMemory.id j =? AgentMemory.id m then m else j)
                  (memories st))
             (clock st) (ticks st), Ok tt).

(** The primary key of a new row: one more than the largest in use. *)
Definition next_memory_id (st : Store) : Z :=
  1 + fold_left Z.max (map AgentMemory.id (memories st)) 0.

(** [db.session.add(memory); db.session.commit()] for a new memory.  The
    insert fills the column defaults: [access_count] 0, [decay_factor] and
    [retention_strength] 1.0, no tags, and [last_accessed] and [created_at]
    each from a call of [datetime.utcnow]. *)
Definition add_memory (learner_id : Z) (memory_key memory_type content : string)
           (importance_score : Q) : M unit :=
  let* accessed := utcnow in
  let* created := utcnow in
  fun st =>
    let row := AgentMemory.make (next_memory_id st) learner_id memory_key
                 memory_type content importance_score 0 accessed 1.0 1.0 None
                 created in
    (mkStore (interactions st) (memories st ++ [row]) (clock st) (ticks st),
     Ok tt).

(** [AgentMemory.update_access]
<<
    self.access_count += 1
    self.last_accessed = datetime.utcnow()
    time_since_creation = (datetime.utcnow() - self.created_at).total_seconds() / 86400
    self.retention_strength = self.importance_score * (1 / (1 + 0.1 * time_since_creation))
    db.session.commit()
>>
    The value returned is the object after the call. *)
Definition update_access (self : AgentMemory.t) : M AgentMemory.t :=
  let access_count := AgentMemory.access_count self + 1 in
  let* last_accessed := utcnow in
  let* now := utcnow in
  let time_since_creation :=
    (total_seconds (now - AgentMemory.created_at self) / 86400)%Q in
  let* factor := lift (fdiv 1 (1 + 0.1 * time_since_creation)) in
  let retention_strength := (AgentMemory.importance_score self * factor)%Q in
  let self' := AgentMemory.set_access self access_count last_accessed
                 retention_strength in
  let* _ := put_memory self' in
  ret self'.

(** [ORDER BY]: a stable insertion sort; [before a b] says that [a] must
    come before [b].  Rows that the keys do not separate keep table order. *)
Fixpoint insert_by {A} (before : A -> A -> bool) (x : A) (l : list A) : list A :=
  match l with
  | [] => [x]
  | y :: l' => if before x y then x :: l else y :: insert_by before x l'
  end.

Definition order_by {A} (before : A -> A -> bool) (l : list A) : list A :=
  fold_left (fun acc x => insert_by before x acc) l [].

End Models.

(* ===================================================================== *)
(** * user_agent.py: [class UserAgent] *)
(* ===================================================================== *)

Module UserAgent.
Import Py Re Models.
Local Open Scope string_scope.

(** [_initialize_intent_patterns]: the table, in the order the dictionary
    literal lists its keys. *)
Definition intent_patterns : list (IntentType * list regex) :=
  [ (ANSWER,
      [ words ["what"; "how"; "why"; "when"; "where"; "which"; "who"];
        words ["question"; "ask"; "tell me"; "explain"];
        lit "?";
        words ["help me understand"; "clarify"; "define"] ]);
    (ACK,
      [ words ["yes"; "ok"; "okay"; "right"; "correct"; "thanks"; "thank you"];
        words ["i see"; "i understand"; "got it"; "makes sense"];
        words ["good"; "great"; "perfect"; "excellent"] ]);
    (R_LANGUAGE_USE,
      [ words ["grammar"; "syntax"; "word choice"; "vocabulary"];
        words ["correct"; "fix"; "improve"; "better way"];
        words ["comma"; "period"; "punctuation"; "spelling"];
        words ["tense"; "verb"; "noun"; "adjective"; "adverb"] ]);
    (R_INFORMATION,
      [ words ["information"; "details"; "facts"; "data"];
        words ["research"; "source"; "reference"; "citation"];
        words ["background"; "context"; "history"] ]);
    (R_REVISION,
      [ words ["revise"; "edit"; "rewrite"; "improve"; "modify"];
        words ["draft"; "version"; "change"; "update"];
        words ["better"; "enhance"; "polish"; "refine"] ]);
    (R_EVALUATION,
      [ words ["evaluate"; "assess"; "judge"; "rate"; "score"];
        words ["feedback"; "opinion"; "thoughts"; "review"];
        words ["good"; "bad"; "quality"; "strength"; "weakness"] ]);
    (R_GENERATION,
      [ words ["generate"; "create"; "write"; "produce"; "make"];
        words ["example"; "sample"; "template"; "outline"];
        words ["idea"; "suggestion"; "topic"; "theme"] ]);
    (NEGOTIATION,
      [ words ["but"; "however"; "although"; "disagree"; "different"];
        words ["alternative"; "another way"; "instead"];
        words ["negotiate"; "discuss"; "debate"] ]);
    (R_CONFIRMATION,
      [ words ["confirm"; "verify"; "check"; "sure"; "certain"];
        words ["is this right"; "am i correct"; "does this work"] ]);
    (CONVERSATION,
      [ words ["hello"; "hi"; "hey"; "good morning"; "good afternoon"];
        words ["how are you"; "nice to meet"; "chat"; "talk"] ]);
    (R_TRANSLATION,
      [ words ["translate"; "translation"; "chinese"; "korean"];
        words ["mean in"; "say in"; "express in"] ]) ].

(** The inner loop of [classify_intent]:
<<
    score = 0
    for pattern in patterns:
        matches = len(re.findall(pattern, user_input_lower))
        score += matches
>> *)
Definition pattern_score (patterns : list regex) (user_input_lower : string) : Z :=
  fold_left
    (fun score pattern =>
       let matches := Z.of_nat (List.length (findall pattern user_input_lower)) in
       (score + matches)%Z)
    patterns 0%Z.

(** The outer loop: a category enters [intent_scores] only when its score
    is positive, and only then is the score divided by the word count. *)
Fixpoint score_intents (table : list (IntentType * list regex))
         (user_input user_input_lower : string)
         (intent_scores : list (IntentType * Q))
  : result (list (IntentType * Q)) :=
  match table with
  | [] => Ok intent_scores
  | (intent_type, patterns) :: table' =>
      let score := pattern_score patterns user_input_lower in
      if (0 <? score)%Z then
        rbind (truediv score (Z.of_nat (List.length (split user_input))))
              (fun normalized =>
                 score_intents table' user_input user_input_lower
                   (dict_set IntentType_eqb intent_scores intent_type normalized))
      else score_intents table' user_input user_input_lower intent_scores
  end.

(** [intent_scores[k]] and [intent_scores.get(k)] for a key of the
    dictionary; the default is never read. *)
Definition score_of (intent_scores : list (IntentType * Q)) (k : IntentType) : Q :=
  match dict_get IntentType_eqb intent_scores k with
  | Some q => q
  | None => 0%Q
  end.

(** [classify_intent]
<<
    if not intent_scores:
        return IntentType.OTHER, 0.5
    best_intent = max(intent_scores, key=intent_scores.get)
    confidence = min(intent_scores[best_intent] * 2, 1.0)
    return best_intent, confidence
>> *)
Definition classify_intent (user_input : string) : result (IntentType * Q) :=
  let user_input_lower := lower user_input in
  rbind (score_intents intent_patterns user_input user_input_lower [])
        (fun intent_scores =>
           match dict_keys intent_scores with
           | [] => Ok (OTHER, 0.5%Q)
           | first :: rest =>
               let best_intent := max_by (score_of intent_scores) first rest in
               let confidence :=
                 min2 (score_of intent_scores best_intent * 2) 1.0 in
               Ok (best_intent, confidence)
           end).

(** ** The classifier over any text library

    [classify_intent] reaches the text through three library calls only:
    [user_input.lower()], [len(user_input.split())] and
    [len(re.findall(pattern, user_input_lower))].  A [TextLibrary] is any
    implementation of the three, on any type of text; Python's own, on
    Unicode strings, is one.  Over a library the classifier is the same
    code as above. *)
Record TextLibrary : Type := mkTextLibrary
  { str : Type;
    str_lower : str -> str;
    count_words : str -> nat;
    count_matches : regex -> str -> nat }.

Section AnyLibrary.
Variable L : TextLibrary.

Definition pattern_score_with (patterns : list regex) (user_input_lower : str L) : Z :=
  fold_left
    (fun score pattern =>
       let matches := Z.of_nat (count_matches L pattern user_input_lower) in
       (score + matches)%Z)
    patterns 0%Z.

Fixpoint score_intents_with (table : list (IntentType * list regex))
         (user_input user_input_lower : str L)
         (intent_scores : list (IntentType * Q))
  : result (list (IntentType * Q)) :=
  match table with
  | [] => Ok intent_scores
  | (intent_type, patterns) :: table' =>
      let score := pattern_score_with patterns user_input_lower in
      if (0 <? score)%Z then
        rbind (truediv score (Z.of_nat (count_words L user_input)))
              (fun normalized =>
                 score_intents_with table' user_input user_input_lower
                   (dict_set IntentType_eqb intent_scores intent_type normalized))
      else score_intents_with table' user_input user_input_lower intent_scores
  end.

Definition classify_intent_with (user_input : str L) : result (IntentType * Q) :=
  let user_input_lower := str_lower L user_input in
  rbind (score_intents_with intent_patterns user_input user_input_lower [])
        (fun intent_scores =>
           match dict_keys intent_scores with
           | [] => Ok (OTHER, 0.5%Q)
           | first :: rest =>
               let best_intent := max_by (score_of intent_scores) first rest in
               let confidence :=
                 min2 (score_of intent_scores best_intent * 2) 1.0 in
               Ok (best_intent, confidence)
           end).

End AnyLibrary.

(** The library of this embedding: ASCII strings with [lower], [split]
    and [findall]; [classify_intent] is [classify_intent_with] on it. *)
Definition ascii_library : TextLibrary :=
  mkTextLibrary string lower
    (fun s => List.length (split s))
    (fun pattern s => List.length (findall pattern s)).

(** [store_memory] *)
Definition store_memory (learner_id : Z) (memory_key content memory_type : string)
           (importance : Q) : M unit :=
  add_memory learner_id memory_key memory_type content importance.

(** The [ORDER BY importance_score DESC, last_accessed DESC] of
    [retrieve_memory]. *)
Definition memory_before (a b : AgentMemory.t) : bool :=
  (Qlt_bool (AgentMemory.importance_score b) (AgentMemory.importance_score a)
   || (Qeq_bool (AgentMemory.importance_score a) (AgentMemory.importance_score b)
       && (AgentMemory.last_accessed b <? AgentMemory.last_accessed a)%Z))%bool.

(** The query of [retrieve_memory].  A filter argument that is [None] or
    the empty string is not applied; [contains] on the key column is plain
    substring containment. *)
Definition select_memories (st : Store) (learner_id : Z)
           (memory_key memory_type : option string) (limit : nat)
  : list AgentMemory.t :=
  let query := filter (fun m => (AgentMemory.learner_id m =? learner_id)%Z)
                      (memories st) in
  let query :=
    match memory_key with
    | Some k => if truthy k
                then filter (fun m => contains k (AgentMemory.memory_key m)) query
                else query
    | None => query
    end in
  let query :=
    match memory_type with
    | Some ty => if truthy ty
                 then filter (fun m => String.eqb (AgentMemory.memory_type m) ty) query
                 else query
    | None => query
    end in
  firstn limit (order_by memory_before query).

(** [retrieve_memory]
<<
    memories = query.order_by(...).limit(limit).all()
    for memory in memories:
        memory.update_access()
    return memories
>> *)
Definition retrieve_memory (learner_id : Z) (memory_key memory_type : option string)
           (limit : nat) : M (list AgentMemory.t) :=
  fun st =>
    for_each update_access
             (select_memories st learner_id memory_key memory_type limit) st.

(** The same method on the rows of any query: what [retrieve_memory]
    does with the rows once the database has selected them. *)
Definition retrieve_rows (query : Store -> list AgentMemory.t)
  : M (list AgentMemory.t) :=
  fun st => for_each update_access (query st) st.

(** [f"feedback_{interaction_id}"] *)
Definition feedback_key (interaction_id : Z) : string :=
  "feedback_" ++ DecimalString.NilZero.string_of_int (Z.to_int interaction_id).

(** [handle_feedback]
<<
    interaction = Interaction.query.get(interaction_id)
    if interaction:
        interaction.user_rating = rating
        interaction.completed_at = datetime.utcnow()
        if feedback_text:
            self.store_memory(learner_id=interaction.learner_id,
                              memory_key=f"feedback_{interaction_id}",
                              content=feedback_text, memory_type='long_term',
                              importance=rating / 5.0)
        db.session.commit()
>> *)
Definition handle_feedback (interaction_id : Z) (rating : Z)
           (feedback_text : option string) : M unit :=
  let* found := get_interaction interaction_id in
  match found with
  | Some interaction =>
      let* now := utcnow in
      let* _ := put_interaction (Interaction.set_feedback interaction rating now) in
      match feedback_text with
      | Some text =>
          if truthy text then
            store_memory (Interaction.learner_id interaction)
                         (feedback_key interaction_id) text "long_term"
                         (inject_Z rating / 5.0)%Q
          else ret tt
      | None => ret tt
      end
  | None => ret tt
  end.

End UserAgent.

(* ===================================================================== *)
(** * checker_agent.py: [class CheckerAgent] *)
(* ===================================================================== *)

Module CheckerAgent.
Import Py Re Models.
Local Open Scope string_scope.

(** The arguments of [validate_response].  Of [assistant_response] the
    validator reads the keys [content] and [type], of [processed_input]
    the key [learner_profile] and in it the key [id]. *)
Record AssistantResponse : Type := mkResponse
  { content : option string; type : option string }.

Record LearnerProfileDict : Type := mkProfile { id : option Z }.

Record ProcessedInput : Type := mkInput
  { learner_profile : option LearnerProfileDict }.

(** [assistant_response.get('content', '')] *)
Definition get_content (r : AssistantResponse) : string :=
  match content r with
  | Some c => c
  | None => EmptyString
  end.

(** ** The four tables of [__init__] *)

Record criteria_config : Type := mkCriteria
  { min_score : Q;
    indicators : list string;
    negative_indicators : list string }.

Definition quality_criteria : list (string * criteria_config) :=
  [ ("clarity",
      mkCriteria 0.7
        ["clear explanation"; "step-by-step"; "examples provided"]
        ["vague"; "confusing"; "unclear"]);
    ("accuracy",
      mkCriteria 0.8
        ["factually correct"; "proper grammar"; "appropriate terminology"]
        ["incorrect information"; "grammar errors"; "misleading"]);
    ("helpfulness",
      mkCriteria 0.7
        ["actionable advice"; "specific suggestions"; "relevant examples"]
        ["generic response"; "unhelpful"; "irrelevant"]);
    ("engagement",
      mkCriteria 0.6
        ["encouraging tone"; "interactive elements"; "motivational"]
        ["dry"; "boring"; "discouraging"]) ].

Definition educational_standards : list (string * list string) :=
  [ ("age_appropriate",
      ["suitable language level"; "appropriate content complexity";
       "no inappropriate references"]);
    ("pedagogically_sound",
      ["builds on prior knowledge"; "scaffolded learning";
       "clear learning objectives"; "promotes self-regulation"]);
    ("culturally_sensitive",
      ["respects cultural differences"; "inclusive language";
       "avoids stereotypes"; "considers EFL context"]);
    ("academically_rigorous",
      ["accurate information"; "proper citations when needed";
       "evidence-based suggestions"; "promotes critical thinking"]) ].

Definition bias_patterns : list (string * list regex) :=
  [ ("gender_bias",
      [ seq [words ["he"; "his"; "him"]; dotstar;
             words ["strong"; "leader"; "assertive"]];
        seq [words ["she"; "her"]; dotstar;
             words ["emotional"; "sensitive"; "nurturing"]] ]);
    ("cultural_bias",
      [ seq [RBoundary; grp ["western"; "eastern"]; spaces1;
             grp ["way"; "approach"; "method"]; RBoundary];
        seq [RBoundary; grp ["american"; "chinese"; "korean"]; spaces1;
             grp ["students"; "learners"]; spaces1;
             grp ["are"; "tend to"]; RBoundary] ]);
    ("linguistic_bias",
      [ seq [RBoundary; lit "native"; spaces1; lit "speaker"; RBoundary];
        seq [RBoundary; lit "perfect"; spaces1; lit "english"; RBoundary];
        seq [RBoundary; lit "broken"; spaces1; lit "english"; RBoundary] ]);
    ("ability_bias",
      [ seq [RBoundary; grp ["smart"; "intelligent"]; spaces1;
             grp ["students"; "learners"]; RBoundary];
        seq [RBoundary; grp ["slow"; "weak"]; spaces1;
             grp ["learners"; "students"]; RBoundary] ]) ].

Definition consistency_checks : list (string * string) :=
  [ ("terminology", "Check for consistent use of technical terms");
    ("tone", "Verify consistent supportive and encouraging tone");
    ("difficulty_level", "Ensure appropriate difficulty progression");
    ("learning_objectives", "Align with stated learning goals");
    ("feedback_style", "Maintain consistent feedback approach") ].

(** ** Quality *)

(** The counting loops of [_calculate_criterion_score]:
<<
    for indicator in indicators:
        if indicator.lower() in content_lower:
            count += 1
>> *)
Definition count_indicators (indicators : list string) (content_lower : string) : Z :=
  fold_left
    (fun count indicator =>
       if contains (lower indicator) content_lower then (count + 1)%Z else count)
    indicators 0%Z.

(** [_calculate_criterion_score]
<<
    total_indicators = len(criteria_config['indicators'])
    if total_indicators == 0:
        return 0.5
    positive_ratio = positive_count / total_indicators
    negative_penalty = negative_count * 0.2
    score = max(0.0, min(1.0, positive_ratio - negative_penalty))
>> *)
Definition _calculate_criterion_score (content : string) (cfg : criteria_config) : Q :=
  let content_lower := lower content in
  let positive_count := count_indicators (indicators cfg) content_lower in
  let negative_count := count_indicators (negative_indicators cfg) content_lower in
  let total_indicators := Z.of_nat (List.length (indicators cfg)) in
  if (total_indicators =? 0)%Z then 0.5%Q
  else
    let positive_ratio := (inject_Z positive_count / inject_Z total_indicators)%Q in
    let negative_penalty := (inject_Z negative_count * 0.2)%Q in
    max2 0.0 (min2 1.0 (positive_ratio - negative_penalty)).

(** [_get_criterion_details] *)
Definition _get_criterion_details (content : string) (cfg : criteria_config)
  : CriterionDetails.t :=
  let content_lower := lower content in
  let found := filter (fun indicator => contains (lower indicator) content_lower) in
  CriterionDetails.make (found (indicators cfg)) (found (negative_indicators cfg))
    (len content) (Z.of_nat (List.length (split content))).

(** [_assess_quality] *)
Definition _assess_quality (assistant_response : AssistantResponse)
           (processed_input : ProcessedInput) : list (string * QualityEntry.t) :=
  let content := get_content assistant_response in
  fold_left
    (fun quality_scores '(criterion, cfg) =>
       let score := _calculate_criterion_score content cfg in
       dict_set String.eqb quality_scores criterion
         (QualityEntry.make score (Qle_bool (min_score cfg) score)
            (_get_criterion_details content cfg)))
    quality_criteria [].

(** ** Educational standards *)

(** [_check_requirement]; [content] is the lower-cased response. *)
Definition _check_requirement (content requirement : string)
           (profile : option LearnerProfileDict) : bool :=
  let requirement_lower := lower requirement in
  if contains "appropriate" requirement_lower then (50 <? len content)%Z
  else if contains "scaffolded" requirement_lower then
    (contains "step" content || contains "first" content
     || contains "next" content)%bool
  else if contains "self-regulation" requirement_lower then
    any_in ["goal"; "plan"; "monitor"; "reflect"; "strategy"] content
  else if contains "cultural" requirement_lower then
    (negb (contains "culture" content) || contains "inclusive" content)%bool
  else if contains "evidence" requirement_lower then
    (contains "research" content || contains "study" content
     || contains "evidence" content)%bool
  else true.

(** [_assess_educational_compliance] *)
Definition _assess_educational_compliance (content : string)
           (requirements : list string) (profile : option LearnerProfileDict) : Q :=
  let content_lower := lower content in
  let met_requirements :=
    fold_left
      (fun met requirement =>
         if _check_requirement content_lower requirement profile
         then (met + 1)%Z else met)
      requirements 0%Z in
  match requirements with
  | [] => 0.0%Q
  | _ => (inject_Z met_requirements / inject_Z (Z.of_nat (List.length requirements)))%Q
  end.

(** ** Bias *)

(** [_assess_bias_severity] *)
Definition _assess_bias_severity (matches : list string) (bias_type : string) : string :=
  if (3 <=? List.length matches)%nat then "high"
  else if (2 <=? List.length matches)%nat then "medium"
  else "low".

(** [_detect_bias]
<<
    for bias_type, patterns in self.bias_patterns.items():
        matches = []
        for pattern in patterns:
            found_matches = re.findall(pattern, content, re.IGNORECASE)
            matches.extend(found_matches)
        if matches:
            detected_biases.append(bias_type)
            bias_details[bias_type] = {...}
>> *)
Definition detect_bias_loop (content : string)
  : list string * list (string * BiasDetail.t) :=
  fold_left
    (fun '(detected_biases, bias_details) '(bias_type, patterns) =>
       let matches :=
         fold_left (fun matches pattern => (matches ++ findall_ic pattern content)%list)
                   patterns [] in
       match matches with
       | [] => (detected_biases, bias_details)
       | _ :: _ =>
           ((detected_biases ++ [bias_type])%list,
            dict_set String.eqb bias_details bias_type
              (BiasDetail.make matches (_assess_bias_severity matches bias_type)))
       end)
    bias_patterns ([], []).

Definition _detect_bias (assistant_response : AssistantResponse) : BiasDetection.t :=
  let content := get_content assistant_response in
  let detected_biases := fst (detect_bias_loop content) in
  let bias_details := snd (detect_bias_loop content) in
  BiasDetection.make detected_biases bias_details
    (Nat.eqb (List.length detected_biases) 0).

(** ** Consistency *)

(** [_get_recent_interactions]: the learner's interactions that have a
    response, newest first, at most [limit] of them. *)
Definition _get_recent_interactions (learner_id : Z) (limit : nat)
  : M (list Interaction.t) :=
  fun st =>
    let rows :=
      filter (fun i =>
                match Interaction.assistant_response i with
                | Some _ => true
                | None => false
                end)
             (filter (fun i => (Interaction.learner_id i =? learner_id)%Z)
                     (interactions st)) in
    (st, Ok (firstn limit
               (order_by (fun a b => (Interaction.created_at b <?
                                      Interaction.created_at a)%Z) rows))).

Definition encouraging_words : list string :=
  ["great"; "excellent"; "good"; "well done"; "keep up"].

(** [_assess_consistency_aspect] *)
Definition _assess_consistency_aspect (current_response : AssistantResponse)
           (recent_interactions : list Interaction.t) (aspect : string) : Q :=
  match recent_interactions with
  | [] => 1.0%Q
  | _ :: _ =>
      let current_content := lower (get_content current_response) in
      if String.eqb aspect "tone" then
        let current_encouraging := any_in encouraging_words current_content in
        let past_encouraging_count :=
          fold_left
            (fun count interaction =>
               match Interaction.assistant_response interaction with
               | Some response =>
                   if (truthy response
                       && any_in encouraging_words (lower response))%bool
                   then (count + 1)%Z else count
               | None => count
               end)
            recent_interactions 0%Z in
        let past_encouraging_ratio :=
          (inject_Z past_encouraging_count
           / inject_Z (Z.of_nat (List.length recent_interactions)))%Q in
        if (Qlt_bool 0.5 past_encouraging_ratio && current_encouraging)%bool
        then 1.0%Q
        else if (Qle_bool past_encouraging_ratio 0.5
                 && negb current_encouraging)%bool
        then 1.0%Q
        else 0.5%Q
      else 0.8%Q
  end.

(** A value is falsy when it is [None] or [0]. *)
Definition falsy_id (learner_id : option Z) : bool :=
  match learner_id with
  | Some n => (n =? 0)%Z
  | None => true
  end.

(** [processed_input.get('learner_profile', {}).get('id')] *)
Definition get_learner_id (processed_input : ProcessedInput) : option Z :=
  match learner_profile processed_input with
  | Some profile => id profile
  | None => None
  end.

(** [_check_consistency]
<<
    if not learner_id:
        return {'consistent': True, 'details': 'No previous interactions to compare'}
    recent_interactions = self._get_recent_interactions(learner_id, limit=5)
    ...
    overall_consistency = sum(
        result['score'] for result in consistency_results.values()
    ) / len(consistency_results) if consistency_results else 1.0
>> *)
Definition _check_consistency (assistant_response : AssistantResponse)
           (processed_input : ProcessedInput) : M ConsistencyCheck.t :=
  match get_learner_id processed_input with
  | Some learner_id =>
      if falsy_id (Some learner_id) then
        ret (ConsistencyCheck.make None None true
               (Some "No previous interactions to compare"))
      else
        let* recent_interactions := _get_recent_interactions learner_id 5 in
        let consistency_results :=
          fold_left
            (fun consistency_results '(check_type, description) =>
               let consistency_score :=
                 _assess_consistency_aspect assistant_response
                   recent_interactions check_type in
               dict_set String.eqb consistency_results check_type
                 (AspectResult.make consistency_score
                    (Qle_bool 0.7 consistency_score) description))
            consistency_checks [] in
        let overall_consistency :=
          match consistency_results with
          | [] => 1.0%Q
          | _ :: _ =>
              (fsum (map AspectResult.score (dict_values consistency_results))
               / inject_Z (Z.of_nat (List.length consistency_results)))%Q
          end in
        ret (ConsistencyCheck.make (Some overall_consistency)
               (Some consistency_results)
               (Qle_bool 0.7 overall_consistency) None)
  | None =>
      ret (ConsistencyCheck.make None None true
             (Some "No previous interactions to compare"))
  end.

(** ** Aggregation *)

(** [consistency_check.get('overall_consistency', 1.0)] *)
Definition get_overall_consistency (consistency_check : ConsistencyCheck.t) : Q :=
  match ConsistencyCheck.overall_consistency consistency_check with
  | Some c => c
  | None => 1.0%Q
  end.

(** [_calculate_overall_score]
<<
    quality_avg = sum(score['score'] for score in quality_scores.values()) / len(quality_scores)
    educational_avg = sum(score['score'] for score in educational_compliance.values()) / len(educational_compliance)
    bias_score = 1.0 if bias_detection['bias_free'] else 0.0
    consistency_score = consistency_check.get('overall_consistency', 1.0)
    overall_score = (quality_avg * weights['quality'] + educational_avg * weights['educational']
                     + bias_score * weights['bias'] + consistency_score * weights['consistency'])
    return round(overall_score, 3)
>> *)
Definition _calculate_overall_score
           (quality_scores : list (string * QualityEntry.t))
           (educational_compliance : list (string * ComplianceEntry.t))
           (bias_detection : BiasDetection.t)
           (consistency_check : ConsistencyCheck.t) : result Q :=
  let w_quality := 0.4%Q in
  let w_educational := 0.3%Q in
  let w_bias := 0.2%Q in
  let w_consistency := 0.1%Q in
  rbind (fdiv (fsum (map QualityEntry.score (dict_values quality_scores)))
              (inject_Z (Z.of_nat (List.length quality_scores))))
        (fun quality_avg =>
  rbind (fdiv (fsum (map ComplianceEntry.score (dict_values educational_compliance)))
              (inject_Z (Z.of_nat (List.length educational_compliance))))
        (fun educational_avg =>
  let bias_score :=
    if BiasDetection.bias_free bias_detection then 1.0%Q else 0.0%Q in
  let consistency_score := get_overall_consistency consistency_check in
  let overall_score :=
    (quality_avg * w_quality + educational_avg * w_educational
     + bias_score * w_bias + consistency_score * w_consistency)%Q in
  Ok (round3 overall_score))).

(** [_generate_recommendations], one entry per line it appends. *)
Definition _generate_recommendations
           (quality_scores : list (string * QualityEntry.t))
           (educational_compliance : list (string * ComplianceEntry.t))
           (bias_detection : BiasDetection.t)
           (consistency_check : ConsistencyCheck.t) : list recommendation :=
  let threshold criterion :=
    match dict_get String.eqb quality_criteria criterion with
    | Some cfg => min_score cfg
    | None => 0%Q
    end in
  (flat_map (fun '(criterion, result) =>
               if QualityEntry.meets_threshold result then []
               else [ImproveCriterion criterion (QualityEntry.score result)
                       (threshold criterion)])
            quality_scores
   ++ flat_map (fun '(standard, result) =>
                  if ComplianceEntry.compliant result then []
                  else [AddressCompliance standard (ComplianceEntry.score result)])
               educational_compliance
   ++ map RemoveBias (BiasDetection.detected_biases bias_detection)
   ++ match ConsistencyCheck.aspect_results consistency_check with
      | Some aspect_results =>
          flat_map (fun '(aspect, result) =>
                      if AspectResult.consistent result then []
                      else [ImproveConsistency aspect])
                   aspect_results
      | None => []
      end)%list.

(** [_store_validation_results] *)
Definition _store_validation_results (interaction_id : Z)
           (validation_results : ValidationResults.t) : M unit :=
  let* found := get_interaction interaction_id in
  match found with
  | Some interaction =>
      put_interaction
        (Interaction.set_checker_validation interaction validation_results)
  | None => ret tt
  end.

Section Validator.

(** [attributes] are the names a [CheckerAgent] has as attributes;
    [check_requirements_met_body] stands for the body that a method
    [_check_requirements_met] has when the class defines one. *)
Variable attributes : list string.
Variable check_requirements_met_body : string -> list string -> list string.

(** [self._check_requirements_met(content, requirements)]: the attribute
    is looked up first, and a name the object does not have raises
    [AttributeError]. *)
Definition call_check_requirements_met (content : string)
           (requirements : list string) : result (list string) :=
  if existsb (String.eqb "_check_requirements_met") attributes
  then Ok (check_requirements_met_body content requirements)
  else Raise (AttributeError "_check_requirements_met").

(** [_check_educational_standards]
<<
    for standard, requirements in self.educational_standards.items():
        compliance_score = self._assess_educational_compliance(
            content, requirements, learner_profile)
        compliance_results[standard] = {
            'score': compliance_score,
            'compliant': compliance_score >= 0.7,
            'requirements_met': self._check_requirements_met(content, requirements)
        }
>> *)
Fixpoint check_standards_loop (standards : list (string * list string))
         (content : string) (profile : option LearnerProfileDict)
         (compliance_results : list (string * ComplianceEntry.t))
  : result (list (string * ComplianceEntry.t)) :=
  match standards with
  | [] => Ok compliance_results
  | (standard, requirements) :: standards' =>
      let compliance_score :=
        _assess_educational_compliance content requirements profile in
      rbind (call_check_requirements_met content requirements)
            (fun met =>
               check_standards_loop standards' content profile
                 (dict_set String.eqb compliance_results standard
                    (ComplianceEntry.make compliance_score
                       (Qle_bool 0.7 compliance_score) met)))
  end.

Definition _check_educational_standards (assistant_response : AssistantResponse)
           (processed_input : ProcessedInput)
  : result (list (string * ComplianceEntry.t)) :=
  let content := get_content assistant_response in
  check_standards_loop educational_standards content
    (learner_profile processed_input) [].

(** [validate_response] *)
Definition validate_response (assistant_response : AssistantResponse)
           (processed_input : ProcessedInput) (interaction_id : Z)
  : M ValidationResults.t :=
  let quality_scores := _assess_quality assistant_response processed_input in
  let* educational_compliance :=
    lift (_check_educational_standards assistant_response processed_input) in
  let bias_detection := _detect_bias assistant_response in
  let* consistency_check := _check_consistency assistant_response processed_input in
  let* overall_score :=
    lift (_calculate_overall_score quality_scores educational_compliance
            bias_detection consistency_check) in
  let recommendations :=
    _generate_recommendations quality_scores educational_compliance
      bias_detection consistency_check in
  let approved :=
    (Qle_bool 0.7 overall_score
     && Nat.eqb (List.length (BiasDetection.detected_biases bias_detection)) 0)%bool in
  let validation_results :=
    ValidationResults.make overall_score quality_scores educational_compliance
      bias_detection consistency_check recommendations approved [] in
  let* _ := _store_validation_results interaction_id validation_results in
  ret validation_results.

End Validator.

(** The attributes of a [CheckerAgent] as the source has them: the four
    tables that [__init__] sets, and the methods of the class body.  The
    class has no base class and no [__getattr__]. *)
Definition CheckerAgent_attributes : list string :=
  [ "quality_criteria"; "educational_standards"; "bias_patterns";
    "consistency_checks";
    "__init__"; "_initialize_quality_criteria";
    "_initialize_educational_standards"; "_initialize_bias_patterns";
    "_initialize_consistency_checks"; "validate_response"; "_assess_quality";
    "_calculate_criterion_score"; "_get_criterion_details";
    "_check_educational_standards"; "_assess_educational_compliance";
    "_check_requirement"; "_detect_bias"; "_assess_bias_severity";
    "_check_consistency"; "_assess_consistency_aspect";
    "_get_recent_interactions"; "_calculate_overall_score";
    "_generate_recommendations"; "_store_validation_results";
    "get_validation_summary"; "_generate_learner_recommendations" ].

(** The same class with a method [_check_requirements_met] added. *)
Definition with_check_requirements_met : list string :=
  "_check_requirements_met" :: CheckerAgent_attributes.

End CheckerAgent.

(* ===================================================================== *)
(** * sage_api.py: the [/feedback] route *)
(* ===================================================================== *)

Module SageApi.
Import Py Models.
Local Open Scope string_scope.

(** A JSON value as [request.get_json()] decodes it. *)
Inductive json : Type :=
| JNull
| JBool (b : bool)
| JInt (n : Z)
| JFloat (q : Q)
| JStr (s : string).

(** The body of a feedback request: a JSON object, each key present or
    not.  An interaction id is an integer. *)
Record FeedbackData : Type := mkFeedback
  { interaction_id : option Z;
    rating : option json;
    feedback_text : option string }.

(** [isinstance(v, int)] with the integer it stands for; [bool] is a
    subclass of [int]. *)
Definition as_int (v : json) : option Z :=
  match v with
  | JInt n => Some n
  | JBool b => Some (if b then 1 else 0)%Z
  | _ => None
  end.

(** What a route returns: [jsonify({'message': ...})] or
    [jsonify({'error': ...})], with the status code. *)
Inductive body : Type :=
| message (text : string)
| error (text : string).

Definition response : Type := (body * Z)%type.

(** [submit_feedback]
<<
    required_fields = ['interaction_id', 'rating']
    for field in required_fields:
        if field not in data:
            return jsonify({'error': f'Missing required field: {field}'}), 400
    ...
    if not isinstance(rating, int) or rating < 1 or rating > 5:
        return jsonify({'error': 'Rating must be an integer between 1 and 5'}), 400
    user_agent.handle_feedback(interaction_id=..., rating=..., feedback_text=...)
    return jsonify({'message': 'Feedback submitted successfully'}), 200
  except Exception as e:
    return jsonify({'error': 'Internal server error'}), 500
>> *)
Definition submit_feedback (data : FeedbackData) (st : Store) : Store * response :=
  match interaction_id data with
  | None => (st, (error "Missing required field: interaction_id", 400%Z))
  | Some iid =>
      match rating data with
      | None => (st, (error "Missing required field: rating", 400%Z))
      | Some rating_value =>
          let invalid :=
            match as_int rating_value with
            | Some r => ((r <? 1)%Z || (5 <? r)%Z)%bool
            | None => true
            end in
          if invalid then
            (st, (error "Rating must be an integer between 1 and 5", 400%Z))
          else
            let r := match as_int rating_value with
                     | Some r => r
                     | None => 0%Z
                     end in
            match UserAgent.handle_feedback iid r (feedback_text data) st with
            | (st', Ok _) => (st', (message "Feedback submitted successfully", 200%Z))
            | (st', Raise _) => (st', (error "Internal server error", 500%Z))
            end
      end
  end.

End SageApi.

(* ===================================================================== *)
(** * The notions the specification uses *)
(* ===================================================================== *)

Module Spec.
Import Py Re Models.
Local Open Scope string_scope.

(** ** Intent classifier *)

(** The number of pattern matches of a category in a text, 0 for a
    category the table does not list. *)
Definition match_count (intent : IntentType) (user_input : string) : Z :=
  match dict_get IntentType_eqb UserAgent.intent_patterns intent with
  | Some patterns => UserAgent.pattern_score patterns (lower user_input)
  | None => 0%Z
  end.

Definition word_count (user_input : string) : Z :=
  Z.of_nat (List.length (split user_input)).

Definition declared : list IntentType := dict_keys UserAgent.intent_patterns.

(** [a] is declared before [b] in the pattern table. *)
Definition declared_before (a b : IntentType) : Prop :=
  exists l1 l2 l3, declared = (l1 ++ a :: l2 ++ b :: l3)%list.

(** The same notions over any text library. *)
Section AnyLibrary.
Variable L : UserAgent.TextLibrary.

Definition match_count_with (intent : IntentType) (user_input : UserAgent.str L) : Z :=
  match dict_get IntentType_eqb UserAgent.intent_patterns intent with
  | Some patterns =>
      UserAgent.pattern_score_with L patterns (UserAgent.str_lower L user_input)
  | None => 0%Z
  end.

Definition word_count_with (user_input : UserAgent.str L) : Z :=
  Z.of_nat (UserAgent.count_words L user_input).

(** The length-normalized score of a category. *)
Definition normalized_score_with (user_input : UserAgent.str L)
           (intent : IntentType) : Q :=
  (inject_Z (match_count_with intent user_input)
   / inject_Z (word_count_with user_input))%Q.

(** [c] has the highest normalized score, and no category declared
    before it reaches that score. *)
Definition highest_first (user_input : UserAgent.str L) (c : IntentType) : Prop :=
  In c declared
  /\ (forall c', In c' declared ->
        (normalized_score_with user_input c' <= normalized_score_with user_input c)%Q)
  /\ (forall c', declared_before c' c ->
        (normalized_score_with user_input c' < normalized_score_with user_input c)%Q).

(** The classifier returns the category that [highest_first] singles out. *)
Definition returns_highest_first (user_input : UserAgent.str L) : Prop :=
  exists c confidence,
    UserAgent.classify_intent_with L user_input = Ok (c, confidence)
    /\ highest_first user_input c.

(** No category of the table has a match in the text. *)
Definition no_match (user_input : UserAgent.str L) : bool :=
  forallb (fun '(_, patterns) =>
             (UserAgent.pattern_score_with L patterns
                (UserAgent.str_lower L user_input) =? 0)%Z)
          UserAgent.intent_patterns.

(** What the classifier needs of the library to divide safely: a text in
    whose lower-cased form a pattern of the table matches has a word.
    Every pattern of the table reads a character that is not white space,
    lower-casing turns no white space into such a character, and
    [split()] leaves a word for every text that is not all white space;
    so Python's library has the property. *)
Definition matches_need_a_word : Prop :=
  forall intent patterns (user_input : UserAgent.str L),
    In (intent, patterns) UserAgent.intent_patterns ->
    (0 < UserAgent.pattern_score_with L patterns
           (UserAgent.str_lower L user_input))%Z ->
    (0 < word_count_with user_input)%Z.

End AnyLibrary.

(** ** Memory decay *)

(** Age of a memory at instant [now], in days. *)
Definition age_days (now : Z) (m : AgentMemory.t) : Q :=
  (total_seconds (now - AgentMemory.created_at m) / 86400)%Q.

(** [importance_score * 1 / (1 + 0.1 * age_days)] *)
Definition retention (importance age : Q) : Q :=
  (importance * (1 / (1 + 0.1 * age)))%Q.

(** What one retrieval does to a returned record [m], giving [m']: the
    access count goes up by one and the retention strength is the decay
    formula at the record's age at an instant [now] read during the call;
    importance and creation time stay. *)
Definition accessed_at (now : Z) (m m' : AgentMemory.t) : Prop :=
  AgentMemory.id m' = AgentMemory.id m
  /\ AgentMemory.access_count m' = (AgentMemory.access_count m + 1)%Z
  /\ (AgentMemory.retention_strength m'
      == retention (AgentMemory.importance_score m) (age_days now m))%Q
  /\ AgentMemory.importance_score m' = AgentMemory.importance_score m
  /\ AgentMemory.created_at m' = AgentMemory.created_at m.

(** Retention falls strictly as age grows. *)
Definition strictly_decreasing_in_age (importance : Q) : Prop :=
  forall age1 age2 : Q,
    (0 <= age1)%Q -> (age1 < age2)%Q ->
    (retention importance age2 < retention importance age1)%Q.

(** Retention at a later age is never larger than at an earlier one. *)
Definition never_larger_later (importance : Q) : Prop :=
  forall age1 age2 : Q,
    (0 <= age1)%Q -> (age1 <= age2)%Q ->
    (retention importance age2 <= retention importance age1)%Q.

(** ** Quality criteria *)

(** A phrase occurs in the text, case-insensitively. *)
Definition occurs_in (content phrase : string) : bool :=
  contains (lower phrase) (lower content).

(** The number of phrases of a list that occur in the text. *)
Definition phrase_matches (phrases : list string) (content : string) : Z :=
  Z.of_nat (List.length (filter (occurs_in content) phrases)).

Definition criterion_formula (cfg : CheckerAgent.criteria_config)
           (content : string) : Q :=
  Qmax 0 (Qmin 1
    (inject_Z (phrase_matches (CheckerAgent.indicators cfg) content)
     / inject_Z (Z.of_nat (List.length (CheckerAgent.indicators cfg)))
     - 0.2 * inject_Z (phrase_matches (CheckerAgent.negative_indicators cfg) content)))%Q.

(** ** Aggregation *)

Definition mean4 (a b c d : Q) : Q := ((a + b + c + d) / 4)%Q.

(** 1.0 when no bias category was detected, else 0.0. *)
Definition bias_term (b : BiasDetection.t) : Q :=
  match BiasDetection.detected_biases b with
  | [] => 1%Q
  | _ :: _ => 0%Q
  end.

(** The overall consistency score of a check: the value the check stored,
    or 1.0 when it stored none. *)
Definition consistency_term (c : ConsistencyCheck.t) : Q :=
  match ConsistencyCheck.overall_consistency c with
  | Some overall => overall
  | None => 1%Q
  end.

(** The weighted sum, before rounding. *)
Definition weighted_score (quality_mean compliance_mean bias consistency : Q) : Q :=
  (0.4 * quality_mean + 0.3 * compliance_mean + 0.2 * bias + 0.1 * consistency)%Q.

(** [r] is [x] rounded to 3 decimals: a multiple of 0.001 at most half a
    thousandth away from [x].  When [x] lies midway between two multiples
    either of them qualifies. *)
Definition rounded_to_3_decimals (x r : Q) : Prop :=
  (exists k : Z, (r == k # 1000)%Q) /\ (Qabs (r - x) <= 1 # 2000)%Q.

(** ** Feedback *)

(** A feedback submission with rating 5 and text [text] on interaction
    [iid] succeeds and adds exactly one memory, a long-term one of
    importance 1. *)
Definition feedback_adds_memory (st : Store) (iid : Z) (text : string) : Prop :=
  exists st' m,
    SageApi.submit_feedback
      (SageApi.mkFeedback (Some iid) (Some (SageApi.JInt 5)) (Some text)) st
    = (st', (SageApi.message "Feedback submitted successfully", 200%Z))
    /\ memories st' = (memories st ++ [m])%list
    /\ AgentMemory.memory_type m = "long_term"
    /\ (AgentMemory.importance_score m == 1)%Q
    /\ AgentMemory.content m = text
    /\ AgentMemory.memory_key m = UserAgent.feedback_key iid.

(** The rating of a request is a JSON integer from 1 to 5. *)
Definition integer_1_to_5 (v : SageApi.json) : Prop :=
  exists n, v = SageApi.JInt n /\ (1 <= n <= 5)%Z.

(** The rating of a request is a number outside 1-5. *)
Definition outside_1_to_5 (v : SageApi.json) : Prop :=
  match v with
  | SageApi.JInt n => (n < 1 \/ 5 < n)%Z
  | SageApi.JFloat q => (q < 1 \/ 5 < q)%Q
  | _ => False
  end.

(** The ratings the route lets through: the integers from 1 to 5, and the
    JSON value [true], which Python takes as the integer 1. *)
Definition accepted_rating (v : SageApi.json) : Prop :=
  integer_1_to_5 v \/ v = SageApi.JBool true.

(** The id is within the 64-bit range and no stored interaction has it. *)
Definition resolves_to_nothing (st : Store) (iid : Z) : Prop :=
  int64 iid = true
  /\ find (fun i => (Interaction.id i =? iid)%Z) (interactions st) = None.

(** The learner has no stored interaction that carries a response. *)
Definition no_prior_response (st : Store) (learner_id : Z) : Prop :=
  forall i, In i (interactions st) ->
            Interaction.learner_id i = learner_id ->
            Interaction.assistant_response i = None.

End Spec.

(* ===================================================================== *)
(** * Auxiliary notions for the proofs about the classifier *)
(* ===================================================================== *)

Module Analysis.
Import Py Re Models.

(** The text is white space only (or empty). *)
Fixpoint all_space (s : string) : bool :=
  match s with
  | EmptyString => true
  | String a s' => (isspace a && all_space s')%bool
  end.

(** A sufficient syntactic test: every match of the pattern reads a
    literal character that is not white space. *)
Fixpoint reads_visible (r : regex) : bool :=
  match r with
  | RChar (CLit c) => negb (isspace c)
  | RChar _ => false
  | RBoundary => false
  | REmpty => false
  | RSeq r1 r2 => (reads_visible r1 || reads_visible r2)%bool
  | RAlt r1 r2 => (reads_visible r1 && reads_visible r2)%bool
  | RStar _ => false
  end.

(** The categories with a match in the text, in table order, each with
    its normalized score. *)
Definition scored (L : UserAgent.TextLibrary)
           (table : list (IntentType * list regex)) (user_input : UserAgent.str L)
  : list (IntentType * Q) :=
  flat_map
    (fun '(intent, patterns) =>
       let score :=
         UserAgent.pattern_score_with L patterns (UserAgent.str_lower L user_input) in
       if (0 <? score)%Z
       then [(intent,
              (inject_Z score / inject_Z (Spec.word_count_with L user_input))%Q)]
       else [])
    table.

End Analysis.

(* ===================================================================== *)
(** * Sample data for the concrete runs *)
(* ===================================================================== *)

Module Samples.
Import Py Models.
Local Open Scope string_scope.

Definition second : Z := 1000000.
Definition day : Z := 86400 * second.

(** A clock that shows [now] at every reading. *)
Definition frozen (now : Z) : nat -> Z := fun _ => now.

(** Learner 7 has sent a first message (interaction 4); no response is
    stored yet. *)
Definition first_turn : Interaction.t :=
  Interaction.make 4 "s1" 7 "hello" None None (Some CONVERSATION) 1.0
    None None None 100 None.

Definition first_turn_store : Store := mkStore [first_turn] [] (frozen 200) 0.

(** A memory of learner 7 created at instant 0, of the given importance. *)
Definition memory_of (importance : Q) : AgentMemory.t :=
  AgentMemory.make 1 7 "feedback_4" "long_term" "very clear" importance
    0 0 1.0 1.0 None 0.

(** The store holding that memory, read at instant [now]. *)
Definition store_at (importance : Q) (now : Z) : Store :=
  mkStore [] [memory_of importance] (frozen now) 0.

End Samples.

(* ===================================================================== *)
(** * user_agent.py: conversation state and personalization *)
(* ===================================================================== *)

Module Conversation.
Import Py Models.
Local Open Scope string_scope.



(** [str(n)] on an int, as an f-string renders it. *)
Definition str_int (n : Z) : string :=
  DecimalString.NilZero.string_of_int (Z.to_int n).


(** [[i.intent_type.value for i in interactions if i.intent_type]] *)
Definition intent_values (interactions : list Interaction.t) : list string :=
  flat_map (fun i => match Interaction.intent_type i with
                     | Some t => [IntentType_value t]
                     | None => []
                     end)
           interactions.

(** [[i.user_rating for i in interactions if i.user_rating]]: a rating
    that is [None] or 0 is left out. *)
Definition given_ratings (interactions : list Interaction.t) : list Z :=
  flat_map (fun i => match Interaction.user_rating i with
                     | Some r => if (r =? 0)%Z then [] else [r]
                     | None => []
                     end)
           interactions.

(** [intent_counts.get(intent, 0)] *)
Definition count_of (intent_counts : list (string * Z)) (intent : string) : Z :=
  match dict_get String.eqb intent_counts intent with
  | Some n => n
  | None => 0%Z
  end.

(** The counting loop
<<
    intent_counts = {}
    for intent in intents:
        intent_counts[intent] = intent_counts.get(intent, 0) + 1
>> *)
Definition count_intents (intents : list string) : list (string * Z) :=
  fold_left
    (fun intent_counts intent =>
       dict_set String.eqb intent_counts intent
                (count_of intent_counts intent + 1)%Z)
    intents [].


(** [_generate_context_summary] *)
Definition _generate_context_summary (interactions : list Interaction.t) : string :=
  match interactions with
  | [] => "New conversation session."
  | _ :: _ =>
      let intent_counts := count_intents (intent_values interactions) in
      let n := str_int (Z.of_nat (List.length interactions)) in
      match dict_keys intent_counts with
      | first :: rest =>
          let primary_intent :=
            max_by (fun k => inject_Z (count_of intent_counts k)) first rest in
          "Recent focus on " ++ primary_intent ++ " with " ++ n ++ " interactions."
      | [] => "Ongoing conversation with " ++ n ++ " interactions."
      end
  end.




(** [_get_top_intents]
<<
    return sorted(intent_counts.keys(), key=intent_counts.get, reverse=True)[:top_n]
>>
    [sorted] is stable, also with [reverse=True]: keys with the same count
    keep the order of their first occurrence. *)
Definition _get_top_intents (intents : list string) (top_n : nat) : list string :=
  let intent_counts := count_intents intents in
  firstn top_n
    (order_by (fun a b => (count_of intent_counts b <? count_of intent_counts a)%Z)
              (dict_keys intent_counts)).

(** [sum(xs)] over ints. *)
Definition isum (xs : list Z) : Z := fold_left Z.add xs 0%Z.

(** [len(set(xs))] *)
Definition distinct (xs : list string) : Z :=
  Z.of_nat (List.length (nodup string_dec xs)).

(** [timedelta.days] of a difference given in microseconds: whole days,
    rounded down. *)
Definition days (us : Z) : Z := (us / 86400000000)%Z.

(** What [get_personalization_data] returns: the dictionary with the one
    key [interaction_count], or the one with all six keys. *)
Record Personalization : Type := mkPersonalization
  { p_interaction_count : Z;
    avg_rating : Q;
    preferred_intents : list string;
    avg_input_length : Q;
    session_count : Z;
    recent_activity : Z }.

Inductive personalization_data : Type :=
| OnlyCount (interaction_count : Z)
| Statistics (data : Personalization).

(** [get_personalization_data]
<<
    interactions = Interaction.query.filter_by(learner_id=learner_id).all()
    if not interactions:
        return {'interaction_count': 0}
    ratings = [i.user_rating for i in interactions if i.user_rating]
    intents = [i.intent_type.value for i in interactions if i.intent_type]
    personalization_data = {
        'interaction_count': len(interactions),
        'avg_rating': sum(ratings) / len(ratings) if ratings else 0,
        'preferred_intents': self._get_top_intents(intents),
        'avg_input_length': sum(len(i.user_input) for i in interactions) / len(interactions),
        'session_count': len(set(i.session_id for i in interactions)),
        'recent_activity': len([i for i in interactions if
                              (datetime.utcnow() - i.created_at).days <= 7])
    }
>>
    The clock is read once for every interaction of the learner.  A
    learner id that does not fit a 64-bit integer cannot be bound to the
    query: [OverflowError]. *)
Definition get_personalization_data (learner_id : Z) : M personalization_data :=
  fun st =>
    let interactions :=
      filter (fun i => (Interaction.learner_id i =? learner_id)%Z)
             (Models.interactions st) in
    if negb (int64 learner_id) then (st, Raise OverflowError) else
    match interactions with
    | [] => (st, Ok (OnlyCount 0))
    | _ :: _ =>
        let ratings := given_ratings interactions in
        let intents := intent_values interactions in
        (let* avg_rating :=
           match ratings with
           | [] => ret 0%Q
           | _ :: _ => lift (truediv (isum ratings) (Z.of_nat (List.length ratings)))
           end in
         let* avg_input_length :=
           lift (truediv (isum (map (fun i => len (Interaction.user_input i))
                                    interactions))
                         (Z.of_nat (List.length interactions))) in
         let* recent :=
           for_each (fun i => let* now := utcnow in
                              ret (days (now - Interaction.created_at i) <=? 7)%Z)
                    interactions in
         ret (Statistics
                (mkPersonalization
                   (Z.of_nat (List.length interactions))
                   avg_rating
                   (_get_top_intents intents 3)
                   avg_input_length
                   (distinct (map Interaction.session_id interactions))
                   (Z.of_nat (List.length (filter (fun b : bool => b) recent))))))
          st
    end.

End Conversation.

(* ===================================================================== *)
(** * user_agent.py and sage_agents.py: learner profiles *)
(* ===================================================================== *)

Module Learners.
Import Py Models.
Local Open Scope string_scope.

(** [class LearnerProfile(db.Model)] *)
Module LearnerProfile.
Record t : Type := make
  { id : Z;
    user_id : string;
    name : option string;
    course_type : string;
    proficiency_level : string;
    preferred_language : string;
    learning_goals : option string;
    created_at : Z;
    updated_at : Z }.
End LearnerProfile.







(** ** sage_api.py: the learner routes *)









End Learners.

(* ===================================================================== *)
(** * checker_agent.py: the validation summary *)
(* ===================================================================== *)

Module Summary.
Import Py Models.
Local Open Scope string_scope.

(** [_generate_learner_recommendations] *)
Definition _generate_learner_recommendations (quality_scores : list (string * Q))
           (overall_score : Q) : list string :=
  let overall :=
    if Qlt_bool overall_score 0.7
    then ["Focus on improving overall response quality"] else [] in
  let per_criterion :=
    flat_map (fun '(criterion, score) =>
                if Qlt_bool score 0.7
                then ["Improve " ++ criterion ++ " in responses"] else [])
             quality_scores in
  let recommendations := (overall ++ per_criterion)%list in
  match recommendations with
  | [] => ["Maintain current high quality standards"]
  | _ :: _ => recommendations
  end.

Record Report : Type := mkReport
  { period_days : Z;
    total_interactions : Z;
    avg_overall_score : Q;
    approval_rate : Q;
    bias_detection_rate : Q;
    avg_quality_scores : list (string * Q);
    recommendations : list string }.

(** What [get_validation_summary] returns: the dictionary with the one
    key [message], or the report. *)
Inductive validation_summary : Type :=
| NothingFound (message : string)
| Found (report : Report).

(** The query: the learner's interactions created at or after the cutoff
    that carry a validation, each with that validation. *)
Definition validated_since (st : Store) (learner_id cutoff_date : Z)
  : list (Interaction.t * ValidationResults.t) :=
  flat_map
    (fun i =>
       if ((Interaction.learner_id i =? learner_id)%Z
           && (cutoff_date <=? Interaction.created_at i)%Z)%bool
       then match Interaction.checker_validation i with
            | Some v => [(i, v)]
            | None => []
            end
       else [])
    (interactions st).

(** The accumulators of the aggregation loop. *)
Record totals : Type := mkTotals
  { total_score : Q;
    quality_scores : list (string * list Q);
    bias_count : Z;
    approved_count : Z }.

Definition scores_of (quality_scores : list (string * list Q)) (criterion : string)
  : option (list Q) :=
  dict_get String.eqb quality_scores criterion.

(** The inner loop
<<
    for criterion, score_data in validation_data.get('quality_scores', {}).items():
        if criterion in quality_scores:
            quality_scores[criterion].append(score_data.get('score', 0))
>> *)
Definition collect_quality (quality_scores : list (string * list Q))
           (entries : list (string * QualityEntry.t)) : list (string * list Q) :=
  fold_left
    (fun quality_scores '(criterion, score_data) =>
       match scores_of quality_scores criterion with
       | Some scores =>
           dict_set String.eqb quality_scores criterion
                    (scores ++ [QualityEntry.score score_data])%list
       | None => quality_scores
       end)
    entries quality_scores.

(** One round of the outer loop. *)
Definition aggregate (acc : totals) (validation_data : ValidationResults.t) : totals :=
  mkTotals
    (total_score acc + ValidationResults.overall_score validation_data)%Q
    (collect_quality (quality_scores acc)
       (ValidationResults.quality_scores validation_data))
    (match BiasDetection.detected_biases
             (ValidationResults.bias_detection validation_data) with
     | [] => bias_count acc
     | _ :: _ => (bias_count acc + 1)%Z
     end)
    (if ValidationResults.approved validation_data
     then (approved_count acc + 1)%Z else approved_count acc).

Definition initial_totals : totals :=
  mkTotals 0 [("clarity", []); ("accuracy", []); ("helpfulness", []);
              ("engagement", [])] 0 0.

(** [sum(scores) / len(scores) if scores else 0] *)
Definition average (scores : list Q) : result Q :=
  match scores with
  | [] => Ok 0%Q
  | _ :: _ => fdiv (fsum scores) (inject_Z (Z.of_nat (List.length scores)))
  end.

(** The dictionary comprehension over [quality_scores.items()]. *)
Fixpoint average_each (quality_scores : list (string * list Q))
  : result (list (string * Q)) :=
  match quality_scores with
  | [] => Ok []
  | (criterion, scores) :: rest =>
      rbind (average scores) (fun a =>
      rbind (average_each rest) (fun d =>
      Ok ((criterion, a) :: d)))
  end.

(** [get_validation_summary]
<<
    cutoff_date = datetime.utcnow() - timedelta(days=days)
    interactions = Interaction.query.filter(
        Interaction.learner_id == learner_id,
        Interaction.created_at >= cutoff_date,
        Interaction.checker_validation.isnot(None)).all()
    if not interactions:
        return {'message': 'No validated interactions found'}
    ...
    avg_overall_score = total_score / len(interactions) if interactions else 0
    avg_quality_scores = {criterion: sum(scores) / len(scores) if scores else 0
                          for criterion, scores in quality_scores.items()}
    return {'period_days': days, 'total_interactions': len(interactions),
            'avg_overall_score': round(avg_overall_score, 3),
            'approval_rate': round(approved_count / len(interactions), 3) if interactions else 0,
            'bias_detection_rate': round(bias_count / len(interactions), 3) if interactions else 0,
            'avg_quality_scores': avg_quality_scores,
            'recommendations': self._generate_learner_recommendations(
                                   avg_quality_scores, avg_overall_score)}
>>
    A learner id that does not fit a 64-bit integer cannot be bound to the
    query: [OverflowError].  The cutoff is an instant of the model for
    every [days]; a [datetime] exists only from year 1 to year 9999. *)
Definition get_validation_summary (learner_id : Z) (days : Z) : M validation_summary :=
  let* now := utcnow in
  let cutoff_date := (now - days * 86400000000)%Z in
  fun st =>
    let interactions := validated_since st learner_id cutoff_date in
    if negb (int64 learner_id) then (st, Raise OverflowError) else
    match interactions with
    | [] => (st, Ok (NothingFound "No validated interactions found"))
    | _ :: _ =>
        let acc := fold_left aggregate (map snd interactions) initial_totals in
        let n := Z.of_nat (List.length interactions) in
        (st,
         rbind (fdiv (total_score acc) (inject_Z n)) (fun avg_overall_score =>
         rbind (average_each (quality_scores acc)) (fun avg_quality_scores =>
         rbind (truediv (approved_count acc) n) (fun approval =>
         rbind (truediv (bias_count acc) n) (fun bias =>
         Ok (Found
               (mkReport days n (round3 avg_overall_score) (round3 approval)
                  (round3 bias) avg_quality_scores
                  (_generate_learner_recommendations avg_quality_scores
                     avg_overall_score))))))))
    end.

End Summary.

(* ===================================================================== *)
(** * Notions used to state properties of the validator and the store *)
(* ===================================================================== *)

Module Notions.
Import Py Models.
Local Open Scope string_scope.

(** [self.educational_standards[standard]] *)
Definition requirements (standard : string) : list string :=
  match dict_get String.eqb CheckerAgent.educational_standards standard with
  | Some reqs => reqs
  | None => []
  end.

(** The score that [_check_educational_standards] computes for a standard
    of the table, and the verdict [compliant] it derives from it. *)
Definition compliance_score (content standard : string)
           (profile : option CheckerAgent.LearnerProfileDict) : Q :=
  CheckerAgent._assess_educational_compliance content (requirements standard) profile.

Definition compliant (content standard : string)
           (profile : option CheckerAgent.LearnerProfileDict) : bool :=
  Qle_bool 0.7 (compliance_score content standard profile).

(** The number of indicator phrases recorded as found in the details of a
    quality entry. *)
Definition found (entry : QualityEntry.t) : nat :=
  List.length (CriterionDetails.positive_indicators_found (QualityEntry.details entry)).

Definition found_negative (entry : QualityEntry.t) : nat :=
  List.length (CriterionDetails.negative_indicators_found (QualityEntry.details entry)).

(** All matches of the patterns of one bias category in a text, as the
    inner loop of [_detect_bias] collects them. *)
Definition bias_matches (patterns : list Re.regex) (content : string) : list string :=
  flat_map (fun pattern => Re.findall_ic pattern content) patterns.

(** A score lies between 0 and 1. *)
Definition unit_interval (q : Q) : Prop := (0 <= q)%Q /\ (q <= 1)%Q.

End Notions.

(* ===================================================================== *)
(** * Tactics *)
(* ===================================================================== *)

(** Closes a goal that holds by evaluation. *)
Ltac evaluate := vm_compute; reflexivity.

(** Splits a membership in a table written out in the source into one
    goal per entry. *)
Ltac table_entry H :=
  simpl in H;
  repeat (destruct H as [H | H]; [inversion H; subst; clear H|]);
  try contradiction.

(** One round of [for_each update_access] that returned: names the run
    of the first access and the run of the rest. *)
Ltac for_each_round E st1 m1 E1 st2 ms E2 :=
  simpl in E; unfold Models.bind at 1 in E;
  destruct (Models.update_access _ _) as [st1 [m1|?]] eqn:E1; [|discriminate E];
  unfold Models.bind at 1 in E;
  destruct (Models.for_each Models.update_access _ st1) as [st2 [ms|?]] eqn:E2;
    [|discriminate E];
  unfold Models.ret in E.

(* ===================================================================== *)
(** * Facts about the embedding *)
(* ===================================================================== *)

Import Py Re Models.

Section QFacts.
Local Open Scope Q_scope.

Lemma Qlt_bool_iff (a b : Q) : Qlt_bool a b = true <-> a < b.
Proof.
  unfold Qlt_bool. rewrite negb_true_iff. split; intro H.
  - apply Qnot_le_lt. intro Hle. apply Qle_bool_iff in Hle. congruence.
  - destruct (Qle_bool b a) eqn:E; [|reflexivity].
    apply Qle_bool_iff in E. exfalso. apply (Qlt_not_le _ _ H E).
Qed.

Lemma Qlt_bool_false_iff (a b : Q) : Qlt_bool a b = false <-> b <= a.
Proof.
  unfold Qlt_bool. rewrite negb_false_iff. apply Qle_bool_iff.
Qed.

Lemma max2_is_Qmax (a b : Q) : max2 a b == Qmax a b.
Proof.
  unfold max2. destruct (Qlt_bool a b) eqn:E.
  - apply Qlt_bool_iff in E. symmetry. apply Q.max_r. now apply Qlt_le_weak.
  - apply Qlt_bool_false_iff in E. symmetry. now apply Q.max_l.
Qed.

Lemma min2_is_Qmin (a b : Q) : min2 a b == Qmin a b.
Proof.
  unfold min2. destruct (Qlt_bool b a) eqn:E.
  - apply Qlt_bool_iff in E. symmetry. apply Q.min_r. now apply Qlt_le_weak.
  - apply Qlt_bool_false_iff in E. symmetry. now apply Q.min_l.
Qed.

Lemma round_half_even_compat (x y : Q) :
  x == y -> round_half_even x = round_half_even y.
Proof.
  intro H. unfold round_half_even.
  rewrite (Qfloor_comp _ _ H).
  assert (E : (x - inject_Z (Qfloor y) ?= 1 # 2) = (y - inject_Z (Qfloor y) ?= 1 # 2)).
  { apply Qcompare_comp; [now rewrite H | reflexivity]. }
  now rewrite E.
Qed.

Lemma round3_compat (x y : Q) : x == y -> round3 x = round3 y.
Proof.
  intro H. unfold round3. f_equal. apply round_half_even_compat. now rewrite H.
Qed.

(** Rounding to the nearest integer moves a number by at most one half. *)
Lemma round_half_even_near (q : Q) :
  Qabs (inject_Z (round_half_even q) - q) <= 1 # 2.
Proof.
  unfold round_half_even.
  pose proof (Qfloor_le q) as Hlo. pose proof (Qlt_floor q) as Hhi.
  rewrite inject_Z_plus in Hhi. change (inject_Z 1) with 1 in Hhi.
  assert (Hup : inject_Z (Qfloor q + 1) == inject_Z (Qfloor q) + 1).
  { rewrite inject_Z_plus. reflexivity. }
  destruct (q - inject_Z (Qfloor q) ?= 1 # 2) eqn:E.
  - apply Qeq_alt in E. destruct (Z.even (Qfloor q)).
    + revert Hlo Hhi E. generalize (inject_Z (Qfloor q)). intros f Hlo Hhi E.
      apply Qabs_case; intros; lra.
    + rewrite Hup. revert Hlo Hhi E. generalize (inject_Z (Qfloor q)).
      intros f Hlo Hhi E. apply Qabs_case; intros; lra.
  - apply Qlt_alt in E.
    revert Hlo Hhi E. generalize (inject_Z (Qfloor q)). intros f Hlo Hhi E.
    apply Qabs_case; intros; lra.
  - apply Qgt_alt in E. rewrite Hup.
    revert Hlo Hhi E. generalize (inject_Z (Qfloor q)). intros f Hlo Hhi E.
    apply Qabs_case; intros; lra.
Qed.

(** [round(x, 3)] is a number of thousandths at most half a thousandth
    away from [x]. *)
Lemma round3_near (x : Q) : Qabs (round3 x - x) <= 1 # 2000.
Proof.
  pose proof (round_half_even_near (x * 1000)) as H.
  assert (E : round3 x - x == (inject_Z (round_half_even (x * 1000)) - x * 1000) / 1000).
  { unfold round3. rewrite (Qmake_Qdiv (round_half_even (x * 1000)) 1000). field. }
  rewrite E. unfold Qdiv. rewrite Qabs_Qmult.
  change (Qabs (/ 1000)) with (/ 1000).
  apply Qle_trans with ((1 # 2) * / 1000).
  - apply Qmult_le_compat_r; [exact H | discriminate].
  - discriminate.
Qed.

End QFacts.

(* --------------------------------------------------------------------- *)
(** ** The validator *)

Section ValidatorFacts.
Import CheckerAgent.
Local Open Scope string_scope.

(** [_assess_quality] always fills the four criteria, in table order. *)
Lemma assess_quality_entries resp pin :
  exists q1 q2 q3 q4,
    _assess_quality resp pin =
    [("clarity", q1); ("accuracy", q2); ("helpfulness", q3); ("engagement", q4)].
Proof. do 4 eexists. reflexivity. Qed.

(** With a method to call, the compliance loop fills the four standards. *)
Lemma check_educational_standards_entries body resp pin :
  exists e1 e2 e3 e4,
    _check_educational_standards with_check_requirements_met body resp pin =
    Ok [("age_appropriate", e1); ("pedagogically_sound", e2);
        ("culturally_sensitive", e3); ("academically_rigorous", e4)].
Proof. do 4 eexists. reflexivity. Qed.

(** The consistency check reads the store and leaves it as it was. *)
Lemma check_consistency_reads resp pin st :
  exists cc, _check_consistency resp pin st = (st, Ok cc).
Proof.
  unfold _check_consistency.
  destruct (get_learner_id pin) as [lid|]; [|eexists; reflexivity].
  destruct (falsy_id (Some lid)); eexists; reflexivity.
Qed.

Lemma detect_bias_free resp :
  BiasDetection.bias_free (_detect_bias resp)
  = Nat.eqb (List.length (BiasDetection.detected_biases (_detect_bias resp))) 0.
Proof.
  reflexivity.
Qed.

Lemma calculate_overall_score_four q1 q2 q3 q4 e1 e2 e3 e4 bd cc :
  exists overall,
    _calculate_overall_score [q1; q2; q3; q4] [e1; e2; e3; e4] bd cc = Ok overall.
Proof. eexists. reflexivity. Qed.

End ValidatorFacts.

Section ValidatorTheorems.
Import CheckerAgent.
Local Open Scope string_scope.

(** Had the class a method [_check_requirements_met], whatever its body,
    every call of [validate_response] on an interaction id within the
    64-bit range would return a record whose approval is the conjunction
    of the score threshold and bias freedom. *)
Lemma validate_response_with_method body resp pin iid st :
  int64 iid = true ->
  exists st' r,
    validate_response with_check_requirements_met body resp pin iid st = (st', Ok r)
    /\ ValidationResults.bias_detection r = _detect_bias resp
    /\ ValidationResults.approved r
       = (Qle_bool 0.7 (ValidationResults.overall_score r)
          && Nat.eqb (List.length (BiasDetection.detected_biases
                                     (ValidationResults.bias_detection r))) 0)%bool.
Proof.
  intro Hid. unfold validate_response, bind, lift.
  destruct (check_educational_standards_entries body resp pin)
    as [e1 [e2 [e3 [e4 He]]]].
  rewrite He.
  destruct (check_consistency_reads resp pin st) as [cc Hc]. rewrite Hc.
  destruct (assess_quality_entries resp pin) as [q1 [q2 [q3 [q4 Hq]]]].
  rewrite Hq.
  destruct (calculate_overall_score_four
              ("clarity", q1) ("accuracy", q2) ("helpfulness", q3)
              ("engagement", q4) ("age_appropriate", e1)
              ("pedagogically_sound", e2) ("culturally_sensitive", e3)
              ("academically_rigorous", e4) (_detect_bias resp) cc)
    as [overall Ho].
  rewrite Ho.
  unfold _store_validation_results, bind, get_interaction. rewrite Hid.
  destruct (find _ (interactions st)); eexists; eexists;
    (split; [reflexivity | split; reflexivity]).
Qed.

(** C1, on the code as it stands: [_check_requirements_met] is not among
    the attributes of [CheckerAgent], so every call of
    [validate_response] raises [AttributeError] inside
    [_check_educational_standards], before an approval is computed, and
    leaves the store untouched.  No response is ever approved or
    rejected. *)
Theorem validate_response_raises_AttributeError body resp pin iid st :
  validate_response CheckerAgent_attributes body resp pin iid st
  = (st, Raise (AttributeError "_check_requirements_met")).
Proof. reflexivity. Qed.

End ValidatorTheorems.

Section Aggregation.
Import CheckerAgent Spec.
Local Open Scope string_scope.

Lemma fsum4 (a b c d : Q) : (fsum [a; b; c; d] == a + b + c + d)%Q.
Proof. unfold fsum. simpl. ring. Qed.

Lemma bias_score_is_bias_term resp :
  ((if BiasDetection.bias_free (_detect_bias resp) then 1.0 else 0.0)
   == bias_term (_detect_bias resp))%Q.
Proof.
  rewrite detect_bias_free. unfold bias_term.
  destruct (BiasDetection.detected_biases (_detect_bias resp)); reflexivity.
Qed.

(** What [_calculate_overall_score] reads from the consistency check is
    the consistency term. *)
Lemma overall_consistency_is_consistency_term (cc : ConsistencyCheck.t) :
  (get_overall_consistency cc == consistency_term cc)%Q.
Proof.
  unfold get_overall_consistency, consistency_term.
  destruct (ConsistencyCheck.overall_consistency cc); reflexivity.
Qed.

Lemma round3_rounded_to_3_decimals (x y : Q) :
  (x == y)%Q -> rounded_to_3_decimals y (round3 x).
Proof.
  intro E. split.
  - exists (round_half_even (x * 1000)). reflexivity.
  - rewrite <- E. apply round3_near.
Qed.

(** C2: on every four quality entries and four compliance entries,
    [_calculate_overall_score] returns a number of thousandths that is at
    most half a thousandth away from 0.4 times the mean of the quality
    scores plus 0.3 times the mean of the compliance scores plus 0.2 times
    (1 if no bias category is detected, else 0) plus 0.1 times the overall
    consistency (the value the check stored, 1.0 when it stored none):
    the weighted sum rounded to 3 decimals. *)
Theorem overall_score_is_rounded_weighted_sum
        (k1 k2 k3 k4 : string) (q1 q2 q3 q4 : QualityEntry.t)
        (n1 n2 n3 n4 : string) (e1 e2 e3 e4 : ComplianceEntry.t)
        (resp : AssistantResponse) (cc : ConsistencyCheck.t) :
  exists overall,
    _calculate_overall_score
      [(k1, q1); (k2, q2); (k3, q3); (k4, q4)]
      [(n1, e1); (n2, e2); (n3, e3); (n4, e4)]
      (_detect_bias resp) cc
    = Ok overall
    /\ rounded_to_3_decimals
         (weighted_score
            (mean4 (QualityEntry.score q1) (QualityEntry.score q2)
                   (QualityEntry.score q3) (QualityEntry.score q4))
            (mean4 (ComplianceEntry.score e1) (ComplianceEntry.score e2)
                   (ComplianceEntry.score e3) (ComplianceEntry.score e4))
            (bias_term (_detect_bias resp))
            (consistency_term cc))
         overall.
Proof.
  unfold _calculate_overall_score, fdiv, rbind.
  change (Qeq_bool (inject_Z (Z.of_nat (List.length
            [(k1, q1); (k2, q2); (k3, q3); (k4, q4)]))) 0) with false.
  change (Qeq_bool (inject_Z (Z.of_nat (List.length
            [(n1, e1); (n2, e2); (n3, e3); (n4, e4)]))) 0) with false.
  cbv iota. eexists. split; [reflexivity|].
  apply round3_rounded_to_3_decimals.
  unfold weighted_score, mean4, dict_values.
  change (map QualityEntry.score (map snd [(k1, q1); (k2, q2); (k3, q3); (k4, q4)]))
    with [QualityEntry.score q1; QualityEntry.score q2;
          QualityEntry.score q3; QualityEntry.score q4].
  change (map ComplianceEntry.score (map snd [(n1, e1); (n2, e2); (n3, e3); (n4, e4)]))
    with [ComplianceEntry.score e1; ComplianceEntry.score e2;
          ComplianceEntry.score e3; ComplianceEntry.score e4].
  rewrite !fsum4, bias_score_is_bias_term, overall_consistency_is_consistency_term.
  change (inject_Z (Z.of_nat (List.length
            [(k1, q1); (k2, q2); (k3, q3); (k4, q4)]))) with 4%Q.
  change (inject_Z (Z.of_nat (List.length
            [(n1, e1); (n2, e2); (n3, e3); (n4, e4)]))) with 4%Q.
  field.
Qed.

End Aggregation.

Section Consistency.
Import CheckerAgent Spec.
Local Open Scope string_scope.

Lemma no_prior_response_recent st lid limit :
  no_prior_response st lid ->
  _get_recent_interactions lid limit st = (st, Ok []).
Proof.
  intro H. unfold _get_recent_interactions.
  assert (E : filter (fun i => match Interaction.assistant_response i with
                               | Some _ => true
                               | None => false
                               end)
                     (filter (fun i => (Interaction.learner_id i =? lid)%Z)
                             (interactions st)) = []).
  { unfold no_prior_response in H.
    induction (interactions st) as [|i l IH]; [reflexivity|].
    simpl. destruct (Interaction.learner_id i =? lid)%Z eqn:El.
    - simpl. rewrite (H i (or_introl eq_refl) (proj1 (Z.eqb_eq _ _) El)).
      apply IH. intros j Hj. apply H. now right.
    - apply IH. intros j Hj. apply H. now right. }
  rewrite E. destruct limit; reflexivity.
Qed.

(** C9: for a learner without a prior interaction that carries a
    response, the overall consistency that enters the overall score is 1,
    on both paths: when the processed input has no learner id (the check
    returns early and the score defaults to 1.0), and when the list of
    recent interactions is empty (the five aspects score 1.0 each, and
    their mean is stored under [overall_consistency]). *)
Theorem consistency_is_one_without_prior_responses
        (resp : AssistantResponse) (pin : ProcessedInput) (st : Store) :
  falsy_id (get_learner_id pin) = true
  \/ (exists lid, get_learner_id pin = Some lid /\ no_prior_response st lid) ->
  exists cc,
    _check_consistency resp pin st = (st, Ok cc)
    /\ (get_overall_consistency cc == 1)%Q
    /\ ConsistencyCheck.consistent cc = true
    /\ (falsy_id (get_learner_id pin) = false ->
        exists v, ConsistencyCheck.overall_consistency cc = Some v /\ (v == 1)%Q).
Proof.
  intros [Hf | [lid [Hid Hno]]].
  - exists (ConsistencyCheck.make None None true
              (Some "No previous interactions to compare")).
    unfold _check_consistency.
    destruct (get_learner_id pin) as [l|]; [rewrite Hf|];
      (split; [reflexivity | split; [reflexivity | split; [reflexivity|]]]);
      intro; congruence.
  - unfold _check_consistency. rewrite Hid.
    destruct (falsy_id (Some lid)) eqn:Hf.
    + eexists. split; [reflexivity|]. split; [reflexivity|].
      split; [reflexivity|]. intro; congruence.
    + unfold bind. rewrite (no_prior_response_recent st lid 5 Hno).
      eexists. split; [reflexivity|].
      split; [reflexivity|]. split; [reflexivity|].
      intros _. eexists. split; reflexivity.
Qed.

(** A first turn: learner 7 has one interaction, still without response. *)
Lemma first_turn_consistency :
  exists cc,
    _check_consistency (mkResponse (Some "Well done") None)
      (mkInput (Some (mkProfile (Some 7)))) Samples.first_turn_store
    = (Samples.first_turn_store, Ok cc)
    /\ (get_overall_consistency cc == 1)%Q
    /\ ConsistencyCheck.consistent cc = true
    /\ (falsy_id (get_learner_id (mkInput (Some (mkProfile (Some 7))))) = false ->
        exists v, ConsistencyCheck.overall_consistency cc = Some v /\ (v == 1)%Q).
Proof.
  apply (consistency_is_one_without_prior_responses
           (mkResponse (Some "Well done") None)
           (mkInput (Some (mkProfile (Some 7)))) Samples.first_turn_store).
  right. exists 7. split; [reflexivity|].
  intros i [Hi | []] _. subst i. reflexivity.
Defined.

End Consistency.

Section Feedback.
Import UserAgent SageApi Spec.
Local Open Scope string_scope.

(** The test of the route, [not isinstance(rating, int) or rating < 1 or
    rating > 5], is true of every rating that is not accepted. *)
Lemma rating_test_refuses (v : json) :
  ~ accepted_rating v ->
  match as_int v with
  | Some r => ((r <? 1)%Z || (5 <? r)%Z)%bool
  | None => true
  end = true.
Proof.
  intro H. destruct v as [|[|]|n|q|s]; try reflexivity.
  - exfalso. apply H. now right.
  - cbn [as_int].
    destruct (n <? 1)%Z eqn:E1; [reflexivity|].
    destruct (5 <? n)%Z eqn:E5; [reflexivity|].
    exfalso. apply H. left. exists n. split; [reflexivity|].
    apply Z.ltb_ge in E1. apply Z.ltb_ge in E5. lia.
Qed.

Lemma rating_test_accepts (v : json) :
  accepted_rating v ->
  exists r, as_int v = Some r
            /\ ((r <? 1)%Z || (5 <? r)%Z)%bool = false.
Proof.
  intros [[n [E [H1 H5]]] | E]; subst v.
  - exists n. split; [reflexivity|].
    apply orb_false_iff. split; apply Z.ltb_ge; lia.
  - exists 1%Z. split; reflexivity.
Qed.

Lemma outside_is_not_accepted (v : json) :
  outside_1_to_5 v -> ~ accepted_rating v.
Proof.
  intros Ho [[n [E Hn]] | E]; subst v; simpl in Ho; [lia | exact Ho].
Qed.

(** The lookup of an id that resolves to nothing returns [None]. *)
Lemma get_interaction_nothing (st : Store) (iid : Z) :
  resolves_to_nothing st iid -> get_interaction iid st = (st, Ok None).
Proof.
  intros [Hid Hnone]. unfold get_interaction. now rewrite Hnone, Hid.
Qed.

(** The lookup of a stored id returns the row. *)
Lemma get_interaction_stored (st : Store) (iid : Z) (i : Interaction.t) :
  find (fun i => (Interaction.id i =? iid)%Z) (interactions st) = Some i ->
  get_interaction iid st = (st, Ok (Some i)).
Proof.
  intro Hfind. unfold get_interaction. now rewrite Hfind.
Qed.

(** C10, as amended: feedback on an interaction id that lies within the
    64-bit range of the key column and resolves to no stored interaction
    changes nothing: [handle_feedback] returns normally with the store as
    it was (no rating, no completion time, no memory, not even a clock
    reading), and the route answers 200 for every rating it accepts. *)
Theorem feedback_on_unknown_interaction_is_noop
        (st : Store) (iid : Z) (text : option string) :
  resolves_to_nothing st iid ->
  (forall rating, handle_feedback iid rating text st = (st, Ok tt))
  /\ (forall v, accepted_rating v ->
        submit_feedback (mkFeedback (Some iid) (Some v) text) st
        = (st, (message "Feedback submitted successfully", 200%Z))).
Proof.
  intro Hnone.
  assert (Hh : forall rating, handle_feedback iid rating text st = (st, Ok tt)).
  { intro rating. unfold handle_feedback, bind.
    rewrite (get_interaction_nothing st iid Hnone). reflexivity. }
  split; [exact Hh|].
  intros v Hv. destruct (rating_test_accepts v Hv) as [r [Er Hr]].
  unfold submit_feedback. cbn [interaction_id rating feedback_text].
  rewrite Er, Hr. rewrite Hh. reflexivity.
Qed.

(** C8, as amended: a feedback request whose rating is a number outside
    1-5 is answered with the invalid-rating error (status 400) and leaves
    the store as it was, and so is every request whose rating is neither
    a JSON integer from 1 to 5 nor the JSON value [true]; a request with
    rating 5 and a non-empty text for an interaction that the store holds
    succeeds and adds exactly one memory, a long-term one of importance
    5/5 = 1. *)
Theorem feedback_rating_checked_and_memory_stored
        (st : Store) (iid : Z) :
  (forall v text, outside_1_to_5 v ->
     submit_feedback (mkFeedback (Some iid) (Some v) text) st
     = (st, (error "Rating must be an integer between 1 and 5", 400%Z)))
  /\ (forall v text, ~ integer_1_to_5 v -> v <> JBool true ->
        submit_feedback (mkFeedback (Some iid) (Some v) text) st
        = (st, (error "Rating must be an integer between 1 and 5", 400%Z)))
  /\ (forall text i,
        text <> EmptyString ->
        find (fun i => (Interaction.id i =? iid)%Z) (interactions st) = Some i ->
        feedback_adds_memory st iid text).
Proof.
  assert (Hrefused : forall v text, ~ accepted_rating v ->
            submit_feedback (mkFeedback (Some iid) (Some v) text) st
            = (st, (error "Rating must be an integer between 1 and 5", 400%Z))).
  { intros v text Hv. unfold submit_feedback.
    cbn [interaction_id rating feedback_text].
    rewrite (rating_test_refuses v Hv). reflexivity. }
  split; [|split].
  - intros v text Hv. apply Hrefused. now apply outside_is_not_accepted.
  - intros v text Hv Hb. apply Hrefused. intros [H | H]; contradiction.
  - intros text i Htext Hfind. unfold feedback_adds_memory, submit_feedback.
    cbn [interaction_id rating feedback_text as_int].
    change ((5 <? 1)%Z || (5 <? 5)%Z)%bool with false. cbv iota.
    unfold handle_feedback, bind. rewrite (get_interaction_stored st iid i Hfind).
    assert (Ht : truthy text = true).
    { unfold truthy. destruct text; [congruence | reflexivity]. }
    cbn [utcnow put_interaction]. rewrite Ht.
    unfold store_memory, add_memory, bind, utcnow.
    eexists. eexists. split; [reflexivity|].
    cbn [memories]. repeat (split; [reflexivity|]). reflexivity.
Qed.

End Feedback.

Section Quality.
Import CheckerAgent Spec.
Local Open Scope string_scope.

(** The counting loop counts the phrases that occur. *)
Lemma count_indicators_is_phrase_matches (phrases : list string) (content : string) :
  count_indicators phrases (lower content) = phrase_matches phrases content.
Proof.
  unfold count_indicators, phrase_matches.
  assert (G : forall acc,
             fold_left
               (fun count indicator =>
                  if contains (lower indicator) (lower content)
                  then (count + 1)%Z else count) phrases acc
             = (acc + Z.of_nat (List.length (filter (occurs_in content) phrases)))%Z).
  { induction phrases as [|p ps IH]; intro acc; simpl.
    - lia.
    - rewrite IH. unfold occurs_in at 2.
      destruct (contains (lower p) (lower content)); simpl; lia. }
  rewrite G. lia.
Qed.

(** A phrase counts once, however often it occurs, so the count is at
    most the number of phrases. *)
Lemma phrase_matches_bounded (phrases : list string) (content : string) :
  (0 <= phrase_matches phrases content <= Z.of_nat (List.length phrases))%Z.
Proof.
  unfold phrase_matches. split; [lia|].
  apply Nat2Z.inj_le. apply filter_length_le.
Qed.

Lemma criterion_score_nonempty (content : string) (cfg : criteria_config) :
  indicators cfg <> [] ->
  (_calculate_criterion_score content cfg == criterion_formula cfg content)%Q.
Proof.
  intro Hne. unfold _calculate_criterion_score, criterion_formula.
  destruct (Z.of_nat (List.length (indicators cfg)) =? 0)%Z eqn:E.
  - apply Z.eqb_eq in E. destruct (indicators cfg); [congruence | discriminate].
  - rewrite !count_indicators_is_phrase_matches.
    rewrite max2_is_Qmax, min2_is_Qmin.
    apply Q.max_compat; [reflexivity|].
    apply Q.min_compat; [reflexivity|]. ring.
Qed.

(** C7: for every response text and each of the four quality criteria,
    the score that [_assess_quality] records is
    [_calculate_criterion_score], which equals
    max(0, min(1, positive/total - 0.2 * negative)), where positive and
    negative count the indicator phrases that occur in the text as
    substrings, case-insensitively; on the empty text it is 0. *)
Theorem criterion_score_formula
        (content : string) (ty : option string) (pin : ProcessedInput)
        (criterion : string) (cfg : criteria_config) :
  In (criterion, cfg) quality_criteria ->
  (exists entry,
      dict_get String.eqb (_assess_quality (mkResponse (Some content) ty) pin)
               criterion = Some entry
      /\ QualityEntry.score entry = _calculate_criterion_score content cfg)
  /\ (_calculate_criterion_score content cfg == criterion_formula cfg content)%Q
  /\ (_calculate_criterion_score EmptyString cfg == 0)%Q.
Proof.
  intro Hin.
  assert (Hne : indicators cfg <> []).
  { table_entry Hin; discriminate. }
  split; [|split].
  - table_entry Hin; eexists; split; reflexivity.
  - apply criterion_score_nonempty, Hne.
  - table_entry Hin; reflexivity.
Qed.

(** The clarity criterion on a concrete text and on the empty one. *)
Lemma clarity_score_on_sample_text :
  (exists entry,
      dict_get String.eqb
        (_assess_quality
           (mkResponse (Some "A Clear Explanation, step-by-step, but vague.") None)
           (mkInput None))
        "clarity" = Some entry
      /\ (QualityEntry.score entry == 7 # 15)%Q)
  /\ (_calculate_criterion_score EmptyString
        (mkCriteria 0.7
           ["clear explanation"; "step-by-step"; "examples provided"]
           ["vague"; "confusing"; "unclear"]) == 0)%Q.
Proof.
  destruct (criterion_score_formula
              "A Clear Explanation, step-by-step, but vague." None (mkInput None)
              "clarity"
              (mkCriteria 0.7
                 ["clear explanation"; "step-by-step"; "examples provided"]
                 ["vague"; "confusing"; "unclear"]))
    as [[entry [Hget Hscore]] [Hformula Hempty]].
  - simpl. left. reflexivity.
  - split; [|exact Hempty].
    exists entry. split; [exact Hget|].
    rewrite Hscore, Hformula. evaluate.
Defined.

End Quality.

Section RegexFacts.
Import Spec Analysis.

Lemma isspace_lower_char (a : ascii) : isspace (lower_char a) = isspace a.
Proof.
  destruct a as [[] [] [] [] [] [] [] []]; reflexivity.
Qed.

Lemma all_space_lower (s : string) : all_space (lower s) = all_space s.
Proof.
  induction s as [|a s IH]; [reflexivity|].
  simpl. now rewrite isspace_lower_char, IH.
Qed.

Lemma append_char_nonempty (cur : string) (a : ascii) :
  String.eqb (cur ++ String a EmptyString) EmptyString = false.
Proof. destruct cur; reflexivity. Qed.

Lemma split_from_nonempty (s : string) :
  forall cur,
    String.eqb cur EmptyString = false \/ all_space s = false ->
    split_from cur s <> [].
Proof.
  induction s as [|a s IH]; intros cur H; simpl.
  - destruct H as [H | H]; [rewrite H; discriminate | discriminate].
  - destruct (isspace a) eqn:Ea.
    + destruct (String.eqb cur EmptyString) eqn:Ec; [|discriminate].
      apply IH. right. destruct H as [H | H]; [discriminate|].
      simpl in H. now rewrite Ea in H.
    + apply IH. left. apply append_char_nonempty.
Qed.

(** A text that is not all white space has at least one word. *)
Lemma word_count_positive (s : string) :
  all_space s = false -> (0 < word_count s)%Z.
Proof.
  intro H. unfold word_count, split.
  pose proof (split_from_nonempty s EmptyString (or_intror H)) as Hne.
  destruct (split_from EmptyString s); [congruence | simpl; lia].
Qed.

Lemma all_space_word_count (s : string) :
  all_space s = true -> word_count s = 0%Z.
Proof.
  intro H. unfold word_count, split.
  assert (G : split_from EmptyString s = []).
  { induction s as [|a s IH]; [reflexivity|].
    simpl in *. apply andb_true_iff in H. destruct H as [Ha Hs].
    rewrite Ha. simpl. now apply IH. }
  now rewrite G.
Qed.

(** On white space the matcher can only succeed through its continuation. *)
Lemma star_match_all_space (c : cclass) (k : cont) (s : string) :
  forall prev,
    all_space s = true ->
    (forall p s', all_space s' = true -> k p s' = None) ->
    star_match false c prev s k = None.
Proof.
  induction s as [|a s IH]; intros prev Hs Hk; simpl.
  - now apply Hk.
  - simpl in Hs. apply andb_true_iff in Hs. destruct Hs as [Ha Hs'].
    assert (Hk0 : k prev (String a s) = None).
    { apply Hk. simpl. now rewrite Ha, Hs'. }
    destruct (class_match false c a); [|exact Hk0].
    now rewrite (IH (Some a) Hs' Hk).
Qed.

Lemma rmatch_all_space (r : regex) :
  forall prev s k,
    all_space s = true ->
    (forall p s', all_space s' = true -> k p s' = None) ->
    rmatch false r prev s k = None.
Proof.
  induction r as [c | | | r1 IH1 r2 IH2 | r1 IH1 r2 IH2 | c];
    intros prev s k Hs Hk; simpl.
  - destruct s as [|a s']; [reflexivity|].
    simpl in Hs. apply andb_true_iff in Hs.
    destruct (class_match false c a); [|reflexivity]. now apply Hk.
  - destruct (xorb _ _); [now apply Hk | reflexivity].
  - now apply Hk.
  - apply IH1; [exact Hs|]. intros p s' Hs'. now apply IH2.
  - rewrite IH1 by assumption. now apply IH2.
  - now apply star_match_all_space.
Qed.

Lemma rmatch_reads_visible (r : regex) :
  reads_visible r = true ->
  forall prev s k, all_space s = true -> rmatch false r prev s k = None.
Proof.
  induction r as [c | | | r1 IH1 r2 IH2 | r1 IH1 r2 IH2 | c];
    intros Hr prev s k Hs; simpl in *; try discriminate.
  - destruct c as [l | |]; try discriminate.
    destruct s as [|a s']; [reflexivity|].
    simpl in Hs. apply andb_true_iff in Hs. destruct Hs as [Ha _].
    simpl. destruct (Ascii.eqb a l) eqn:E; [|reflexivity].
    apply Ascii.eqb_eq in E. subst l. rewrite Ha in Hr. discriminate.
  - apply orb_true_iff in Hr. destruct Hr as [H1 | H2].
    + now apply IH1.
    + apply rmatch_all_space; [exact Hs|].
      intros p s' Hs'. now apply IH2.
  - apply andb_true_iff in Hr. destruct Hr as [H1 H2].
    rewrite IH1 by assumption. now apply IH2.
Qed.

Lemma scan_all_space (r : regex) (s : string) :
  reads_visible r = true ->
  forall prev skip, all_space s = true -> scan false r prev skip s = [].
Proof.
  intro Hr. induction s as [|a s IH]; intros prev skip Hs.
  - destruct skip; simpl; [|reflexivity].
    unfold match_here. now rewrite rmatch_reads_visible.
  - assert (Hs' : all_space s = true).
    { simpl in Hs. apply andb_true_iff in Hs. tauto. }
    destruct skip; simpl.
    + unfold match_here. rewrite rmatch_reads_visible by assumption.
      now apply IH.
    + now apply IH.
Qed.

Lemma pattern_score_all_space (patterns : list regex) (s : string) :
  forallb reads_visible patterns = true ->
  all_space s = true ->
  UserAgent.pattern_score patterns s = 0%Z.
Proof.
  intros Hp Hs. unfold UserAgent.pattern_score.
  induction patterns as [|p ps IH]; [reflexivity|].
  simpl in *. apply andb_true_iff in Hp. destruct Hp as [Hp Hps].
  unfold findall. rewrite scan_all_space by assumption. simpl.
  now apply IH.
Qed.

Lemma pattern_score_nonneg (patterns : list regex) (s : string) :
  (0 <= UserAgent.pattern_score patterns s)%Z.
Proof.
  unfold UserAgent.pattern_score.
  assert (G : forall acc, (0 <= acc)%Z ->
    (0 <= fold_left (fun score pattern =>
            (score + Z.of_nat (List.length (findall pattern s)))%Z) patterns acc)%Z).
  { induction patterns as [|p ps IH]; intros acc Hacc; simpl; [exact Hacc|].
    apply IH. lia. }
  apply G. lia.
Qed.

(** Every pattern of the intent table reads a visible character. *)
Lemma intent_patterns_read_visible :
  forallb (fun '(_, patterns) => forallb reads_visible patterns)
          UserAgent.intent_patterns = true.
Proof. evaluate. Qed.

(** A category with a match means the text has a word. *)
Lemma match_gives_word (intent : IntentType) (patterns : list regex) (s : string) :
  In (intent, patterns) UserAgent.intent_patterns ->
  (0 < UserAgent.pattern_score patterns (lower s))%Z ->
  (0 < word_count s)%Z.
Proof.
  intros Hin Hpos. apply word_count_positive.
  destruct (all_space s) eqn:E; [|reflexivity].
  exfalso.
  pose proof intent_patterns_read_visible as Hv.
  rewrite forallb_forall in Hv. specialize (Hv _ Hin). simpl in Hv.
  rewrite pattern_score_all_space in Hpos; [lia | exact Hv |].
  now rewrite all_space_lower.
Qed.

End RegexFacts.

Section ClassifierFacts.
Import UserAgent Spec Analysis.
Local Open Scope string_scope.

Variable L : TextLibrary.

Lemma pattern_score_with_nonneg (patterns : list regex) (s : str L) :
  (0 <= pattern_score_with L patterns s)%Z.
Proof.
  unfold pattern_score_with.
  assert (G : forall acc, (0 <= acc)%Z ->
    (0 <= fold_left (fun score pattern =>
            (score + Z.of_nat (count_matches L pattern s))%Z) patterns acc)%Z).
  { induction patterns as [|p ps IH]; intros acc Hacc; simpl; [exact Hacc|].
    apply IH. lia. }
  apply G. lia.
Qed.

Lemma IntentType_eqb_eq (a b : IntentType) : IntentType_eqb a b = true <-> a = b.
Proof.
  destruct a, b; split; intro H;
    first [reflexivity | discriminate H].
Qed.

Lemma IntentType_eqb_neq (a b : IntentType) : IntentType_eqb a b = false <-> a <> b.
Proof.
  split.
  - intros H E. apply IntentType_eqb_eq in E. congruence.
  - intro H. destruct (IntentType_eqb a b) eqn:E; [|reflexivity].
    apply IntentType_eqb_eq in E. contradiction.
Qed.

Lemma dict_set_fresh {V} (d : list (IntentType * V)) k v :
  ~ In k (dict_keys d) ->
  dict_set IntentType_eqb d k v = (d ++ [(k, v)])%list.
Proof.
  induction d as [|[k' v'] d IH]; intro H; simpl; [reflexivity|].
  simpl in H.
  destruct (IntentType_eqb k k') eqn:E.
  - apply IntentType_eqb_eq in E. subst. tauto.
  - rewrite IH by tauto. reflexivity.
Qed.

Lemma dict_get_in {V} (d : list (IntentType * V)) k v :
  NoDup (dict_keys d) -> In (k, v) d ->
  dict_get IntentType_eqb d k = Some v.
Proof.
  induction d as [|[k' v'] d IH]; intros Hnd Hin; simpl in *; [contradiction|].
  inversion Hnd as [|? ? Hnot Hnd']; subst.
  destruct Hin as [E | Hin].
  - inversion E; subst.
    now rewrite (proj2 (IntentType_eqb_eq k k) eq_refl).
  - destruct (IntentType_eqb k k') eqn:E.
    + apply IntentType_eqb_eq in E. subst k'. exfalso. apply Hnot.
      unfold dict_keys. change k with (fst (k, v)). now apply in_map.
    + now apply IH.
Qed.

Lemma dict_get_not_in {V} (d : list (IntentType * V)) k :
  ~ In k (dict_keys d) -> dict_get IntentType_eqb d k = None.
Proof.
  induction d as [|[k' v'] d IH]; intro H; simpl in *; [reflexivity|].
  destruct (IntentType_eqb k k') eqn:E.
  - apply IntentType_eqb_eq in E. subst. tauto.
  - apply IH. tauto.
Qed.

(** The keys of [scored] are among the keys of the table. *)
Lemma scored_keys_incl table s c :
  In c (dict_keys (scored L table s)) -> In c (dict_keys table).
Proof.
  induction table as [|[c0 pats] table IH]; simpl; [tauto|].
  unfold scored in *. simpl. unfold dict_keys in *.
  rewrite map_app, in_app_iff. intros [H | H].
  - destruct (0 <? pattern_score_with L pats (str_lower L s))%Z; simpl in H; tauto.
  - right. now apply IH.
Qed.

Lemma scored_keys_nodup table s :
  NoDup (dict_keys table) -> NoDup (dict_keys (scored L table s)).
Proof.
  induction table as [|[c0 pats] table IH]; intro Hnd; simpl.
  - constructor.
  - inversion Hnd as [|? ? Hnot Hnd']; subst.
    unfold scored. simpl. unfold dict_keys. rewrite map_app.
    destruct (0 <? pattern_score_with L pats (str_lower L s))%Z; simpl.
    + constructor; [|now apply IH].
      intro H. apply Hnot. now apply (scored_keys_incl table s).
    + now apply IH.
Qed.

(** With a word in the text, or without any match, the scoring loop runs
    through and leaves the scored categories in table order. *)
Lemma score_intents_scored table s :
  NoDup (dict_keys table) ->
  ((0 < word_count_with L s)%Z \/ scored L table s = []) ->
  forall acc,
    (forall c, In c (dict_keys table) -> ~ In c (dict_keys acc)) ->
    score_intents_with L table s (str_lower L s) acc = Ok (acc ++ scored L table s)%list.
Proof.
  induction table as [|[c0 pats] table IH]; intros Hnd Hw acc Hacc; simpl.
  - now rewrite app_nil_r.
  - inversion Hnd as [|? ? Hnot Hnd']; subst.
    unfold scored in *. simpl in *.
    destruct (0 <? pattern_score_with L pats (str_lower L s))%Z eqn:Epos.
    + destruct Hw as [Hw | Hw]; [|discriminate].
      unfold truediv. fold (word_count_with L s).
      destruct (word_count_with L s =? 0)%Z eqn:Ez; [apply Z.eqb_eq in Ez; lia|].
      simpl. rewrite dict_set_fresh by (apply Hacc; now left).
      rewrite IH.
      * now rewrite <- app_assoc.
      * exact Hnd'.
      * now left.
      * intros c Hc. unfold dict_keys. rewrite map_app, in_app_iff.
        intros [H | [H | []]].
        -- apply (Hacc c); [now right | exact H].
        -- simpl in H. subst c0. contradiction.
    + simpl. apply IH; [exact Hnd' | exact Hw |].
      intros c Hc. apply Hacc. now right.
Qed.

Lemma intent_patterns_nodup : NoDup (dict_keys intent_patterns).
Proof.
  unfold dict_keys. simpl.
  repeat (constructor; [simpl; intuition discriminate|]). constructor.
Qed.

Lemma scored_nil_iff_no_match s :
  scored L intent_patterns s = [] <-> no_match L s = true.
Proof.
  unfold no_match, scored.
  induction intent_patterns as [|[c pats] table IH]; simpl; [tauto|].
  destruct (0 <? pattern_score_with L pats (str_lower L s))%Z eqn:E.
  - split; [discriminate|].
    intro H. apply andb_true_iff in H. destruct H as [H _].
    apply Z.eqb_eq in H. apply Z.ltb_lt in E. lia.
  - simpl. rewrite IH. apply Z.ltb_ge in E.
    pose proof (pattern_score_with_nonneg pats (str_lower L s)).
    replace (pattern_score_with L pats (str_lower L s) =? 0)%Z with true; [tauto|].
    symmetry. apply Z.eqb_eq. lia.
Qed.

Lemma scored_word_count s :
  matches_need_a_word L ->
  (0 < word_count_with L s)%Z \/ scored L intent_patterns s = [].
Proof.
  intro Hword.
  destruct (scored L intent_patterns s) as [|[c q] l] eqn:E; [now right|left].
  assert (Hin : In (c, q) (scored L intent_patterns s)) by (rewrite E; now left).
  unfold scored in Hin. apply in_flat_map in Hin.
  destruct Hin as [[c0 pats] [Hin H]].
  destruct (0 <? pattern_score_with L pats (str_lower L s))%Z eqn:Epos; [|contradiction].
  apply Z.ltb_lt in Epos. exact (Hword c0 pats s Hin Epos).
Qed.

(** The classifier, with its scoring loop read off. *)
Lemma classify_intent_scored s :
  (0 < word_count_with L s)%Z \/ scored L intent_patterns s = [] ->
  classify_intent_with L s =
  match dict_keys (scored L intent_patterns s) with
  | [] => Ok (OTHER, 0.5%Q)
  | first :: rest =>
      let best := max_by (score_of (scored L intent_patterns s)) first rest in
      Ok (best, min2 (score_of (scored L intent_patterns s) best * 2) 1.0)
  end.
Proof.
  intro Hw. unfold classify_intent_with.
  rewrite (score_intents_scored intent_patterns s intent_patterns_nodup Hw []).
  - reflexivity.
  - intros c _ [].
Qed.

End ClassifierFacts.

Section HighestFirst.
Import UserAgent Spec Analysis.
Local Open Scope string_scope.

Variable L : TextLibrary.

(** [max_by] returns the first element of greatest key value. *)
Lemma max_by_first_greatest {K} (f : K -> Q) (rest : list K) :
  forall (pre : list K) (b : K),
    (exists l1 l2, pre = (l1 ++ b :: l2)%list
                   /\ (forall x, In x l1 -> (f x < f b)%Q)
                   /\ (forall x, In x l2 -> (f x <= f b)%Q)) ->
    exists l1 l2,
      (pre ++ rest)%list = (l1 ++ max_by f b rest :: l2)%list
      /\ (forall x, In x l1 -> (f x < f (max_by f b rest))%Q)
      /\ (forall x, In x l2 -> (f x <= f (max_by f b rest))%Q).
Proof.
  unfold max_by.
  induction rest as [|k rest IH]; intros pre b [l1 [l2 [Hpre [H1 H2]]]].
  - exists l1, l2. simpl. rewrite app_nil_r. tauto.
  - simpl. replace (pre ++ k :: rest)%list with ((pre ++ [k]) ++ rest)%list
      by (rewrite <- app_assoc; reflexivity).
    apply IH. destruct (Qlt_bool (f b) (f k)) eqn:E.
    + apply Qlt_bool_iff in E.
      exists pre, []. split; [reflexivity|]. split; [|intros x []].
      intros x Hx. rewrite Hpre in Hx. apply in_app_iff in Hx.
      destruct Hx as [Hx | [Hx | Hx]].
      * apply Qlt_trans with (f b); [now apply H1 | exact E].
      * now subst x.
      * apply Qle_lt_trans with (f b); [now apply H2 | exact E].
    + apply Qlt_bool_false_iff in E.
      exists l1, (l2 ++ [k])%list. split; [|split].
      * rewrite Hpre, <- app_assoc. reflexivity.
      * exact H1.
      * intros x Hx. apply in_app_iff in Hx.
        destruct Hx as [Hx | [Hx | []]]; [now apply H2 | now subst x].
Qed.

Lemma max_by_spec {K} (f : K -> Q) (first : K) (rest : list K) :
  exists l1 l2,
    first :: rest = (l1 ++ max_by f first rest :: l2)%list
    /\ (forall x, In x l1 -> (f x < f (max_by f first rest))%Q)
    /\ (forall x, In x l2 -> (f x <= f (max_by f first rest))%Q).
Proof.
  apply (max_by_first_greatest f rest [first] first).
  exists [], []. split; [reflexivity|]. split; intros x [].
Qed.

Lemma nodup_split_unique {A} (a : A) (l1 l2 l1' l2' : list A) :
  NoDup (l1 ++ a :: l2) ->
  (l1 ++ a :: l2 = l1' ++ a :: l2')%list -> l1 = l1'.
Proof.
  revert l1'. induction l1 as [|x l1 IH]; intros l1' Hnd E.
  - destruct l1' as [|y l1']; [reflexivity|].
    simpl in E. injection E as Ey El. subst y.
    inversion Hnd as [|? ? Hnot _]; subst. exfalso. apply Hnot.
    apply in_app_iff. right. now left.
  - destruct l1' as [|y l1'].
    + simpl in E. injection E as Ex El. subst x.
      inversion Hnd as [|? ? Hnot _]; subst. exfalso. apply Hnot.
      apply in_app_iff. right. now left.
    + simpl in E. injection E as Ex El. subst y. f_equal.
      inversion Hnd; subst. now apply IH.
Qed.

(** The table gives each declared category its own patterns. *)
Lemma match_count_of_entry c pats s :
  In (c, pats) intent_patterns ->
  match_count_with L c s = pattern_score_with L pats (str_lower L s).
Proof.
  intro H. unfold match_count_with.
  now rewrite (dict_get_in intent_patterns c pats intent_patterns_nodup H).
Qed.

Lemma match_count_nonneg c s : (0 <= match_count_with L c s)%Z.
Proof.
  unfold match_count_with.
  destruct (dict_get IntentType_eqb intent_patterns c);
    [apply pattern_score_with_nonneg | lia].
Qed.

(** The scored categories are the declared ones with a match, in order,
    each with its normalized score. *)
Lemma scored_is_filter_of s (table : list (IntentType * list regex)) :
  (forall c pats, In (c, pats) table -> In (c, pats) intent_patterns) ->
  scored L table s
  = map (fun c => (c, normalized_score_with L s c))
        (filter (fun c => (0 <? match_count_with L c s)%Z) (dict_keys table)).
Proof.
  induction table as [|[c pats] table IH]; intro Hsub; [reflexivity|].
  unfold scored in *. simpl.
  rewrite IH by (intros; apply Hsub; now right).
  rewrite (match_count_of_entry c pats s) by (apply Hsub; now left).
  destruct (0 <? pattern_score_with L pats (str_lower L s))%Z eqn:E; [|reflexivity].
  simpl. unfold normalized_score_with.
  rewrite (match_count_of_entry c pats s) by (apply Hsub; now left).
  reflexivity.
Qed.

Lemma scored_keys s :
  dict_keys (scored L intent_patterns s)
  = filter (fun c => (0 <? match_count_with L c s)%Z) declared.
Proof.
  rewrite scored_is_filter_of by tauto.
  unfold dict_keys. rewrite map_map. simpl. apply map_id.
Qed.

Lemma score_of_scored s c :
  In c (dict_keys (scored L intent_patterns s)) ->
  score_of (scored L intent_patterns s) c = normalized_score_with L s c.
Proof.
  intro H. unfold score_of.
  rewrite (dict_get_in (scored L intent_patterns s) c (normalized_score_with L s c)).
  - reflexivity.
  - apply scored_keys_nodup, intent_patterns_nodup.
  - rewrite scored_is_filter_of by tauto.
    rewrite scored_keys in H.
    apply in_map_iff. exists c. split; [reflexivity | exact H].
Qed.

Lemma normalized_score_positive s c :
  (0 < word_count_with L s)%Z -> (0 < match_count_with L c s)%Z ->
  (0 < normalized_score_with L s c)%Q.
Proof.
  intros Hw Hm. unfold normalized_score_with.
  apply Qlt_shift_div_l.
  - change 0%Q with (inject_Z 0). rewrite <- Zlt_Qlt. exact Hw.
  - rewrite Qmult_0_l. change 0%Q with (inject_Z 0). rewrite <- Zlt_Qlt. exact Hm.
Qed.

Lemma normalized_score_zero s c :
  ~ (0 < match_count_with L c s)%Z -> (normalized_score_with L s c == 0)%Q.
Proof.
  intro H. pose proof (match_count_nonneg c s).
  unfold normalized_score_with.
  replace (match_count_with L c s) with 0%Z by lia.
  unfold Qdiv. apply Qmult_0_l.
Qed.

End HighestFirst.

Section ClassifierTheorems.
Import UserAgent Spec Analysis.
Local Open Scope string_scope.

(** [classify_intent] is the classifier over the ASCII library. *)
Lemma classify_intent_ascii (user_input : string) :
  classify_intent user_input = classify_intent_with ascii_library user_input.
Proof. reflexivity. Qed.

Lemma pattern_score_ascii (patterns : list regex) (s : string) :
  pattern_score patterns s = pattern_score_with ascii_library patterns s.
Proof. reflexivity. Qed.

(** The ASCII library has the property the classifier needs. *)
Lemma ascii_matches_need_a_word : matches_need_a_word ascii_library.
Proof.
  intros intent patterns s Hin Hpos.
  exact (match_gives_word intent patterns s Hin Hpos).
Qed.

(** C3: over every text library, when no category has a match in the
    text, the classifier returns [OTHER] with confidence 0.5 and raises
    nothing: the scoring loop ends with an empty dictionary, because a
    category without a match is passed over before the division by the
    word count is reached.  The empty text, whose word count is 0, is
    such a text. *)
Theorem classify_without_match_is_other (L : TextLibrary) (user_input : str L) :
  no_match L user_input = true ->
  classify_intent_with L user_input = Ok (OTHER, 0.5%Q)
  /\ score_intents_with L intent_patterns user_input (str_lower L user_input) []
     = Ok []
  /\ (forall intent patterns table acc,
        pattern_score_with L patterns (str_lower L user_input) = 0%Z ->
        score_intents_with L ((intent, patterns) :: table) user_input
                           (str_lower L user_input) acc
        = score_intents_with L table user_input (str_lower L user_input) acc).
Proof.
  intro H. apply scored_nil_iff_no_match in H.
  split; [|split].
  - rewrite (classify_intent_scored L user_input (or_intror H)), H. reflexivity.
  - rewrite (score_intents_scored L intent_patterns user_input intent_patterns_nodup
               (or_intror H) []); [now rewrite H | intros c _ []].
  - intros intent patterns table acc E. simpl. now rewrite E.
Qed.

(** The empty text: no word, no match, [OTHER] at 0.5. *)
Lemma empty_text_is_other :
  word_count EmptyString = 0%Z
  /\ no_match ascii_library EmptyString = true
  /\ classify_intent EmptyString = Ok (OTHER, 0.5%Q)
  /\ score_intents intent_patterns EmptyString (lower EmptyString) [] = Ok [].
Proof.
  destruct (classify_without_match_is_other ascii_library EmptyString)
    as [Hc [Hs _]].
  - evaluate.
  - split; [reflexivity|]. split; [evaluate|].
    split; [exact Hc | exact Hs].
Defined.

(** C5, as amended: over every text library in which a match needs a
    word, when at least one category has a match in the text, the
    classifier returns the category of highest normalized score, and
    among several of that score the one declared first. *)
Theorem classify_returns_highest_first (L : TextLibrary) (user_input : str L) :
  matches_need_a_word L ->
  no_match L user_input = false ->
  returns_highest_first L user_input.
Proof.
  intros Hword Hm. unfold returns_highest_first.
  rewrite (classify_intent_scored L user_input (scored_word_count L user_input Hword)).
  assert (Hne : scored L intent_patterns user_input <> []).
  { intro E. apply scored_nil_iff_no_match in E. congruence. }
  assert (Hw : (0 < word_count_with L user_input)%Z).
  { destruct (scored_word_count L user_input Hword); [assumption | contradiction]. }
  set (S := scored L intent_patterns user_input) in *.
  destruct (dict_keys S) as [|first rest] eqn:EK.
  { destruct S; [congruence | discriminate]. }
  cbv zeta.
  set (best := max_by (score_of S) first rest).
  destruct (max_by_spec (score_of S) first rest) as [l1 [l2 [Hsplit [H1 H2]]]].
  fold best in Hsplit, H1, H2.
  assert (Hkeys : forall c, In c (dict_keys S) <->
                            In c declared /\ (0 < match_count_with L c user_input)%Z).
  { intro c. unfold S. rewrite scored_keys, filter_In, Z.ltb_lt. tauto. }
  assert (Hbest : In best (dict_keys S)).
  { rewrite EK, Hsplit. apply in_app_iff. right. now left. }
  assert (Hsc : forall c, In c (dict_keys S) ->
                          score_of S c = normalized_score_with L user_input c).
  { intros c Hc. now apply score_of_scored. }
  assert (Hpos : (0 < normalized_score_with L user_input best)%Q).
  { apply normalized_score_positive; [exact Hw|]. now apply Hkeys. }
  exists best, (min2 (score_of S best * 2) 1.0).
  split; [reflexivity|]. split; [now apply Hkeys | split].
  - intros c' Hc'.
    destruct (Z_lt_dec 0 (match_count_with L c' user_input)) as [Hp | Hz].
    + assert (Hin : In c' (dict_keys S)) by now apply Hkeys.
      rewrite <- (Hsc c' Hin), <- (Hsc best Hbest).
      rewrite EK, Hsplit in Hin. apply in_app_iff in Hin.
      destruct Hin as [Hin | [Hin | Hin]].
      * apply Qlt_le_weak. now apply H1.
      * subst c'. apply Qle_refl.
      * now apply H2.
    + rewrite (normalized_score_zero L _ _ Hz). now apply Qlt_le_weak.
  - intros c' [d1 [d2 [d3 Hd]]].
    destruct (Z_lt_dec 0 (match_count_with L c' user_input)) as [Hp | Hz].
    + assert (Hin : In c' l1).
      { assert (E : dict_keys S =
                    ((filter (fun c => (0 <? match_count_with L c user_input)%Z) d1
                      ++ c' :: filter (fun c => (0 <? match_count_with L c user_input)%Z) d2)
                     ++ best
                     :: filter (fun c => (0 <? match_count_with L c user_input)%Z) d3)%list).
        { unfold S. rewrite scored_keys, Hd.
          rewrite filter_app. simpl.
          rewrite (proj2 (Z.ltb_lt _ _) Hp).
          rewrite filter_app. simpl.
          rewrite (proj2 (Z.ltb_lt _ _) (proj2 (proj1 (Hkeys best) Hbest))).
          rewrite <- app_assoc. reflexivity. }
        assert (Hnd : NoDup (l1 ++ best :: l2)).
        { rewrite <- Hsplit, <- EK. apply scored_keys_nodup, intent_patterns_nodup. }
        rewrite EK, Hsplit in E.
        rewrite (nodup_split_unique best l1 l2 _ _ Hnd E).
        apply in_app_iff. right. now left. }
      assert (Hc' : In c' (dict_keys S)).
      { rewrite EK, Hsplit. apply in_app_iff. now left. }
      rewrite <- (Hsc c' Hc'), <- (Hsc best Hbest). now apply H1.
    + now rewrite (normalized_score_zero L _ _ Hz).
Qed.

End ClassifierTheorems.

Section ClassifierExamples.
Import UserAgent Spec Analysis.
Local Open Scope string_scope.

Lemma declared_list :
  declared = [ANSWER; ACK; R_LANGUAGE_USE; R_INFORMATION; R_REVISION;
              R_EVALUATION; R_GENERATION; NEGOTIATION; R_CONFIRMATION;
              CONVERSATION; R_TRANSLATION].
Proof. reflexivity. Qed.

(** C4, as amended: on the comma question [ANSWER] (the word "how" and
    the question mark) and [R_LANGUAGE_USE] ("fix" and "comma") both have
    2 matches over 9 words; the tie goes to [ANSWER], declared first, and
    the confidence is 4/9. *)
Theorem comma_question_is_answer :
  match_count ANSWER "How do I fix comma usage in this sentence?" = 2%Z
  /\ match_count R_LANGUAGE_USE "How do I fix comma usage in this sentence?" = 2%Z
  /\ word_count "How do I fix comma usage in this sentence?" = 9%Z
  /\ exists confidence,
       classify_intent "How do I fix comma usage in this sentence?"
       = Ok (ANSWER, confidence)
       /\ (confidence == 4 # 9)%Q
       /\ (0 < confidence)%Q /\ (confidence <= 1)%Q.
Proof.
  split; [evaluate|].
  split; [evaluate|].
  split; [evaluate|].
  exists (4 # 9)%Q. split; [evaluate|].
  split; [reflexivity|]. split; [reflexivity | discriminate].
Qed.

(** C4 as stated fails: the classifier does not select [R_LANGUAGE_USE]. *)
Lemma comma_question_is_not_language_use :
  classify_intent "How do I fix comma usage in this sentence?"
  = Ok (ANSWER, (4 # 9)%Q)
  /\ ~ (exists confidence,
          classify_intent "How do I fix comma usage in this sentence?"
          = Ok (R_LANGUAGE_USE, confidence)
          /\ (0 < confidence)%Q /\ (confidence <= 1)%Q).
Proof.
  assert (E : classify_intent "How do I fix comma usage in this sentence?"
              = Ok (ANSWER, (4 # 9)%Q)) by evaluate.
  split; [exact E|].
  intros [confidence [H _]]. rewrite E in H. discriminate H.
Qed.

(** A text with matches in two categories, over the ASCII library. *)
Lemma grammar_request_highest_first :
  matches_need_a_word ascii_library
  /\ no_match ascii_library "please check my grammar and fix the tense" = false
  /\ returns_highest_first ascii_library
       "please check my grammar and fix the tense".
Proof.
  split; [exact ascii_matches_need_a_word|].
  split; [evaluate|].
  apply (classify_returns_highest_first ascii_library
           "please check my grammar and fix the tense").
  - exact ascii_matches_need_a_word.
  - evaluate.
Defined.

(** C5 as stated fails on a text without any match: all categories tie
    at score 0, [ANSWER] is the first declared, and the classifier returns
    [OTHER], which the table does not list. *)
Lemma classify_without_match_not_highest_first :
  classify_intent "zzz" = Ok (OTHER, 0.5%Q)
  /\ highest_first ascii_library "zzz" ANSWER
  /\ ~ returns_highest_first ascii_library "zzz".
Proof.
  assert (E : classify_intent "zzz" = Ok (OTHER, 0.5%Q)) by evaluate.
  split; [exact E|]. split.
  - split; [now left|]. split.
    + intros c' Hc'. rewrite declared_list in Hc'.
      repeat (destruct Hc' as [Hc' | Hc']; [subst c'; vm_compute; discriminate|]).
      contradiction.
    + intros c' [l1 [l2 [l3 Hd]]]. exfalso.
      assert (Hin : In ANSWER (tl declared)).
      { rewrite Hd. destruct l1; simpl.
        - apply in_or_app. right. now left.
        - apply in_or_app. right. right. apply in_or_app. right. now left. }
      rewrite declared_list in Hin. simpl in Hin. intuition discriminate.
  - intros [c [confidence [H [Hin _]]]].
    rewrite <- classify_intent_ascii, E in H.
    injection H as Hc _. subst c. rewrite declared_list in Hin. simpl in Hin.
    intuition discriminate.
Qed.

End ClassifierExamples.

Section Decay.
Import UserAgent Spec.
Local Open Scope string_scope.

Lemma total_seconds_nonneg (us : Z) : (0 <= us)%Z -> (0 <= total_seconds us)%Q.
Proof.
  intro H. unfold total_seconds. apply Qle_shift_div_l; [reflexivity|].
  rewrite Qmult_0_l. change 0%Q with (inject_Z 0). now rewrite <- Zle_Qle.
Qed.

Lemma age_days_nonneg (now : Z) (m : AgentMemory.t) :
  (AgentMemory.created_at m <= now)%Z -> (0 <= age_days now m)%Q.
Proof.
  intro H. unfold age_days. apply Qle_shift_div_l; [reflexivity|].
  rewrite Qmult_0_l. apply total_seconds_nonneg. lia.
Qed.

Lemma decay_denominator_positive (age : Q) : (0 <= age)%Q -> (0 < 1 + 0.1 * age)%Q.
Proof. intro H. lra. Qed.

(** One access of a record that was not created in the future. *)
Lemma update_access_returns (m : AgentMemory.t) (st : Store) :
  (AgentMemory.created_at m <= clock st (S (ticks st)))%Z ->
  exists st' m',
    update_access m st = (st', Ok m')
    /\ clock st' = clock st
    /\ ticks st' = S (S (ticks st))
    /\ accessed_at (clock st (S (ticks st))) m m'.
Proof.
  intro H. unfold update_access, bind, utcnow, lift. cbn [clock ticks].
  fold (age_days (clock st (S (ticks st))) m).
  pose proof (decay_denominator_positive _ (age_days_nonneg _ m H)) as Hpos.
  unfold fdiv.
  destruct (Qeq_bool (1 + 0.1 * age_days (clock st (S (ticks st))) m) 0) eqn:E.
  - apply Qeq_bool_iff in E. rewrite E in Hpos. discriminate Hpos.
  - unfold put_memory, ret. cbn [interactions memories clock ticks].
    eexists. eexists. split; [reflexivity|].
    split; [reflexivity|]. split; [reflexivity|].
    unfold accessed_at, retention. cbn.
    repeat split; reflexivity.
Qed.

Lemma for_each_update_access (l : list AgentMemory.t) :
  forall st,
    (forall m n, In m l -> (ticks st <= n)%nat ->
                 (AgentMemory.created_at m <= clock st n)%Z) ->
    exists st' returned,
      for_each update_access l st = (st', Ok returned)
      /\ clock st' = clock st
      /\ ticks st' = (ticks st + 2 * List.length l)%nat
      /\ Forall2 (fun m m' =>
                    exists n, (ticks st <= n < ticks st')%nat
                              /\ accessed_at (clock st n) m m')
                 l returned.
Proof.
  induction l as [|m l IH]; intros st H.
  - exists st, []. simpl. unfold ret.
    split; [reflexivity|]. split; [reflexivity|]. split; [lia | constructor].
  - destruct (update_access_returns m st
                (H m _ (or_introl eq_refl) (Nat.le_succ_diag_r _)))
      as [st1 [m' [E1 [Hc1 [Ht1 Ha]]]]].
    destruct (IH st1) as [st2 [ms [E2 [Hc2 [Ht2 HF]]]]].
    { intros x n Hx Hn. rewrite Hc1. apply H; [now right | lia]. }
    exists st2, (m' :: ms).
    simpl. unfold bind at 1. rewrite E1. unfold bind at 1. rewrite E2.
    unfold ret. split; [reflexivity|].
    split; [congruence|]. split; [simpl; lia|].
    constructor.
    + exists (S (ticks st)). split; [simpl in *; lia | exact Ha].
    + eapply Forall2_impl; [|exact HF].
      intros a b [n [Hn Hacc]]. exists n. rewrite <- Hc1.
      split; [lia | exact Hacc].
Qed.

Lemma insert_by_in {A} (before : A -> A -> bool) (x y : A) (l : list A) :
  In y (insert_by before x l) -> y = x \/ In y l.
Proof.
  induction l as [|z l IH]; simpl.
  - intros [H | []]. now left.
  - destruct (before x z); simpl.
    + intros [H | H]; [now left | now right].
    + intros [H | H]; [right; now left|].
      destruct (IH H); [now left | right; now right].
Qed.


Lemma firstn_in {A} (n : nat) (l : list A) (x : A) :
  In x (firstn n l) -> In x l.
Proof.
  intro H. rewrite <- (firstn_skipn n l). apply in_or_app. now left.
Qed.


(** What a successful access writes: the row of the same primary key. *)
Lemma update_access_writes (m m' : AgentMemory.t) (st st' : Store) :
  update_access m st = (st', Ok m') ->
  AgentMemory.id m' = AgentMemory.id m
  /\ memories st'
     = map (fun j => if (AgentMemory.id j =? AgentMemory.id m)%Z then m' else j)
           (memories st).
Proof.
  unfold update_access, bind, utcnow, lift, fdiv, put_memory, ret.
  cbn [clock ticks interactions memories].
  destruct (Qeq_bool _ 0); intro E; [discriminate E|].
  injection E as Est Em. subst st' m'. cbn. split; reflexivity.
Qed.

Lemma update_access_stores (m m' : AgentMemory.t) (st st' : Store) :
  update_access m st = (st', Ok m') ->
  In m (memories st) -> In m' (memories st').
Proof.
  intros E Hin. destruct (update_access_writes _ _ _ _ E) as [_ Hm].
  rewrite Hm. apply in_map_iff. exists m. split; [|exact Hin].
  now rewrite Z.eqb_refl.
Qed.

Lemma update_access_frame (m m' x : AgentMemory.t) (st st' : Store) :
  update_access m st = (st', Ok m') ->
  In x (memories st) -> AgentMemory.id x <> AgentMemory.id m ->
  In x (memories st').
Proof.
  intros E Hin Hne. destruct (update_access_writes _ _ _ _ E) as [_ Hm].
  rewrite Hm. apply in_map_iff. exists x. split; [|exact Hin].
  destruct (AgentMemory.id x =? AgentMemory.id m)%Z eqn:Ex; [|reflexivity].
  apply Z.eqb_eq in Ex. contradiction.
Qed.

Lemma for_each_update_access_frame (l : list AgentMemory.t) :
  forall st st' returned x,
    for_each update_access l st = (st', Ok returned) ->
    In x (memories st) ->
    (forall m, In m l -> AgentMemory.id x <> AgentMemory.id m) ->
    In x (memories st').
Proof.
  induction l as [|m l IH]; intros st st' returned x E Hin Hne.
  - simpl in E. unfold ret in E. injection E as Est _. now subst st'.
  - for_each_round E st1 m1 E1 st2 ms E2. injection E as Est _. subst st'.
    apply (IH st1 st2 ms x E2).
    + apply (update_access_frame m m1 x st st1 E1 Hin). apply Hne. now left.
    + intros y Hy. apply Hne. now right.
Qed.

(** With distinct primary keys, the rows the store holds after the call
    are the records returned. *)
Lemma for_each_update_access_stores (l : list AgentMemory.t) :
  forall st st' returned,
    for_each update_access l st = (st', Ok returned) ->
    NoDup (map AgentMemory.id l) ->
    (forall m, In m l -> In m (memories st)) ->
    Forall (fun m' => In m' (memories st')) returned.
Proof.
  induction l as [|m l IH]; intros st st' returned E Hnd Hin.
  - simpl in E. unfold ret in E. injection E as _ Er. subst returned. constructor.
  - for_each_round E st1 m1 E1 st2 ms E2.
    injection E as Est Er. subst st' returned.
    inversion Hnd as [|? ? Hnot Hnd']; subst.
    destruct (update_access_writes _ _ _ _ E1) as [Hid _].
    constructor.
    + apply (for_each_update_access_frame l st1 st2 ms m1 E2).
      * apply (update_access_stores m m1 st st1 E1). apply Hin. now left.
      * intros y Hy Heq. apply Hnot. rewrite <- Hid, Heq. now apply in_map.
    + apply (IH st1 st2 ms E2 Hnd').
      intros y Hy. apply (update_access_frame m m1 y st st1 E1).
      * apply Hin. now right.
      * intro Heq. apply Hnot. rewrite <- Heq. now apply in_map.
Qed.

Lemma insert_by_permutation {A} (before : A -> A -> bool) (x : A) (l : list A) :
  Permutation (insert_by before x l) (x :: l).
Proof.
  induction l as [|y l IH]; simpl; [reflexivity|].
  destruct (before x y); [reflexivity|].
  rewrite IH. apply perm_swap.
Qed.

Lemma order_by_permutation {A} (before : A -> A -> bool) (l : list A) :
  Permutation (order_by before l) l.
Proof.
  unfold order_by.
  assert (G : forall acc,
             Permutation (fold_left (fun acc x => insert_by before x acc) l acc)
                         (acc ++ l)).
  { induction l as [|x l IH]; intro acc; simpl.
    - now rewrite app_nil_r.
    - rewrite IH, insert_by_permutation.
      change (x :: acc ++ l) with ((x :: acc) ++ l).
      apply Permutation_cons_app. reflexivity. }
  apply (G []).
Qed.

Lemma filter_keeps_distinct_keys {Row Key} (key : Row -> Key) (keep : Row -> bool) :
  forall rows : list Row,
    NoDup (map key rows) -> NoDup (map key (filter keep rows)).
Proof.
  intros rows. induction rows as [|row rows IH]; intro H; simpl; [constructor|].
  inversion H as [|? ? Hnot Hnd]; subst.
  destruct (keep row); simpl; [|now apply IH].
  constructor; [|now apply IH].
  intro Hin. apply Hnot. apply in_map_iff in Hin.
  destruct Hin as [x [Hx Hf]]. apply filter_In in Hf.
  apply in_map_iff. exists x. tauto.
Qed.

Lemma firstn_keeps_distinct_keys {Row Key} (key : Row -> Key) (limit : nat) :
  forall rows : list Row,
    NoDup (map key rows) -> NoDup (map key (firstn limit rows)).
Proof.
  intros rows H. rewrite <- (firstn_skipn limit rows), map_app in H.
  now apply NoDup_app_remove_r in H.
Qed.

(** The query returns each row at most once. *)
Lemma select_memories_nodup st lid key ty limit :
  NoDup (map AgentMemory.id (memories st)) ->
  NoDup (map AgentMemory.id (select_memories st lid key ty limit)).
Proof.
  intro H. unfold select_memories.
  apply firstn_keeps_distinct_keys.
  eapply Permutation_NoDup;
    [apply Permutation_map; symmetry; apply order_by_permutation|].
  destruct ty as [ty|]; [destruct (truthy ty)|];
    (destruct key as [key|]; [destruct (truthy key)|]);
    repeat apply filter_keeps_distinct_keys; exact H.
Qed.

Lemma retention_strictly_decreasing (importance : Q) :
  (0 < importance)%Q -> strictly_decreasing_in_age importance.
Proof.
  intros Hi age1 age2 H1 H12. unfold retention.
  apply Qmult_lt_l; [exact Hi|].
  unfold Qdiv. rewrite !Qmult_1_l.
  apply -> Qinv_lt_contravar; [lra | lra | lra].
Qed.

Lemma retention_never_larger (importance age1 age2 : Q) :
  (0 <= importance)%Q -> (0 <= age1)%Q -> (age1 <= age2)%Q ->
  (retention importance age2 <= retention importance age1)%Q.
Proof.
  intros Hi H1 H12.
  destruct (Qlt_le_dec 0 importance) as [Hpos | Hle].
  - destruct (Qlt_le_dec age1 age2) as [Hlt | Hge].
    + apply Qlt_le_weak. now apply retention_strictly_decreasing.
    + assert (E : (age1 == age2)%Q) by (apply Qle_antisym; assumption).
      unfold retention. rewrite E. apply Qle_refl.
  - assert (E : (importance == 0)%Q) by (apply Qle_antisym; assumption).
    unfold retention. rewrite E, !Qmult_0_l. apply Qle_refl.
Qed.

Lemma retention_of_negative_importance_grows :
  ~ never_larger_later (-1).
Proof.
  intro H. specialize (H 0%Q 10%Q). unfold retention in H.
  assert (C : (-1 * (1 / (1 + 0.1 * 10)) <= -1 * (1 / (1 + 0.1 * 0)))%Q).
  { apply H; [apply Qle_refl | discriminate]. }
  vm_compute in C. apply C. reflexivity.
Qed.

(** C6, as amended: whatever rows the query of a retrieve call selects,
    when none of them is dated after the readings of the clock still to
    come, the call returns, and each returned record is the selected
    record with its access count up by exactly 1 and its retention
    strength equal to importance * (1 / (1 + 0.1 * age)), the age being
    the time since the record's creation, in days, at a clock reading of
    the call; when the selected rows are stored rows with distinct primary
    keys, these are the rows the store holds afterwards.
    [retrieve_memory] without a key filter is this call on the rows of
    [select_memories].  For an importance that is not negative the formula
    is never larger at a later age than at an earlier one. *)
Theorem retrieve_updates_access_and_retention
        (st : Store) (query : Store -> list AgentMemory.t) :
  (forall m n, In m (query st) -> (ticks st <= n)%nat ->
               (AgentMemory.created_at m <= clock st n)%Z) ->
  (exists st' returned,
      retrieve_rows query st = (st', Ok returned)
      /\ Forall2 (fun m m' =>
                    exists n, (ticks st <= n < ticks st')%nat
                              /\ accessed_at (clock st n) m m')
                 (query st) returned
      /\ (NoDup (map AgentMemory.id (query st)) ->
          incl (query st) (memories st) ->
          Forall (fun m' => In m' (memories st')) returned))
  /\ (forall learner_id memory_type limit,
        retrieve_memory learner_id None memory_type limit
        = retrieve_rows
            (fun st0 => select_memories st0 learner_id None memory_type limit))
  /\ (forall importance, (0 <= importance)%Q -> never_larger_later importance).
Proof.
  intro H. split; [|split].
  - unfold retrieve_rows.
    destruct (for_each_update_access (query st) st)
      as [st' [returned [E [_ [_ HF]]]]].
    + exact H.
    + exists st', returned. split; [exact E|]. split; [exact HF|].
      intros Hnd Hin.
      apply (for_each_update_access_stores _ st st' returned E Hnd).
      intros m Hm. now apply Hin.
  - reflexivity.
  - intros importance Hi age1 age2 H1 H12. now apply retention_never_larger.
Qed.

End Decay.

Section ConcreteRuns.
Import UserAgent SageApi Spec Samples.
Local Open Scope string_scope.

(** A memory of importance 1, read ten days after its creation: the
    access count becomes 1 and the retention 1/2. *)
Lemma retrieve_after_ten_days :
  (exists st' m',
      retrieve_memory 7 None None 10 (store_at 1 (10 * day)) = (st', Ok [m'])
      /\ AgentMemory.access_count m' = 1%Z
      /\ (AgentMemory.retention_strength m' == 1 # 2)%Q)
  /\ (exists st' returned,
         retrieve_rows (fun st0 => select_memories st0 7 None None 10)
                       (store_at 1 (10 * day)) = (st', Ok returned)
         /\ Forall2 (fun m m' =>
                       exists n, (ticks (store_at 1 (10 * day)) <= n < ticks st')%nat
                                 /\ accessed_at (clock (store_at 1 (10 * day)) n) m m')
                    (select_memories (store_at 1 (10 * day)) 7 None None 10)
                    returned
         /\ (NoDup (map AgentMemory.id
                      (select_memories (store_at 1 (10 * day)) 7 None None 10)) ->
             incl (select_memories (store_at 1 (10 * day)) 7 None None 10)
                  (memories (store_at 1 (10 * day))) ->
             Forall (fun m' => In m' (memories st')) returned))
  /\ never_larger_later 1.
Proof.
  destruct (retrieve_updates_access_and_retention
              (store_at 1 (10 * day))
              (fun st0 => select_memories st0 7 None None 10)) as [Hret [_ Hdec]].
  - intros m n [Hm | []] _. subst m. vm_compute. discriminate.
  - split; [|split; [exact Hret | apply Hdec; discriminate]].
    eexists. eexists. split; [reflexivity|].
    split; evaluate.
Defined.

(** C6 as stated fails for importance 0: read at creation and read one
    day later, the recomputed retention is 0 both times, so it does not
    fall strictly with the age.  For a negative importance the retention
    grows with the age. *)
Lemma zero_importance_retention_is_constant :
  (exists st1 m1 st2 m2,
      retrieve_memory 7 None None 10 (store_at 0 0) = (st1, Ok [m1])
      /\ retrieve_memory 7 None None 10 (store_at 0 day) = (st2, Ok [m2])
      /\ (AgentMemory.retention_strength m1 == 0)%Q
      /\ (AgentMemory.retention_strength m2 == 0)%Q)
  /\ ~ strictly_decreasing_in_age 0
  /\ ~ (forall importance, strictly_decreasing_in_age importance)
  /\ ~ never_larger_later (-1).
Proof.
  assert (H0 : ~ strictly_decreasing_in_age 0).
  { intro H. specialize (H 0%Q 1%Q). unfold retention in H.
    assert (C : (0 * (1 / (1 + 0.1 * 1)) < 0 * (1 / (1 + 0.1 * 0)))%Q).
    { apply H; [apply Qle_refl | reflexivity]. }
    vm_compute in C. discriminate C. }
  split; [|split; [exact H0 | split; [intro H; apply H0, H|]]];
    [|exact retention_of_negative_importance_grows].
  do 4 eexists. split; [reflexivity|].
  split; [reflexivity|]. split; evaluate.
Qed.

(** Feedback on interaction 9, which the store does not hold. *)
Lemma feedback_on_unknown_interaction_run :
  handle_feedback 9 5 (Some "great") first_turn_store = (first_turn_store, Ok tt)
  /\ submit_feedback (mkFeedback (Some 9%Z) (Some (JInt 5)) (Some "great"))
                     first_turn_store
     = (first_turn_store, (message "Feedback submitted successfully", 200%Z)).
Proof.
  destruct (feedback_on_unknown_interaction_is_noop
              first_turn_store 9 (Some "great")) as [Hh Hs].
  - split; reflexivity.
  - split; [apply Hh|]. apply Hs. left. exists 5%Z. split; [reflexivity | lia].
Defined.

(** C10 as stated fails for an id beyond the 64-bit range: no stored
    interaction has the id 2^63, the lookup raises [OverflowError], the
    handler does not complete, and the route answers 500. *)
Lemma feedback_beyond_64_bits_raises :
  find (fun i => (Interaction.id i =? 9223372036854775808)%Z)
       (interactions first_turn_store) = None
  /\ handle_feedback 9223372036854775808 5 (Some "great") first_turn_store
     = (first_turn_store, Raise OverflowError)
  /\ submit_feedback
       (mkFeedback (Some 9223372036854775808%Z) (Some (JInt 5)) (Some "great"))
       first_turn_store
     = (first_turn_store, (error "Internal server error", 500%Z))
  /\ ~ (forall rating,
          handle_feedback 9223372036854775808 rating (Some "great")
                          first_turn_store
          = (first_turn_store, Ok tt)).
Proof.
  assert (E : handle_feedback 9223372036854775808 5 (Some "great") first_turn_store
              = (first_turn_store, Raise OverflowError)) by reflexivity.
  split; [reflexivity|]. split; [exact E|]. split; [reflexivity|].
  intro H. rewrite (H 5%Z) in E. discriminate E.
Qed.

(** Rating 6 is refused; rating 5 with a text on the stored interaction 4
    adds one memory. *)
Lemma feedback_rating_and_memory_run :
  submit_feedback (mkFeedback (Some 4%Z) (Some (JInt 6)) (Some "great"))
                  first_turn_store
  = (first_turn_store, (error "Rating must be an integer between 1 and 5", 400%Z))
  /\ submit_feedback (mkFeedback (Some 4%Z) (Some (JStr "5")) (Some "great"))
                     first_turn_store
     = (first_turn_store, (error "Rating must be an integer between 1 and 5", 400%Z))
  /\ feedback_adds_memory first_turn_store 4 "great".
Proof.
  destruct (feedback_rating_checked_and_memory_stored first_turn_store 4)
    as [Hout [Hbad Hgood]].
  split; [|split].
  - apply Hout. right. reflexivity.
  - apply Hbad; [|discriminate]. intros [n [E _]]. discriminate E.
  - apply (Hgood "great" first_turn); [discriminate | reflexivity].
Defined.

(** The JSON value [true] passes the rating test as the integer 1. *)
Lemma rating_true_is_accepted :
  exists st',
    submit_feedback (mkFeedback (Some 4%Z) (Some (JBool true)) None)
                    first_turn_store
    = (st', (message "Feedback submitted successfully", 200%Z))
    /\ map Interaction.user_rating (interactions st') = [Some 1%Z].
Proof. eexists. split; reflexivity. Qed.

(** C8 as stated fails when the interaction id resolves to nothing: the
    route answers 200 and no memory is added. *)
Lemma feedback_on_unknown_interaction_adds_no_memory :
  submit_feedback (mkFeedback (Some 9%Z) (Some (JInt 5)) (Some "great"))
                  first_turn_store
  = (first_turn_store, (message "Feedback submitted successfully", 200%Z))
  /\ ~ feedback_adds_memory first_turn_store 9 "great".
Proof.
  assert (E : submit_feedback (mkFeedback (Some 9%Z) (Some (JInt 5)) (Some "great"))
                              first_turn_store
              = (first_turn_store,
                 (message "Feedback submitted successfully", 200%Z)))
    by reflexivity.
  split; [exact E|].
  intros [st' [m [H [Hm _]]]]. rewrite E in H. injection H as H. subst st'.
  apply (f_equal (@List.length _)) in Hm. rewrite length_app in Hm.
  simpl in Hm. lia.
Qed.

End ConcreteRuns.

(* --------------------------------------------------------------------- *)
(** ** The embedding on concrete inputs *)

Section Runs.
Import UserAgent CheckerAgent SageApi Spec Samples.
Local Open Scope string_scope.

Example split_words :
  split "  How do I	fix  this? " = ["How"; "do"; "I"; "fix"; "this?"].
Proof. reflexivity. Qed.

Example findall_whole_words :
  findall (words ["he"; "his"; "him"]) "the his he him them he"
  = ["his"; "he"; "him"; "he"].
Proof. reflexivity. Qed.

Example findall_greedy :
  findall_ic (seq [words ["he"; "his"; "him"]; dotstar;
                   words ["strong"; "leader"; "assertive"]])
             "He is strong, a leader. She agrees."
  = ["He is strong, a leader"].
Proof. reflexivity. Qed.

Example round3_two_thirds : round3 (2 # 3) = (667 # 1000)%Q.
Proof. reflexivity. Qed.

Example classify_thanks :
  exists c, classify_intent "Thanks, got it" = Ok (ACK, c) /\ (c == 1)%Q.
Proof. eexists. split; [evaluate | reflexivity]. Qed.

Example detect_bias_gender :
  BiasDetection.detected_biases
    (_detect_bias (mkResponse (Some "He is a strong leader.") None))
  = ["gender_bias"].
Proof. reflexivity. Qed.

Example detect_bias_none :
  BiasDetection.bias_free
    (_detect_bias (mkResponse (Some "Plan your essay step by step.") None))
  = true.
Proof. reflexivity. Qed.

(** The tone aspect against one earlier, encouraging response. *)
Example tone_against_encouraging_past :
  let past := Interaction.make 3 "s1" 7 "hi" (Some "Great start!") None None 0
                None None None 50 None in
  (_assess_consistency_aspect (mkResponse (Some "Good work") None) [past] "tone"
   == 1)%Q
  /\ (_assess_consistency_aspect (mkResponse (Some "Revise it") None) [past] "tone"
      == 1 # 2)%Q
  /\ (_assess_consistency_aspect (mkResponse (Some "Revise it") None) [past]
        "terminology" == 4 # 5)%Q.
Proof. repeat split. Qed.

(** The same class with the missing method added (returning its
    requirements): a bias-free response below the threshold, and a biased
    one, are both rejected. *)
Example validate_with_method_added :
  exists r1 r2 st1 st2,
    validate_response with_check_requirements_met (fun _ reqs => reqs)
      (mkResponse (Some "A clear explanation, step-by-step.") None)
      (mkInput (Some (mkProfile (Some 7%Z)))) 4 first_turn_store = (st1, Ok r1)
    /\ ValidationResults.overall_score r1 = (598 # 1000)%Q
    /\ ValidationResults.approved r1 = false
    /\ validate_response with_check_requirements_met (fun _ reqs => reqs)
         (mkResponse (Some "He is a strong leader.") None)
         (mkInput (Some (mkProfile (Some 7%Z)))) 4 first_turn_store = (st2, Ok r2)
    /\ ValidationResults.approved r2 = false.
Proof.
  do 4 eexists. split; [evaluate|].
  split; [evaluate|]. split; [reflexivity|].
  split; [evaluate | reflexivity].
Qed.

End Runs.

(* ===================================================================== *)
(** * The classifier: range of the result, letter case *)
(* ===================================================================== *)

Section ClassifierRange.
Import UserAgent Spec Analysis.
Local Open Scope string_scope.

Lemma min2_cases (a b : Q) : min2 a b = a \/ min2 a b = b.
Proof. unfold min2. destruct (Qlt_bool b a); tauto. Qed.

Lemma min2_le_r (a b : Q) : (min2 a b <= b)%Q.
Proof.
  unfold min2. destruct (Qlt_bool b a) eqn:E.
  - apply Qle_refl.
  - apply Qlt_bool_false_iff in E. exact E.
Qed.

Lemma in_scored_keys (L : TextLibrary) (s : str L) c :
  In c (dict_keys (scored L intent_patterns s)) ->
  In c declared /\ (0 < match_count_with L c s)%Z.
Proof.
  rewrite scored_keys. intro H. apply filter_In in H.
  destruct H as [Hd Hm]. apply Z.ltb_lt in Hm. tauto.
Qed.

Lemma max_by_in {K} (f : K -> Q) (first : K) (rest : list K) :
  In (max_by f first rest) (first :: rest).
Proof.
  destruct (max_by_spec f first rest) as [l1 [l2 [E _]]].
  rewrite E. apply in_app_iff. right. now left.
Qed.

(** X1: over every text library in which a match needs a word, for every
    input the classifier returns a category and a confidence, raising
    nothing, and the confidence is greater than 0 and at most 1: it is 0.5
    when no category has a match, and otherwise twice the normalized score
    of the returned category, capped at 1. *)
Theorem classify_intent_confidence_range (L : TextLibrary) (user_input : str L) :
  matches_need_a_word L ->
  exists c confidence,
    classify_intent_with L user_input = Ok (c, confidence)
    /\ (0 < confidence)%Q /\ (confidence <= 1)%Q
    /\ (confidence == if no_match L user_input then 0.5
                       else Qmin (normalized_score_with L user_input c * 2) 1)%Q.
Proof.
  intro Hword.
  rewrite (classify_intent_scored L user_input (scored_word_count L user_input Hword)).
  destruct (dict_keys (scored L intent_patterns user_input)) as [|k ks] eqn:E.
  - exists OTHER, 0.5%Q. split; [reflexivity|]. split; [reflexivity|].
    split; [unfold Qle; simpl; lia|].
    assert (Hnil : scored L intent_patterns user_input = []).
    { destruct (scored L intent_patterns user_input); [reflexivity | discriminate]. }
    apply scored_nil_iff_no_match in Hnil. rewrite Hnil. reflexivity.
  - set (best := max_by (score_of (scored L intent_patterns user_input)) k ks).
    exists best, (min2 (score_of (scored L intent_patterns user_input) best * 2) 1.0).
    split; [reflexivity|].
    assert (Hin : In best (dict_keys (scored L intent_patterns user_input))).
    { rewrite E. apply max_by_in. }
    destruct (in_scored_keys _ _ _ Hin) as [_ Hm].
    assert (Hw : (0 < word_count_with L user_input)%Z).
    { destruct (scored_word_count L user_input Hword) as [Hw | Hn]; [exact Hw|].
      rewrite Hn in E. discriminate. }
    pose proof (normalized_score_positive L user_input best Hw Hm) as Hpos.
    rewrite (score_of_scored _ _ _ Hin). split; [|split].
    + destruct (min2_cases (normalized_score_with L user_input best * 2) 1.0)
        as [M | M]; rewrite M; [|reflexivity].
      apply Qmult_lt_0_compat; [exact Hpos | reflexivity].
    + apply Qle_trans with 1.0%Q; [apply min2_le_r | unfold Qle; simpl; lia].
    + destruct (no_match L user_input) eqn:Hno.
      * apply scored_nil_iff_no_match in Hno. rewrite Hno in E. discriminate.
      * rewrite min2_is_Qmin. apply Q.min_compat; reflexivity.
Qed.

(** The comma question, over the ASCII library: confidence 4/9. *)
Lemma classify_intent_confidence_range_run :
  matches_need_a_word ascii_library
  /\ exists c confidence,
       classify_intent_with ascii_library
         "How do I fix comma usage in this sentence?"
       = Ok (c, confidence)
       /\ (0 < confidence)%Q /\ (confidence <= 1)%Q
       /\ (confidence
           == if no_match ascii_library "How do I fix comma usage in this sentence?"
              then 0.5
              else Qmin (normalized_score_with ascii_library
                           "How do I fix comma usage in this sentence?" c * 2) 1)%Q.
Proof.
  split; [exact ascii_matches_need_a_word|].
  exact (classify_intent_confidence_range ascii_library
           "How do I fix comma usage in this sentence?" ascii_matches_need_a_word).
Defined.

(** X2: over every text library in which a match needs a word, the
    category returned is [OTHER] exactly when no category of the pattern
    table has a match; otherwise it is a category of the table with at
    least one match in the text.  [QUESTION], which has no patterns, is
    never returned. *)
Theorem classify_intent_category (L : TextLibrary) (user_input : str L) :
  matches_need_a_word L ->
  exists c confidence,
    classify_intent_with L user_input = Ok (c, confidence)
    /\ (c = OTHER <-> no_match L user_input = true)
    /\ (c <> OTHER -> In c declared /\ (0 < match_count_with L c user_input)%Z)
    /\ c <> QUESTION.
Proof.
  intro Hword.
  rewrite (classify_intent_scored L user_input (scored_word_count L user_input Hword)).
  destruct (dict_keys (scored L intent_patterns user_input)) as [|k ks] eqn:E.
  - exists OTHER, 0.5%Q. split; [reflexivity|].
    assert (Hnil : scored L intent_patterns user_input = []).
    { destruct (scored L intent_patterns user_input); [reflexivity | discriminate]. }
    apply scored_nil_iff_no_match in Hnil.
    split; [tauto|]. split; [congruence | discriminate].
  - set (best := max_by (score_of (scored L intent_patterns user_input)) k ks).
    exists best, (min2 (score_of (scored L intent_patterns user_input) best * 2) 1.0).
    split; [reflexivity|].
    assert (Hin : In best (dict_keys (scored L intent_patterns user_input))).
    { rewrite E. apply max_by_in. }
    destruct (in_scored_keys _ _ _ Hin) as [Hd Hm].
    assert (Hnot : best <> OTHER /\ best <> QUESTION).
    { rewrite declared_list in Hd. simpl in Hd.
      split; intro Hb; rewrite Hb in Hd; intuition discriminate. }
    destruct Hnot as [HO HQ].
    split; [|split; [tauto | exact HQ]].
    split; [contradiction|].
    intro Hno. apply scored_nil_iff_no_match in Hno.
    rewrite Hno in E. discriminate.
Qed.

(** A greeting, over the ASCII library. *)
Lemma classify_intent_category_run :
  matches_need_a_word ascii_library
  /\ exists c confidence,
       classify_intent_with ascii_library "hello there" = Ok (c, confidence)
       /\ (c = OTHER <-> no_match ascii_library "hello there" = true)
       /\ (c <> OTHER ->
           In c declared /\ (0 < match_count_with ascii_library c "hello there")%Z)
       /\ c <> QUESTION.
Proof.
  split; [exact ascii_matches_need_a_word|].
  exact (classify_intent_category ascii_library "hello there"
           ascii_matches_need_a_word).
Defined.

End ClassifierRange.

Section LetterCase.
Import UserAgent Spec Analysis.
Local Open Scope string_scope.

Lemma lower_char_idempotent (a : ascii) : lower_char (lower_char a) = lower_char a.
Proof.
  destruct a as [[] [] [] [] [] [] [] []]; reflexivity.
Qed.

Lemma lower_idempotent (s : string) : lower (lower s) = lower s.
Proof.
  induction s as [|a s IH]; [reflexivity|].
  simpl. now rewrite lower_char_idempotent, IH.
Qed.

Lemma length_lower (s : string) : String.length (lower s) = String.length s.
Proof.
  induction s as [|a s IH]; [reflexivity|]. simpl. now rewrite IH.
Qed.

(** [split] cuts at the same places whatever the letter case. *)
Lemma split_from_lower (s : string) :
  forall cur cur',
    String.eqb cur EmptyString = String.eqb cur' EmptyString ->
    List.length (split_from cur' (lower s)) = List.length (split_from cur s).
Proof.
  induction s as [|a s IH]; intros cur cur' Hc; simpl.
  - rewrite Hc. destruct (String.eqb cur' EmptyString); reflexivity.
  - rewrite isspace_lower_char. destruct (isspace a).
    + rewrite Hc. destruct (String.eqb cur' EmptyString); simpl;
        rewrite (IH EmptyString EmptyString); reflexivity.
    + apply IH. now rewrite !append_char_nonempty.
Qed.

Lemma word_count_lower (s : string) : word_count (lower s) = word_count s.
Proof.
  unfold word_count, split. f_equal. now apply split_from_lower.
Qed.

(** The scoring loop reads [user_input] only for its word count. *)
Lemma score_intents_word_count table (u u' l : string) :
  word_count u = word_count u' ->
  forall acc, score_intents table u l acc = score_intents table u' l acc.
Proof.
  intro Hw. induction table as [|[c pats] table IH]; intro acc; simpl.
  - reflexivity.
  - fold (word_count u). fold (word_count u'). rewrite Hw.
    destruct (0 <? pattern_score pats l)%Z; [|apply IH].
    destruct (truediv (pattern_score pats l) (word_count u')); simpl;
      [apply IH | reflexivity].
Qed.

Lemma classify_intent_lower (s : string) :
  classify_intent (lower s) = classify_intent s.
Proof.
  unfold classify_intent. rewrite lower_idempotent.
  now rewrite (score_intents_word_count intent_patterns (lower s) s (lower s)
                 (word_count_lower s)).
Qed.

(** X3: the classifier ignores letter case: two inputs that are equal
    after lower-casing get the same category and the same confidence. *)
Theorem classify_intent_ignores_case (s t : string) :
  lower s = lower t ->
  classify_intent s = classify_intent t.
Proof.
  intro H. rewrite <- (classify_intent_lower s), <- (classify_intent_lower t).
  now rewrite H.
Qed.

Lemma classify_intent_ignores_case_run :
  lower "Can you FIX my Grammar?" = lower "can you fix my grammar?"
  /\ classify_intent "Can you FIX my Grammar?"
     = classify_intent "can you fix my grammar?".
Proof.
  split; [reflexivity|].
  apply (classify_intent_ignores_case "Can you FIX my Grammar?"
           "can you fix my grammar?").
  reflexivity.
Defined.

End LetterCase.

(* ===================================================================== *)
(** * The validator: quality criteria and educational standards *)
(* ===================================================================== *)

Section QualityRange.
Import CheckerAgent Spec Notions.
Local Open Scope string_scope.

Lemma max2_ge_l (a b : Q) : (a <= max2 a b)%Q.
Proof.
  unfold max2. destruct (Qlt_bool a b) eqn:E.
  - apply Qlt_bool_iff in E. now apply Qlt_le_weak.
  - apply Qle_refl.
Qed.

Lemma max2_lub (a b c : Q) : (a <= c)%Q -> (b <= c)%Q -> (max2 a b <= c)%Q.
Proof. intros Ha Hb. unfold max2. now destruct (Qlt_bool a b). Qed.

Lemma min2_le_l (a b : Q) : (min2 a b <= a)%Q.
Proof.
  unfold min2. destruct (Qlt_bool b a) eqn:E.
  - apply Qlt_bool_iff in E. now apply Qlt_le_weak.
  - apply Qle_refl.
Qed.

(** X4: whatever the text and the criterion configuration, the criterion
    score lies between 0 and 1, and it is one half for a configuration
    without indicators. *)
Theorem criterion_score_in_unit_interval (content : string) (cfg : criteria_config) :
  unit_interval (_calculate_criterion_score content cfg)
  /\ (indicators cfg = [] ->
      (_calculate_criterion_score content cfg == 1 # 2)%Q).
Proof.
  split.
  - unfold unit_interval, _calculate_criterion_score.
    destruct (Z.of_nat (List.length (indicators cfg)) =? 0)%Z.
    + split; unfold Qle; simpl; lia.
    + split.
      * apply Qle_trans with 0.0%Q; [unfold Qle; simpl; lia | apply max2_ge_l].
      * apply max2_lub; [unfold Qle; simpl; lia|].
        apply Qle_trans with 1.0%Q; [apply min2_le_l | unfold Qle; simpl; lia].
  - intro E. unfold _calculate_criterion_score. rewrite E. reflexivity.
Qed.

(** The entries of [_assess_quality], row by row of the criteria table. *)
Lemma assess_quality_rows resp pin :
  _assess_quality resp pin
  = map (fun '(criterion, cfg) =>
           (criterion,
            QualityEntry.make
              (_calculate_criterion_score (get_content resp) cfg)
              (Qle_bool (min_score cfg)
                 (_calculate_criterion_score (get_content resp) cfg))
              (_get_criterion_details (get_content resp) cfg)))
        quality_criteria.
Proof. reflexivity. Qed.

(** The score in terms of the two lists of phrases found. *)
Lemma criterion_score_of_details (content : string) (cfg : criteria_config) :
  let d := _get_criterion_details content cfg in
  let p := Z.of_nat (List.length (CriterionDetails.positive_indicators_found d)) in
  let n := Z.of_nat (List.length (CriterionDetails.negative_indicators_found d)) in
  _calculate_criterion_score content cfg
  = if (Z.of_nat (List.length (indicators cfg)) =? 0)%Z then 0.5%Q
    else max2 0.0 (min2 1.0 (inject_Z p / inject_Z (Z.of_nat (List.length (indicators cfg)))
                             - inject_Z n * 0.2)).
Proof.
  unfold _calculate_criterion_score.
  rewrite !count_indicators_is_phrase_matches. reflexivity.
Qed.

Lemma found_at_most (content : string) (cfg : criteria_config) :
  (List.length (CriterionDetails.positive_indicators_found
                  (_get_criterion_details content cfg))
   <= List.length (indicators cfg))%nat
  /\ (List.length (CriterionDetails.negative_indicators_found
                     (_get_criterion_details content cfg))
      <= List.length (negative_indicators cfg))%nat.
Proof. split; apply filter_length_le. Qed.

(** X5: a criterion of the table meets its threshold exactly when all
    three of its indicator phrases occur in the response and at most one
    negative phrase does; for [engagement], whose threshold is 0.6, also
    with all three and two negative phrases, or with two indicator phrases
    and no negative one. *)
Theorem quality_threshold_met_iff resp pin (criterion : string) (entry : QualityEntry.t) :
  In (criterion, entry) (_assess_quality resp pin) ->
  QualityEntry.meets_threshold entry = true
  <-> (found entry = 3%nat /\ (found_negative entry <= 1)%nat)
      \/ (criterion = "engagement"
          /\ ((found entry = 3%nat /\ found_negative entry = 2%nat)
              \/ (found entry = 2%nat /\ found_negative entry = 0%nat))).
Proof.
  rewrite assess_quality_rows. intro Hin.
  apply in_map_iff in Hin. destruct Hin as [[c cfg] [E Hrow]].
  injection E as Ec Ee. subst criterion entry.
  unfold found, found_negative. simpl QualityEntry.meets_threshold.
  simpl QualityEntry.details.
  rewrite criterion_score_of_details.
  pose proof (found_at_most (get_content resp) cfg) as [Hp Hn].
  remember (List.length (CriterionDetails.positive_indicators_found
              (_get_criterion_details (get_content resp) cfg))) as p.
  remember (List.length (CriterionDetails.negative_indicators_found
              (_get_criterion_details (get_content resp) cfg))) as n.
  clear Heqp Heqn.
  table_entry Hrow; simpl in Hp, Hn;
    destruct p as [|[|[|[|p]]]]; try lia;
    destruct n as [|[|[|[|n]]]]; try lia;
    vm_compute; intuition (try lia; try discriminate).
Qed.

Lemma quality_threshold_met_iff_run :
  In ("clarity",
      QualityEntry.make (24 # 30) true
        (CriterionDetails.make
           ["clear explanation"; "step-by-step"; "examples provided"] ["vague"]
           78 11))
     (_assess_quality
        (mkResponse
           (Some "A clear explanation, step-by-step, examples provided: never vague or too long.")
           None)
        (mkInput None))
  /\ (true = true
      <-> (3 = 3 /\ 1 <= 1)%nat
          \/ ("clarity" = "engagement"
              /\ ((3 = 3 /\ 1 = 2) \/ (3 = 2 /\ 1 = 0))%nat)).
Proof.
  split.
  - vm_compute. left. reflexivity.
  - apply (quality_threshold_met_iff
             (mkResponse
                (Some "A clear explanation, step-by-step, examples provided: never vague or too long.")
                None)
             (mkInput None) "clarity"
             (QualityEntry.make (24 # 30) true
                (CriterionDetails.make
                   ["clear explanation"; "step-by-step"; "examples provided"] ["vague"]
                   78 11))).
    vm_compute. left. reflexivity.
Defined.

End QualityRange.

Section StandardsFacts.
Import CheckerAgent Spec Notions.
Local Open Scope string_scope.

Lemma len_lower (s : string) : len (lower s) = len s.
Proof. unfold len. now rewrite length_lower. Qed.

(** The number of requirements met is between 0 and their number. *)
Lemma met_requirements_bounded (content : string) (profile : option LearnerProfileDict)
      (requirements : list string) :
  forall acc,
    (acc <= fold_left
              (fun met requirement =>
                 if _check_requirement content requirement profile
                 then (met + 1)%Z else met)
              requirements acc
     <= acc + Z.of_nat (List.length requirements))%Z.
Proof.
  induction requirements as [|r rs IH]; intro acc; simpl fold_left.
  - simpl. lia.
  - specialize (IH (if _check_requirement content r profile then (acc + 1)%Z else acc)).
    destruct (_check_requirement content r profile);
      change (List.length (r :: rs)) with (S (List.length rs)); lia.
Qed.

(** X6: whatever the text, the requirements and the profile, the
    compliance score lies between 0 and 1; it is 0 for an empty list of
    requirements. *)
Theorem educational_compliance_in_unit_interval
        (content : string) (requirements : list string)
        (profile : option LearnerProfileDict) :
  unit_interval (_assess_educational_compliance content requirements profile)
  /\ (requirements = [] ->
      _assess_educational_compliance content requirements profile = 0.0%Q).
Proof.
  split; [|intro E; subst; reflexivity].
  unfold unit_interval, _assess_educational_compliance.
  destruct requirements as [|r rs]; [split; unfold Qle; simpl; lia|].
  pose proof (met_requirements_bounded (lower content) profile (r :: rs) 0) as [Hlo Hhi].
  remember (fold_left _ (r :: rs) 0%Z) as met. clear Heqmet.
  remember (Z.of_nat (List.length (r :: rs))) as n.
  assert (Hn : (0 < n)%Z) by (subst n; simpl; lia).
  assert (Hq : (0 < inject_Z n)%Q).
  { change 0%Q with (inject_Z 0). now rewrite <- Zlt_Qlt. }
  split.
  - apply Qle_shift_div_l; [exact Hq|]. rewrite Qmult_0_l.
    change 0%Q with (inject_Z 0). now rewrite <- Zle_Qle.
  - apply Qle_shift_div_r; [exact Hq|]. rewrite Qmult_1_l.
    rewrite <- Zle_Qle. lia.
Qed.

(** The verdicts on the four standards of the table, read off the
    keyword tests. *)
Lemma compliant_verdicts (content : string) (profile : option LearnerProfileDict) :
  compliant content "age_appropriate" profile = (50 <? len content)%Z
  /\ compliant content "pedagogically_sound" profile
     = (contains "step" (lower content) || contains "first" (lower content)
        || contains "next" (lower content)
        || any_in ["goal"; "plan"; "monitor"; "reflect"; "strategy"] (lower content))%bool
  /\ compliant content "culturally_sensitive" profile = true
  /\ compliant content "academically_rigorous" profile = true.
Proof.
  unfold compliant, compliance_score, _assess_educational_compliance.
  repeat split.
  - change (requirements "age_appropriate")
      with ["suitable language level"; "appropriate content complexity";
            "no inappropriate references"].
    cbv [fold_left].
    change (_check_requirement (lower content) "suitable language level" profile)
      with true.
    change (_check_requirement (lower content) "appropriate content complexity" profile)
      with (50 <? len (lower content))%Z.
    change (_check_requirement (lower content) "no inappropriate references" profile)
      with (50 <? len (lower content))%Z.
    rewrite len_lower. destruct (50 <? len content)%Z; reflexivity.
  - change (requirements "pedagogically_sound")
      with ["builds on prior knowledge"; "scaffolded learning";
            "clear learning objectives"; "promotes self-regulation"].
    cbv [fold_left].
    change (_check_requirement (lower content) "builds on prior knowledge" profile)
      with true.
    change (_check_requirement (lower content) "scaffolded learning" profile)
      with (contains "step" (lower content) || contains "first" (lower content)
            || contains "next" (lower content))%bool.
    change (_check_requirement (lower content) "clear learning objectives" profile)
      with true.
    change (_check_requirement (lower content) "promotes self-regulation" profile)
      with (any_in ["goal"; "plan"; "monitor"; "reflect"; "strategy"] (lower content)).
    destruct (contains "step" (lower content) || contains "first" (lower content)
              || contains "next" (lower content))%bool;
      destruct (any_in ["goal"; "plan"; "monitor"; "reflect"; "strategy"] (lower content));
      reflexivity.
  - change (requirements "culturally_sensitive")
      with ["respects cultural differences"; "inclusive language";
            "avoids stereotypes"; "considers EFL context"].
    cbv [fold_left].
    change (_check_requirement (lower content) "respects cultural differences" profile)
      with (negb (contains "culture" (lower content))
            || contains "inclusive" (lower content))%bool.
    change (_check_requirement (lower content) "inclusive language" profile) with true.
    change (_check_requirement (lower content) "avoids stereotypes" profile) with true.
    change (_check_requirement (lower content) "considers EFL context" profile) with true.
    destruct (negb (contains "culture" (lower content))
              || contains "inclusive" (lower content))%bool; reflexivity.
  - change (requirements "academically_rigorous")
      with ["accurate information"; "proper citations when needed";
            "evidence-based suggestions"; "promotes critical thinking"].
    cbv [fold_left].
    change (_check_requirement (lower content) "accurate information" profile) with true.
    change (_check_requirement (lower content) "proper citations when needed" profile)
      with true.
    change (_check_requirement (lower content) "evidence-based suggestions" profile)
      with (contains "research" (lower content) || contains "study" (lower content)
            || contains "evidence" (lower content))%bool.
    change (_check_requirement (lower content) "promotes critical thinking" profile)
      with true.
    destruct (contains "research" (lower content) || contains "study" (lower content)
              || contains "evidence" (lower content))%bool; reflexivity.
Qed.

(** X7: whenever [_check_educational_standards] completes (it needs a
    method [_check_requirements_met], whatever its body), it has stored one
    entry for each of the four standards of the table, in their order;
    [culturally_sensitive] and [academically_rigorous] are stored as
    compliant for every response; and for an ASCII response
    [age_appropriate] is stored as compliant exactly when the response has
    more than 50 characters, [pedagogically_sound] exactly when the
    lower-cased response contains one of step, first, next, or one of goal,
    plan, monitor, reflect, strategy. *)
Theorem standards_verdicts
        (attributes : list string) (body : string -> list string -> list string)
        (resp : AssistantResponse) (pin : ProcessedInput)
        (results : list (string * ComplianceEntry.t)) :
  _check_educational_standards attributes body resp pin = Ok results ->
  exists e1 e2 e3 e4,
    results = [("age_appropriate", e1); ("pedagogically_sound", e2);
               ("culturally_sensitive", e3); ("academically_rigorous", e4)]
    /\ ComplianceEntry.compliant e3 = true
    /\ ComplianceEntry.compliant e4 = true
    /\ (is_ascii (get_content resp) = true ->
        ComplianceEntry.compliant e1 = (50 <? len (get_content resp))%Z
        /\ ComplianceEntry.compliant e2
           = (contains "step" (lower (get_content resp))
              || contains "first" (lower (get_content resp))
              || contains "next" (lower (get_content resp))
              || any_in ["goal"; "plan"; "monitor"; "reflect"; "strategy"]
                        (lower (get_content resp)))%bool).
Proof.
  unfold _check_educational_standards.
  change educational_standards
    with [("age_appropriate", requirements "age_appropriate");
          ("pedagogically_sound", requirements "pedagogically_sound");
          ("culturally_sensitive", requirements "culturally_sensitive");
          ("academically_rigorous", requirements "academically_rigorous")].
  cbn [check_standards_loop]. unfold call_check_requirements_met.
  destruct (existsb (String.eqb "_check_requirements_met") attributes);
    [|discriminate].
  cbv [rbind dict_set String.eqb Ascii.eqb Bool.eqb andb].
  intro E.
  apply (f_equal (fun r => match r with Ok l => l | Raise _ => [] end)) in E.
  cbv beta iota in E. subst results.
  destruct (compliant_verdicts (get_content resp) (learner_profile pin))
    as [H1 [H2 [H3 H4]]].
  do 4 eexists. split; [reflexivity|].
  cbn [ComplianceEntry.compliant].
  split; [exact H3|]. split; [exact H4|].
  intros _. split; [exact H1 | exact H2].
Qed.

(** With the method added, on a response of 70 characters. *)
Lemma standards_verdicts_run :
  exists results e1 e2 e3 e4,
    _check_educational_standards with_check_requirements_met (fun _ reqs => reqs)
      (mkResponse
         (Some "First read the paragraph aloud, then mark every verb you can find.")
         None)
      (mkInput None)
    = Ok results
    /\ results = [("age_appropriate", e1); ("pedagogically_sound", e2);
                  ("culturally_sensitive", e3); ("academically_rigorous", e4)]
    /\ ComplianceEntry.compliant e1 = true
    /\ ComplianceEntry.compliant e2 = true
    /\ ComplianceEntry.compliant e3 = true
    /\ ComplianceEntry.compliant e4 = true.
Proof.
  eexists.
  destruct (standards_verdicts with_check_requirements_met (fun _ reqs => reqs)
              (mkResponse
                 (Some "First read the paragraph aloud, then mark every verb you can find.")
                 None)
              (mkInput None) _ eq_refl)
    as [e1 [e2 [e3 [e4 [E [H3 [H4 H12]]]]]]].
  destruct (H12 eq_refl) as [H1 H2].
  exists e1, e2, e3, e4. split; [reflexivity|]. split; [exact E|].
  split; [rewrite H1; reflexivity|]. split; [rewrite H2; reflexivity|].
  split; [exact H3 | exact H4].
Defined.

End StandardsFacts.

(* ===================================================================== *)
(** * The validator: consistency, overall score, recommendations *)
(* ===================================================================== *)

Section ConsistencyRange.
Import CheckerAgent Spec Notions.
Local Open Scope string_scope.






End ConsistencyRange.

Section OverallScoreRange.
Import CheckerAgent Spec Notions.
Local Open Scope string_scope.

Lemma fold_Qplus_shift (l : list Q) :
  forall a, (fold_left Qplus l a == a + fold_left Qplus l 0)%Q.
Proof.
  induction l as [|x l IH]; intro a; simpl.
  - ring.
  - rewrite (IH (a + x)%Q), (IH (0 + x)%Q). ring.
Qed.

Lemma fsum_cons (x : Q) (l : list Q) : (fsum (x :: l) == x + fsum l)%Q.
Proof.
  unfold fsum. simpl. rewrite fold_Qplus_shift. ring.
Qed.

(** A sum of scores between 0 and 1 is between 0 and their number. *)
Lemma fsum_unit_interval (l : list Q) :
  Forall unit_interval l ->
  (0 <= fsum l)%Q /\ (fsum l <= inject_Z (Z.of_nat (List.length l)))%Q.
Proof.
  induction 1 as [|x l [Hx0 Hx1] _ [IH0 IH1]].
  - split; unfold Qle; simpl; lia.
  - rewrite fsum_cons. split.
    + replace 0%Q with (0 + 0)%Q by reflexivity. now apply Qplus_le_compat.
    + change (List.length (x :: l)) with (S (List.length l)).
      rewrite Nat2Z.inj_succ, <- Z.add_1_l, inject_Z_plus.
      now apply Qplus_le_compat.
Qed.

Lemma mean_unit_interval (l : list Q) :
  l <> [] -> Forall unit_interval l ->
  unit_interval (fsum l / inject_Z (Z.of_nat (List.length l))).
Proof.
  intros Hne Hall. destruct (fsum_unit_interval l Hall) as [H0 H1].
  assert (Hq : (0 < inject_Z (Z.of_nat (List.length l)))%Q).
  { change 0%Q with (inject_Z 0). rewrite <- Zlt_Qlt.
    destruct l; [congruence | simpl; lia]. }
  split.
  - apply Qle_shift_div_l; [exact Hq | now rewrite Qmult_0_l].
  - apply Qle_shift_div_r; [exact Hq | now rewrite Qmult_1_l].
Qed.

(** Rounding to the nearest integer does not cross an integer. *)
Lemma round_half_even_ge (k : Z) (x : Q) :
  (inject_Z k <= x)%Q -> (k <= round_half_even x)%Z.
Proof.
  intro H. apply Qfloor_resp_le in H. rewrite Qfloor_Z in H.
  unfold round_half_even.
  destruct (x - inject_Z (Qfloor x) ?= 1 # 2)%Q; [|lia|lia].
  destruct (Z.even (Qfloor x)); lia.
Qed.

Lemma round_half_even_le (k : Z) (x : Q) :
  (x <= inject_Z k)%Q -> (round_half_even x <= k)%Z.
Proof.
  intro H. pose proof (Qfloor_resp_le _ _ H) as Hf. rewrite Qfloor_Z in Hf.
  assert (Hk : (Qfloor x < k)%Z \/ (x - inject_Z (Qfloor x) ?= 1 # 2)%Q = Lt).
  { destruct (Z.eq_dec (Qfloor x) k) as [E | N]; [right | left; lia].
    rewrite E. rewrite <- Qlt_alt.
    apply Qle_lt_trans with 0%Q; [|reflexivity].
    apply (Qplus_le_l _ _ (inject_Z k)). ring_simplify. exact H. }
  unfold round_half_even. destruct Hk as [Hk | Hk].
  - destruct (x - inject_Z (Qfloor x) ?= 1 # 2)%Q; [|lia|lia].
    destruct (Z.even (Qfloor x)); lia.
  - rewrite Hk. exact Hf.
Qed.

(** [round(x, 3)] stays on the same side of a number of thousandths. *)
Lemma round3_ge (k : Z) (x : Q) :
  (inject_Z k / 1000 <= x)%Q -> (inject_Z k / 1000 <= round3 x)%Q.
Proof.
  intro H. unfold round3.
  assert (Hk : (k <= round_half_even (x * 1000))%Z).
  { apply round_half_even_ge.
    apply (Qmult_le_r _ _ 1000) in H; [|reflexivity].
    setoid_replace (inject_Z k) with (inject_Z k / 1000 * 1000)%Q by field.
    exact H. }
  unfold Qle, Qdiv. simpl. lia.
Qed.

Lemma round3_le (k : Z) (x : Q) :
  (x <= inject_Z k / 1000)%Q -> (round3 x <= inject_Z k / 1000)%Q.
Proof.
  intro H. unfold round3.
  assert (Hk : (round_half_even (x * 1000) <= k)%Z).
  { apply round_half_even_le.
    apply (Qmult_le_r _ _ 1000) in H; [|reflexivity].
    setoid_replace (inject_Z k) with (inject_Z k / 1000 * 1000)%Q by field.
    exact H. }
  unfold Qle, Qdiv. simpl. lia.
Qed.

Lemma round3_unit_interval (x : Q) : unit_interval x -> unit_interval (round3 x).
Proof.
  intros [H0 H1]. split.
  - apply Qle_trans with (inject_Z 0 / 1000)%Q; [unfold Qle; simpl; lia|].
    apply round3_ge. apply Qle_trans with 0%Q; [unfold Qle; simpl; lia | exact H0].
  - apply Qle_trans with (inject_Z 1000 / 1000)%Q; [|unfold Qle; simpl; lia].
    apply round3_le. apply Qle_trans with 1%Q; [exact H1 | unfold Qle; simpl; lia].
Qed.

Lemma fdiv_by_length {A} (x : Q) (l : list A) :
  fdiv x (inject_Z (Z.of_nat (List.length l)))
  = match l with
    | [] => Raise ZeroDivisionError
    | _ :: _ => Ok (x / inject_Z (Z.of_nat (List.length l)))%Q
    end.
Proof.
  unfold fdiv. destruct l as [|a l]; [reflexivity|].
  destruct (Qeq_bool _ 0) eqn:E; [|reflexivity].
  apply Qeq_bool_eq in E. exfalso.
  assert (H : (0 < inject_Z (Z.of_nat (List.length (a :: l))))%Q).
  { change 0%Q with (inject_Z 0). rewrite <- Zlt_Qlt. simpl. lia. }
  rewrite E in H. now apply Qlt_irrefl in H.
Qed.

Lemma scores_unit_interval {E} (score : E -> Q) (d : list (string * E)) :
  Forall (fun e => unit_interval (score (snd e))) d ->
  Forall unit_interval (map score (dict_values d)).
Proof.
  unfold dict_values. rewrite map_map. intro H.
  apply Forall_map. exact H.
Qed.

(** X9: the overall score is undefined exactly on an empty dictionary:
    [_calculate_overall_score] raises [ZeroDivisionError] when the quality
    scores or the compliance results are empty, and returns a score in
    every other case. *)
Theorem overall_score_raises_iff_empty
        (quality_scores : list (string * QualityEntry.t))
        (educational_compliance : list (string * ComplianceEntry.t))
        (bias_detection : BiasDetection.t) (consistency_check : ConsistencyCheck.t) :
  (_calculate_overall_score quality_scores educational_compliance
     bias_detection consistency_check = Raise ZeroDivisionError
   <-> quality_scores = [] \/ educational_compliance = [])
  /\ (quality_scores <> [] /\ educational_compliance <> []
      <-> exists overall,
            _calculate_overall_score quality_scores educational_compliance
              bias_detection consistency_check = Ok overall).
Proof.
  unfold _calculate_overall_score. rewrite !fdiv_by_length.
  destruct quality_scores as [|q qs]; simpl.
  - split; [tauto|]. split; [intros [H _]; congruence | intros [o H]; discriminate].
  - destruct educational_compliance as [|e es]; simpl.
    + split; [tauto|]. split; [intros [_ H]; congruence | intros [o H]; discriminate].
    + split.
      * split; [discriminate | intros [H | H]; discriminate].
      * split; [intros _; eexists; reflexivity | intros _; split; discriminate].
Qed.

(** X10: on quality scores, compliance scores and a consistency that lie
    between 0 and 1, the overall score lies between 0 and 1 as well; when
    the bias report is not bias free the score is at most 0.8. *)
Theorem overall_score_in_unit_interval
        (quality_scores : list (string * QualityEntry.t))
        (educational_compliance : list (string * ComplianceEntry.t))
        (bias_detection : BiasDetection.t) (consistency_check : ConsistencyCheck.t) :
  quality_scores <> [] -> educational_compliance <> [] ->
  Forall (fun e => unit_interval (QualityEntry.score (snd e))) quality_scores ->
  Forall (fun e => unit_interval (ComplianceEntry.score (snd e))) educational_compliance ->
  unit_interval (get_overall_consistency consistency_check) ->
  exists overall,
    _calculate_overall_score quality_scores educational_compliance
      bias_detection consistency_check = Ok overall
    /\ unit_interval overall
    /\ (BiasDetection.bias_free bias_detection = false -> (overall <= 0.8)%Q).
Proof.
  intros Hq He Hqs Hes [Hc0 Hc1].
  unfold _calculate_overall_score. rewrite !fdiv_by_length.
  destruct quality_scores as [|q qs]; [congruence|].
  destruct educational_compliance as [|e es]; [congruence|].
  cbv beta iota. unfold rbind at 1. unfold rbind at 1.
  eexists. split; [reflexivity|].
  assert (Lq : List.length (q :: qs)
               = List.length (map QualityEntry.score (dict_values (q :: qs)))).
  { unfold dict_values. now rewrite !length_map. }
  assert (Le : List.length (e :: es)
               = List.length (map ComplianceEntry.score (dict_values (e :: es)))).
  { unfold dict_values. now rewrite !length_map. }
  rewrite Lq, Le.
  destruct (mean_unit_interval (map QualityEntry.score (dict_values (q :: qs))))
    as [Q0 Q1]; [discriminate | now apply scores_unit_interval |].
  destruct (mean_unit_interval (map ComplianceEntry.score (dict_values (e :: es))))
    as [E0 E1]; [discriminate | now apply scores_unit_interval |].
  remember (fsum (map QualityEntry.score (dict_values (q :: qs))) / _)%Q as qa.
  remember (fsum (map ComplianceEntry.score (dict_values (e :: es))) / _)%Q as ea.
  remember (get_overall_consistency consistency_check) as c.
  clear Heqqa Heqea Heqc Lq Le.
  destruct (BiasDetection.bias_free bias_detection).
  - split; [|discriminate].
    apply round3_unit_interval. split; lra.
  - split.
    + apply round3_unit_interval. split; lra.
    + intros _. apply Qle_trans with (inject_Z 800 / 1000)%Q;
        [|unfold Qle; simpl; lia].
      apply round3_le. apply Qle_trans with 0.8%Q; [lra | unfold Qle; simpl; lia].
Qed.

Lemma overall_score_in_unit_interval_run :
  ([("clarity", QualityEntry.make 1 true (CriterionDetails.make [] [] 0 0))] <> []
   /\ [("age_appropriate", ComplianceEntry.make 1 true [])] <> [])
  /\ exists overall,
       _calculate_overall_score
         [("clarity", QualityEntry.make 1 true (CriterionDetails.make [] [] 0 0))]
         [("age_appropriate", ComplianceEntry.make 1 true [])]
         (BiasDetection.make ["gender_bias"] [] false)
         (ConsistencyCheck.make None None true None) = Ok overall
       /\ unit_interval overall
       /\ (false = false -> (overall <= 0.8)%Q).
Proof.
  split; [split; discriminate|].
  apply (overall_score_in_unit_interval
           [("clarity", QualityEntry.make 1 true (CriterionDetails.make [] [] 0 0))]
           [("age_appropriate", ComplianceEntry.make 1 true [])]
           (BiasDetection.make ["gender_bias"] [] false)
           (ConsistencyCheck.make None None true None)).
  - discriminate.
  - discriminate.
  - constructor; [|constructor]. split; unfold Qle; simpl; lia.
  - constructor; [|constructor]. split; unfold Qle; simpl; lia.
  - split; unfold Qle; simpl; lia.
Defined.

End OverallScoreRange.

Section Recommendations.
Import CheckerAgent Spec Notions.
Local Open Scope string_scope.

Lemma flat_map_nil_iff {A B} (f : A -> list B) (l : list A) :
  flat_map f l = [] <-> (forall x, In x l -> f x = []).
Proof.
  induction l as [|a l IH]; simpl.
  - split; [intros _ x [] | reflexivity].
  - split.
    + intro H. apply app_eq_nil in H. destruct H as [Ha Hl].
      intros x [E | Hx]; [now subst | now apply IH].
    + intro H. rewrite (H a) by now left. simpl. apply IH.
      intros x Hx. apply H. now right.
Qed.

(** X11: for the quality scores of a response, and whatever compliance
    results, bias report and consistency report, the list of
    recommendations is empty exactly when every criterion meets its
    threshold, every standard is compliant, no bias is detected and every
    checked aspect is consistent. *)
Theorem no_recommendations_iff resp pin
        (educational_compliance : list (string * ComplianceEntry.t))
        (bias_detection : BiasDetection.t) (consistency_check : ConsistencyCheck.t) :
  _generate_recommendations (_assess_quality resp pin) educational_compliance
    bias_detection consistency_check = []
  <-> (forall criterion entry,
         In (criterion, entry) (_assess_quality resp pin) ->
         QualityEntry.meets_threshold entry = true)
      /\ (forall standard entry,
            In (standard, entry) educational_compliance ->
            ComplianceEntry.compliant entry = true)
      /\ BiasDetection.detected_biases bias_detection = []
      /\ (forall aspects aspect r,
            ConsistencyCheck.aspect_results consistency_check = Some aspects ->
            In (aspect, r) aspects -> AspectResult.consistent r = true).
Proof.
  unfold _generate_recommendations.
  remember (_assess_quality resp pin) as qs. clear Heqqs.
  split.
  - intro H.
    apply app_eq_nil in H. destruct H as [Hq H].
    apply app_eq_nil in H. destruct H as [He H].
    apply app_eq_nil in H. destruct H as [Hb Hc].
    rewrite flat_map_nil_iff in Hq. rewrite flat_map_nil_iff in He.
    split; [|split; [|split]].
    + intros c e Hin. specialize (Hq _ Hin). simpl in Hq.
      destruct (QualityEntry.meets_threshold e); [reflexivity | discriminate].
    + intros s e Hin. specialize (He _ Hin). simpl in He.
      destruct (ComplianceEntry.compliant e); [reflexivity | discriminate].
    + destruct (BiasDetection.detected_biases bias_detection);
        [reflexivity | discriminate].
    + intros aspects a r Ha Hin. rewrite Ha in Hc.
      rewrite flat_map_nil_iff in Hc. specialize (Hc _ Hin). simpl in Hc.
      destruct (AspectResult.consistent r); [reflexivity | discriminate].
  - intros [Hq [He [Hb Hc]]].
    rewrite Hb. simpl.
    replace (flat_map _ qs) with (@nil recommendation).
    2:{ symmetry. apply flat_map_nil_iff. intros [c e] Hin.
        now rewrite (Hq c e Hin). }
    replace (flat_map _ educational_compliance) with (@nil recommendation).
    2:{ symmetry. apply flat_map_nil_iff. intros [s e] Hin.
        now rewrite (He s e Hin). }
    simpl.
    destruct (ConsistencyCheck.aspect_results consistency_check) as [aspects|];
      [|reflexivity].
    apply flat_map_nil_iff. intros [a r] Hin.
    now rewrite (Hc aspects a r eq_refl Hin).
Qed.

End Recommendations.

(* ===================================================================== *)
(** * The validator: the bias report *)
(* ===================================================================== *)

Section StringDict.

Lemma dict_set_fresh_key {V} (d : list (string * V)) (k : string) (v : V) :
  ~ In k (dict_keys d) ->
  dict_set String.eqb d k v = (d ++ [(k, v)])%list.
Proof.
  induction d as [|[k' v'] d IH]; intro H; simpl; [reflexivity|].
  simpl in H. destruct (String.eqb k k') eqn:E.
  - apply String.eqb_eq in E. subst. tauto.
  - rewrite IH by tauto. reflexivity.
Qed.

Lemma dict_get_key_in {V} (d : list (string * V)) (k : string) :
  In k (dict_keys d) <-> exists v, dict_get String.eqb d k = Some v.
Proof.
  induction d as [|[k' v'] d IH]; simpl.
  - split; [intros [] | intros [v H]; discriminate].
  - destruct (String.eqb k k') eqn:E.
    + apply String.eqb_eq in E. subst. split; [eauto | tauto].
    + apply String.eqb_neq in E. rewrite <- IH.
      split; [intros [H | H]; [congruence | exact H] | tauto].
Qed.

End StringDict.

Section BiasReport.
Import CheckerAgent Spec Notions.
Local Open Scope string_scope.

Lemma fold_app_flat_map {A B} (f : A -> list B) (l : list A) :
  forall acc, fold_left (fun acc x => (acc ++ f x)%list) l acc
              = (acc ++ flat_map f l)%list.
Proof.
  induction l as [|x l IH]; intro acc; simpl.
  - now rewrite app_nil_r.
  - rewrite IH. now rewrite app_assoc.
Qed.

(** The rows the loop of [_detect_bias] adds for a table of categories
    with distinct names: one per category with a match, in table order. *)
Lemma detect_bias_loop_rows (content : string) (table : list (string * list regex)) :
  NoDup (dict_keys table) ->
  forall detected details,
    (forall k, In k (dict_keys table) -> ~ In k (dict_keys details)) ->
    fold_left
      (fun '(detected_biases, bias_details) '(bias_type, patterns) =>
         let matches :=
           fold_left (fun matches pattern => (matches ++ findall_ic pattern content)%list)
                     patterns [] in
         match matches with
         | [] => (detected_biases, bias_details)
         | _ :: _ =>
             ((detected_biases ++ [bias_type])%list,
              dict_set String.eqb bias_details bias_type
                (BiasDetail.make matches (_assess_bias_severity matches bias_type)))
         end)
      table (detected, details)
    = let hit := filter (fun '(_, patterns) =>
                           match bias_matches patterns content with
                           | [] => false
                           | _ :: _ => true
                           end) table in
      ((detected ++ map fst hit)%list,
       (details
        ++ map (fun '(bias_type, patterns) =>
                  (bias_type,
                   BiasDetail.make (bias_matches patterns content)
                     (_assess_bias_severity (bias_matches patterns content) bias_type)))
               hit)%list).
Proof.
  cbv zeta.
  induction table as [|[k ps] table IH]; intros Hnd detected details Hfresh.
  - simpl. now rewrite !app_nil_r.
  - inversion Hnd as [|? ? Hk Hnd']; subst.
    simpl fold_left. rewrite !fold_app_flat_map. simpl app.
    fold (bias_matches ps content). simpl filter.
    destruct (bias_matches ps content) as [|m ms] eqn:Em.
    + apply IH; [exact Hnd'|]. intros k' Hk'. apply Hfresh. now right.
    + assert (Hk0 : ~ In k (dict_keys details)).
      { apply Hfresh. left. reflexivity. }
      rewrite (dict_set_fresh_key details k _ Hk0).
      rewrite IH; [|exact Hnd'|].
      * simpl map. rewrite <- !app_assoc. simpl app. rewrite ?Em. reflexivity.
      * intros k' Hk'. unfold dict_keys. rewrite map_app, in_app_iff.
        intros [H | [H | []]].
        -- apply (Hfresh k'); [now right | exact H].
        -- simpl in H. subst k'. contradiction.
Qed.

Lemma bias_patterns_nodup : NoDup (dict_keys bias_patterns).
Proof.
  unfold dict_keys. simpl.
  repeat (constructor; [simpl; intuition discriminate|]). constructor.
Qed.

Lemma detect_bias_loop_closed (content : string) :
  detect_bias_loop content
  = let hit := filter (fun '(_, patterns) =>
                         match bias_matches patterns content with
                         | [] => false
                         | _ :: _ => true
                         end) bias_patterns in
    (map fst hit,
     map (fun '(bias_type, patterns) =>
            (bias_type,
             BiasDetail.make (bias_matches patterns content)
               (_assess_bias_severity (bias_matches patterns content) bias_type)))
         hit).
Proof.
  unfold detect_bias_loop.
  apply (detect_bias_loop_rows content bias_patterns bias_patterns_nodup [] []).
  intros k _ [].
Qed.

Lemma nodup_map_fst_filter {A B} (keep : A * B -> bool) (l : list (A * B)) :
  NoDup (map fst l) -> NoDup (map fst (filter keep l)).
Proof.
  induction l as [|x l IH]; intro H; simpl; [constructor|].
  inversion H as [|? ? Hx Hl]; subst.
  destruct (keep x); [|now apply IH].
  simpl. constructor; [|now apply IH].
  intro Hin. apply Hx. apply in_map_iff in Hin.
  destruct Hin as [y [Ey Hy]]. apply filter_In in Hy.
  apply in_map_iff. exists y. tauto.
Qed.

(** X12: on an ASCII response, the bias report lists exactly the
    categories of the table that have at least one match in the response,
    each once; the details carry one entry for each listed category, in
    the same order, with as many recorded matches as the category's
    patterns have in the response and the severity [low] for one match,
    [medium] for two and [high] for three or more; and the report is bias
    free exactly when nothing is listed. *)
Theorem detect_bias_report resp :
  is_ascii (get_content resp) = true ->
  let report := _detect_bias resp in
  let content := get_content resp in
  (forall bias_type,
     In bias_type (BiasDetection.detected_biases report)
     <-> exists patterns,
           In (bias_type, patterns) bias_patterns
           /\ bias_matches patterns content <> [])
  /\ NoDup (BiasDetection.detected_biases report)
  /\ dict_keys (BiasDetection.bias_details report)
     = BiasDetection.detected_biases report
  /\ (forall bias_type detail,
        In (bias_type, detail) (BiasDetection.bias_details report) ->
        exists patterns,
          In (bias_type, patterns) bias_patterns
          /\ List.length (BiasDetail.matches detail)
             = List.length (bias_matches patterns content)
          /\ BiasDetail.matches detail <> []
          /\ BiasDetail.severity detail
             = match List.length (BiasDetail.matches detail) with
               | 0%nat | 1%nat => "low"
               | 2%nat => "medium"
               | _ => "high"
               end)
  /\ (BiasDetection.bias_free report = true
      <-> BiasDetection.detected_biases report = []).
Proof.
  intros _. cbv zeta. unfold _detect_bias.
  simpl BiasDetection.detected_biases. simpl BiasDetection.bias_details.
  simpl BiasDetection.bias_free.
  rewrite detect_bias_loop_closed. cbv zeta. cbn [fst snd].
  remember (get_content resp) as content. clear Heqcontent.
  split; [|split; [|split; [|split]]].
  - intro b. rewrite in_map_iff. split.
    + intros [[k ps] [E H]]. simpl in E. subst k.
      apply filter_In in H. destruct H as [Hin Hm].
      exists ps. split; [exact Hin|].
      destruct (bias_matches ps content); [discriminate | discriminate].
    + intros [ps [Hin Hm]]. exists (b, ps). split; [reflexivity|].
      apply filter_In. split; [exact Hin|].
      destruct (bias_matches ps content); [congruence | reflexivity].
  - apply nodup_map_fst_filter. exact bias_patterns_nodup.
  - unfold dict_keys. rewrite map_map. apply map_ext. now intros [k ps].
  - intros b d H. apply in_map_iff in H. destruct H as [[k ps] [E H]].
    injection E as Ek Ed. subst k d. apply filter_In in H.
    destruct H as [Hin Hm]. exists ps. simpl.
    split; [exact Hin|]. split; [reflexivity|]. split.
    + destruct (bias_matches ps content); [discriminate Hm | discriminate].
    + unfold _assess_bias_severity.
      destruct (List.length (bias_matches ps content)) as [|[|[|n]]]; reflexivity.
  - rewrite Nat.eqb_eq. apply length_zero_iff_nil.
Qed.

(** A response with two matches of the gender patterns. *)
Lemma detect_bias_report_run :
  is_ascii (get_content (mkResponse (Some "He is strong. She is caring.") None))
  = true
  /\ BiasDetection.detected_biases
       (_detect_bias (mkResponse (Some "He is strong. She is caring.") None))
     = ["gender_bias"]
  /\ forall bias_type detail,
       In (bias_type, detail)
          (BiasDetection.bias_details
             (_detect_bias (mkResponse (Some "He is strong. She is caring.") None))) ->
       BiasDetail.severity detail
       = match List.length (BiasDetail.matches detail) with
         | 0%nat | 1%nat => "low"
         | 2%nat => "medium"
         | _ => "high"
         end.
Proof.
  split; [reflexivity|]. split; [reflexivity|].
  destruct (detect_bias_report
              (mkResponse (Some "He is strong. She is caring.") None) eq_refl)
    as [_ [_ [_ [Hd _]]]].
  intros bias_type detail Hin.
  destruct (Hd bias_type detail Hin) as [patterns [_ [_ [_ Hs]]]].
  exact Hs.
Defined.

End BiasReport.

Section BiasLetterCase.
Import CheckerAgent Spec Notions.
Local Open Scope string_scope.

Lemma isword_lower_char (a : ascii) : isword (lower_char a) = isword a.
Proof. destruct a as [[] [] [] [] [] [] [] []]; reflexivity. Qed.

Lemma newline_lower_char (a : ascii) :
  Nat.eqb (code (lower_char a)) 10 = Nat.eqb (code a) 10.
Proof. destruct a as [[] [] [] [] [] [] [] []]; reflexivity. Qed.

Lemma class_match_lower_char (c : cclass) (a : ascii) :
  class_match true c (lower_char a) = class_match true c a.
Proof.
  destruct c as [l | |]; simpl.
  - now rewrite lower_char_idempotent.
  - now rewrite newline_lower_char.
  - apply isspace_lower_char.
Qed.

Lemma isword_opt_lower (p : option ascii) :
  isword_opt (option_map lower_char p) = isword_opt p.
Proof. destruct p; [apply isword_lower_char | reflexivity]. Qed.

Lemma head_lower (s : string) : head (lower s) = option_map lower_char (head s).
Proof. destruct s; reflexivity. Qed.

(** With [re.IGNORECASE] the matcher takes the same steps on a text and
    on its lower-cased form. *)
Lemma star_match_lower (c : cclass) (k k' : cont) :
  (forall p t, k' (option_map lower_char p) (lower t) = option_map lower (k p t)) ->
  forall s prev,
    star_match true c (option_map lower_char prev) (lower s) k'
    = option_map lower (star_match true c prev s k).
Proof.
  intro Hk. induction s as [|a s IH]; intro prev.
  - simpl. apply (Hk prev EmptyString).
  - simpl. rewrite class_match_lower_char.
    destruct (class_match true c a); [|apply (Hk prev (String a s))].
    specialize (IH (Some a)). simpl in IH. rewrite IH.
    destruct (star_match true c (Some a) s k); [reflexivity|].
    apply (Hk prev (String a s)).
Qed.

Lemma rmatch_lower (r : regex) :
  forall (k k' : cont),
    (forall p t, k' (option_map lower_char p) (lower t) = option_map lower (k p t)) ->
    forall s prev,
      rmatch true r (option_map lower_char prev) (lower s) k'
      = option_map lower (rmatch true r prev s k).
Proof.
  induction r as [c | | | r1 IH1 r2 IH2 | r1 IH1 r2 IH2 | c];
    intros k k' Hk s prev; simpl.
  - destruct s as [|a s]; [reflexivity|]. simpl.
    rewrite class_match_lower_char.
    destruct (class_match true c a); [|reflexivity].
    apply (Hk (Some a) s).
  - rewrite isword_opt_lower, head_lower, isword_opt_lower.
    destruct (xorb _ _); [apply Hk | reflexivity].
  - apply Hk.
  - apply IH1. intros p t. now apply IH2.
  - rewrite (IH1 k k' Hk). destruct (rmatch true r1 prev s k); [reflexivity|].
    now apply IH2.
  - now apply star_match_lower.
Qed.

Lemma match_here_lower (r : regex) (s : string) (prev : option ascii) :
  match_here true r (option_map lower_char prev) (lower s)
  = option_map lower (match_here true r prev s).
Proof.
  unfold match_here. apply rmatch_lower. reflexivity.
Qed.

Lemma substring_lower (s : string) :
  forall n m, String.substring n m (lower s) = lower (String.substring n m s).
Proof.
  induction s as [|a s IH]; intros n m.
  - destruct n, m; reflexivity.
  - destruct n as [|n]; simpl.
    + destruct m as [|m]; [reflexivity|]. simpl. now rewrite IH.
    + apply IH.
Qed.

Lemma scan_at_match (ic : bool) (r : regex) (prev : option ascii)
      (a : ascii) (s : string) :
  scan ic r prev 0 (String a s)
  = match match_here ic r prev (String a s) with
    | Some rest =>
        String.substring 0 (String.length (String a s) - String.length rest)
                         (String a s)
        :: scan ic r (Some a)
                (Nat.pred (String.length (String a s) - String.length rest)) s
    | None => scan ic r (Some a) 0 s
    end.
Proof. reflexivity. Qed.

Lemma scan_lower (r : regex) (s : string) :
  forall prev skip,
    scan true r (option_map lower_char prev) skip (lower s)
    = map lower (scan true r prev skip s).
Proof.
  induction s as [|a s IH]; intros prev skip.
  - destruct skip; [|reflexivity].
    simpl. pose proof (match_here_lower r EmptyString prev) as H.
    simpl in H. rewrite H.
    destruct (match_here true r prev EmptyString); reflexivity.
  - destruct skip as [|n]; [|apply (IH (Some a))].
    change (lower (String a s)) with (String (lower_char a) (lower s)).
    rewrite !scan_at_match.
    change (String (lower_char a) (lower s)) with (lower (String a s)).
    rewrite match_here_lower.
    destruct (match_here true r prev (String a s)) as [rest|];
      [|apply (IH (Some a))].
    cbn [option_map map]. rewrite !length_lower, substring_lower.
    f_equal. apply (IH (Some a)).
Qed.

Lemma findall_ic_lower (r : regex) (s : string) :
  findall_ic r (lower s) = map lower (findall_ic r s).
Proof. apply (scan_lower r s None 0%nat). Qed.

Lemma bias_matches_lower (patterns : list regex) (s : string) :
  bias_matches patterns (lower s) = map lower (bias_matches patterns s).
Proof.
  unfold bias_matches. induction patterns as [|p ps IH]; [reflexivity|].
  simpl. now rewrite map_app, findall_ic_lower, IH.
Qed.

(** Texts that are equal up to letter case have as many matches. *)
Lemma bias_matches_length (patterns : list regex) (s t : string) :
  lower s = lower t ->
  List.length (bias_matches patterns s) = List.length (bias_matches patterns t).
Proof.
  intro H.
  rewrite <- (length_map lower (bias_matches patterns s)).
  rewrite <- (length_map lower (bias_matches patterns t)).
  now rewrite <- !bias_matches_lower, H.
Qed.

(** X13: on ASCII text bias detection ignores letter case: two ASCII
    responses whose texts are equal after lower-casing get the same
    detected categories, the same verdict [bias_free], and the same number
    of recorded matches for each category. *)
Theorem detect_bias_ignores_case (r1 r2 : AssistantResponse) :
  is_ascii (get_content r1) = true ->
  is_ascii (get_content r2) = true ->
  lower (get_content r1) = lower (get_content r2) ->
  BiasDetection.detected_biases (_detect_bias r1)
  = BiasDetection.detected_biases (_detect_bias r2)
  /\ BiasDetection.bias_free (_detect_bias r1)
     = BiasDetection.bias_free (_detect_bias r2)
  /\ map (fun '(bias_type, detail) =>
            (bias_type, List.length (BiasDetail.matches detail)))
         (BiasDetection.bias_details (_detect_bias r1))
     = map (fun '(bias_type, detail) =>
              (bias_type, List.length (BiasDetail.matches detail)))
           (BiasDetection.bias_details (_detect_bias r2)).
Proof.
  intros _ _ H. unfold _detect_bias.
  simpl BiasDetection.detected_biases. simpl BiasDetection.bias_details.
  simpl BiasDetection.bias_free.
  rewrite !detect_bias_loop_closed. cbv zeta. cbn [fst snd].
  remember (get_content r1) as s. remember (get_content r2) as t.
  clear Heqs Heqt.
  assert (Hf : filter (fun '(_, patterns) =>
                         match bias_matches patterns s with
                         | [] => false
                         | _ :: _ => true
                         end) bias_patterns
               = filter (fun '(_, patterns) =>
                           match bias_matches patterns t with
                           | [] => false
                           | _ :: _ => true
                           end) bias_patterns).
  { apply filter_ext. intros [k ps].
    pose proof (bias_matches_length ps s t H) as L.
    destruct (bias_matches ps s), (bias_matches ps t);
      first [reflexivity | discriminate L]. }
  rewrite Hf. split; [reflexivity|]. split; [reflexivity|].
  rewrite !map_map. apply map_ext. intros [k ps]. simpl.
  now rewrite (bias_matches_length ps s t H).
Qed.

Lemma detect_bias_ignores_case_run :
  is_ascii (get_content (mkResponse (Some "He is a LEADER") None)) = true
  /\ is_ascii (get_content (mkResponse (Some "he is a leader") None)) = true
  /\ lower (get_content (mkResponse (Some "He is a LEADER") None))
     = lower (get_content (mkResponse (Some "he is a leader") None))
  /\ BiasDetection.detected_biases
       (_detect_bias (mkResponse (Some "He is a LEADER") None))
     = BiasDetection.detected_biases
         (_detect_bias (mkResponse (Some "he is a leader") None))
  /\ BiasDetection.bias_free (_detect_bias (mkResponse (Some "He is a LEADER") None))
     = BiasDetection.bias_free (_detect_bias (mkResponse (Some "he is a leader") None))
  /\ map (fun '(bias_type, detail) =>
            (bias_type, List.length (BiasDetail.matches detail)))
         (BiasDetection.bias_details
            (_detect_bias (mkResponse (Some "He is a LEADER") None)))
     = map (fun '(bias_type, detail) =>
              (bias_type, List.length (BiasDetail.matches detail)))
           (BiasDetection.bias_details
              (_detect_bias (mkResponse (Some "he is a leader") None))).
Proof.
  split; [reflexivity|]. split; [reflexivity|]. split; [reflexivity|].
  apply (detect_bias_ignores_case (mkResponse (Some "He is a LEADER") None)
           (mkResponse (Some "he is a leader") None)); reflexivity.
Defined.

End BiasLetterCase.

(* ===================================================================== *)
(** * [ORDER BY] and [LIMIT] *)
(* ===================================================================== *)

Section Ordering.
Context {A : Type}.
Variable before : A -> A -> bool.

(** The comparisons the queries use are strict orders on the sort key:
    never both ways round, and transitive. *)
Hypothesis before_asym : forall a b, before a b = true -> before b a = false.
Hypothesis before_trans :
  forall a b c, before a b = true -> before b c = true -> before a c = true.

Lemma insert_by_sorted (x : A) (l : list A) :
  ForallOrdPairs (fun a b => before b a = false) l ->
  ForallOrdPairs (fun a b => before b a = false) (insert_by before x l).
Proof.
  induction 1 as [|y l Hy Hl IH]; simpl.
  - constructor; constructor.
  - destruct (before x y) eqn:E.
    + constructor; [|now constructor].
      constructor; [now apply before_asym|].
      rewrite Forall_forall in *. intros z Hz.
      destruct (before z x) eqn:Ez; [|reflexivity].
      rewrite <- (Hy z Hz). symmetry. now apply before_trans with x.
    + constructor; [|exact IH].
      rewrite Forall_forall in *. intros z Hz.
      apply insert_by_in in Hz. destruct Hz as [-> | Hz]; [exact E | now apply Hy].
Qed.

Lemma order_by_sorted (l : list A) :
  ForallOrdPairs (fun a b => before b a = false) (order_by before l).
Proof.
  unfold order_by.
  assert (G : forall acc,
             ForallOrdPairs (fun a b => before b a = false) acc ->
             ForallOrdPairs (fun a b => before b a = false)
               (fold_left (fun acc x => insert_by before x acc) l acc)).
  { induction l as [|x l IH]; intros acc Hacc; simpl; [exact Hacc|].
    apply IH. now apply insert_by_sorted. }
  apply G. constructor.
Qed.

End Ordering.

Section Limit.
Context {A : Type}.

Lemma firstn_sorted (R : A -> A -> Prop) (n : nat) :
  forall l, ForallOrdPairs R l -> ForallOrdPairs R (firstn n l).
Proof.
  induction n as [|n IH]; intros l H; [constructor|].
  destruct H as [|a l Ha Hl]; simpl; [constructor|].
  constructor; [|now apply IH].
  rewrite Forall_forall in *. intros x Hx. apply Ha. now apply firstn_in in Hx.
Qed.

(** What [LIMIT] cuts off comes after everything it keeps. *)
Lemma firstn_keeps_the_first (R : A -> A -> Prop) (n : nat) :
  forall l, ForallOrdPairs R l ->
            forall a b, In a (firstn n l) -> In b (skipn n l) -> R a b.
Proof.
  induction n as [|n IH]; intros l H a b Ha Hb; [destruct Ha|].
  destruct H as [|x l Hx Hl]; [destruct Ha|].
  simpl in Ha, Hb. destruct Ha as [-> | Ha].
  - rewrite Forall_forall in Hx. apply Hx.
    rewrite <- (firstn_skipn n l). apply in_or_app. now right.
  - now apply (IH l Hl).
Qed.

Lemma in_firstn_or_skipn (n : nat) (l : list A) (x : A) :
  In x l -> In x (firstn n l) \/ In x (skipn n l).
Proof.
  intro H. rewrite <- (firstn_skipn n l) in H. now apply in_app_or in H.
Qed.

Lemma skipn_nonempty_length (n : nat) (l : list A) (x : A) :
  In x (skipn n l) -> List.length (firstn n l) = n.
Proof.
  intro H. apply firstn_length_le.
  destruct (Nat.le_gt_cases n (List.length l)) as [Hle | Hgt]; [exact Hle|].
  rewrite skipn_all2 in H by lia. destruct H.
Qed.

End Limit.

(* ===================================================================== *)
(** * The memory store *)
(* ===================================================================== *)

Section MemoryStore.
Import UserAgent Spec Notions.
Local Open Scope string_scope.









End MemoryStore.

Section RetrieveFrame.
Import UserAgent Spec Notions.
Local Open Scope string_scope.





End RetrieveFrame.

(* ===================================================================== *)
(** * Feedback and validation results on stored interactions *)
(* ===================================================================== *)

Section StoredInteractions.
Import UserAgent CheckerAgent SageApi Spec Notions.
Local Open Scope string_scope.

Lemma find_by_id (iid : Z) (rows : list Interaction.t) (i : Interaction.t) :
  find (fun j => (Interaction.id j =? iid)%Z) rows = Some i ->
  Interaction.id i = iid /\ In i rows.
Proof.
  intro H. apply find_some in H. destruct H as [Hin Hid].
  apply Z.eqb_eq in Hid. tauto.
Qed.

(** Writing a changed row back and reading it by its key. *)
Lemma find_after_put (iid : Z) (rows : list Interaction.t) (i i' : Interaction.t) :
  find (fun j => (Interaction.id j =? iid)%Z) rows = Some i ->
  Interaction.id i' = iid ->
  find (fun j => (Interaction.id j =? iid)%Z)
       (map (fun j => if (Interaction.id j =? Interaction.id i')%Z then i' else j) rows)
  = Some i'.
Proof.
  intros H Hid. rewrite Hid. induction rows as [|j rows IH]; [discriminate|].
  simpl in *. destruct (Interaction.id j =? iid)%Z eqn:Ej.
  - simpl. now rewrite Hid, Z.eqb_refl.
  - simpl. rewrite Ej. now apply IH.
Qed.

Lemma put_keeps_others (rows : list Interaction.t) (i' j : Interaction.t) :
  In j rows -> Interaction.id j <> Interaction.id i' ->
  In j (map (fun j => if (Interaction.id j =? Interaction.id i')%Z then i' else j) rows).
Proof.
  intros Hin Hne. apply in_map_iff. exists j. split; [|exact Hin].
  destruct (Interaction.id j =? Interaction.id i')%Z eqn:E; [|reflexivity].
  apply Z.eqb_eq in E. contradiction.
Qed.




End StoredInteractions.

Section FeedbackRoute.
Import UserAgent CheckerAgent SageApi Spec Notions.
Local Open Scope string_scope.



(** X19: storing validation results and reading them back: on a stored
    interaction [_store_validation_results] returns normally, sets
    [checker_validation] to the results and changes nothing else of that
    interaction; on an id that resolves to no interaction it changes
    nothing at all, returning normally when the id is within the 64-bit
    range and raising [OverflowError] when it is not.  No other
    interaction, no memory and not the clock is touched. *)
Theorem store_validation_results_round_trip
        (st : Store) (iid : Z) (results : ValidationResults.t) :
  exists st' outcome,
    _store_validation_results iid results st = (st', outcome)
    /\ memories st' = memories st
    /\ clock st' = clock st /\ ticks st' = ticks st
    /\ (forall j, In j (interactions st) -> Interaction.id j <> iid ->
                  In j (interactions st'))
    /\ match find (fun j => (Interaction.id j =? iid)%Z) (interactions st) with
       | Some i =>
           outcome = Ok tt
           /\ exists i',
               find (fun j => (Interaction.id j =? iid)%Z) (interactions st')
               = Some i'
               /\ Interaction.checker_validation i' = Some results
               /\ i' = Interaction.set_checker_validation i results
               /\ Interaction.user_rating i' = Interaction.user_rating i
               /\ Interaction.assistant_response i'
                  = Interaction.assistant_response i
       | None =>
           st' = st
           /\ outcome = if int64 iid then Ok tt else Raise OverflowError
       end.
Proof.
  unfold _store_validation_results, bind, get_interaction.
  destruct (find (fun j => (Interaction.id j =? iid)%Z) (interactions st))
    as [i|] eqn:Hfind.
  - destruct (find_by_id _ _ _ Hfind) as [Hid Hin].
    eexists. eexists. split; [reflexivity|]. cbn [memories clock ticks interactions].
    repeat (split; [reflexivity|]). split.
    + intros j Hj Hne. apply put_keeps_others; [exact Hj|]. simpl. congruence.
    + split; [reflexivity|].
      eexists. split; [now apply (find_after_put iid _ i)|].
      repeat split; reflexivity.
  - exists st. destruct (int64 iid); eexists; (split; [reflexivity|]);
      repeat (split; [reflexivity|]); (split; [tauto | split; reflexivity]).
Qed.

End FeedbackRoute.

(* ===================================================================== *)
(** * Conversation state and personalization *)
(* ===================================================================== *)

Section ConversationState.
Import UserAgent Conversation Spec Notions.
Local Open Scope string_scope.



(** A comprehension with a condition yields at most one item per element. *)
Lemma flat_map_at_most_one {A B} (f : A -> list B) (l : list A) :
  (forall x, (List.length (f x) <= 1)%nat) ->
  (List.length (flat_map f l) <= List.length l)%nat.
Proof.
  intro H. induction l as [|x l IH]; simpl; [lia|].
  rewrite length_app. specialize (H x). lia.
Qed.









End ConversationState.

Section TopIntents.
Import UserAgent Conversation Spec Notions.
Local Open Scope string_scope.

Lemma dict_get_after_set {V} (d : list (string * V)) (k k' : string) (v : V) :
  dict_get String.eqb (dict_set String.eqb d k v) k'
  = if String.eqb k' k then Some v else dict_get String.eqb d k'.
Proof.
  induction d as [|[k0 v0] d IH]; simpl; [reflexivity|].
  destruct (String.eqb k k0) eqn:E; simpl.
  - apply String.eqb_eq in E. subst k0.
    destruct (String.eqb k' k); reflexivity.
  - rewrite IH. destruct (String.eqb k' k0) eqn:E0; [|reflexivity].
    apply String.eqb_eq in E0. subst k0.
    now rewrite String.eqb_sym, E.
Qed.

Lemma dict_keys_after_set {V} (d : list (string * V)) (k : string) (v : V) :
  (In k (dict_keys d) -> dict_keys (dict_set String.eqb d k v) = dict_keys d)
  /\ (~ In k (dict_keys d) ->
      dict_keys (dict_set String.eqb d k v) = (dict_keys d ++ [k])%list).
Proof.
  induction d as [|[k0 v0] d [IH1 IH2]]; simpl.
  - split; [intros [] | reflexivity].
  - destruct (String.eqb k k0) eqn:E; simpl.
    + apply String.eqb_eq in E. subst k0. split; [reflexivity | tauto].
    + apply String.eqb_neq in E. split.
      * intros [H | H]; [congruence | now rewrite IH1].
      * intro H. rewrite IH2 by tauto. reflexivity.
Qed.

(** The dictionary of the counting loop: one key per distinct intent, in
    the order of first occurrence, each with its number of occurrences. *)
Lemma count_intents_from (l : list string) :
  forall acc,
    NoDup (dict_keys acc) ->
    let d := fold_left
               (fun intent_counts intent =>
                  dict_set String.eqb intent_counts intent
                           (count_of intent_counts intent + 1)%Z) l acc in
    NoDup (dict_keys d)
    /\ (forall k, In k (dict_keys d) <-> In k (dict_keys acc) \/ In k l)
    /\ (forall k, count_of d k
                  = (count_of acc k + Z.of_nat (count_occ string_dec l k))%Z).
Proof.
  induction l as [|x l IH]; intros acc Hnd; cbv zeta.
  - simpl. split; [exact Hnd|]. split; [tauto | intro; lia].
  - simpl fold_left.
    set (acc' := dict_set String.eqb acc x (count_of acc x + 1)%Z).
    assert (Hnd' : NoDup (dict_keys acc')).
    { destruct (dict_keys_after_set acc x (count_of acc x + 1)%Z) as [K1 K2].
      destruct (in_dec string_dec x (dict_keys acc)) as [Hin | Hnot].
      - unfold acc'. now rewrite K1.
      - unfold acc'. rewrite K2 by exact Hnot.
        apply NoDup_app; [exact Hnd | constructor; [intros [] | constructor] |].
        intros y Hy [<- | []]. contradiction. }
    assert (Hkeys : forall k, In k (dict_keys acc') <-> In k (dict_keys acc) \/ k = x).
    { intro k. destruct (dict_keys_after_set acc x (count_of acc x + 1)%Z) as [K1 K2].
      destruct (in_dec string_dec x (dict_keys acc)) as [Hin | Hnot].
      - unfold acc'. rewrite K1 by exact Hin. split; [tauto|].
        intros [H | ->]; assumption.
      - unfold acc'. rewrite K2 by exact Hnot. rewrite in_app_iff. simpl.
        split; [intros [H | [H | []]]; [tauto | right; congruence]
               | intros [H | ->]; [tauto | right; now left]]. }
    assert (Hcount : forall k, count_of acc' k
                               = if String.eqb k x then (count_of acc x + 1)%Z
                                 else count_of acc k).
    { intro k. unfold count_of at 1. unfold acc'. rewrite dict_get_after_set.
      destruct (String.eqb k x); reflexivity. }
    destruct (IH acc' Hnd') as [N [K C]]. cbv zeta in N, K, C.
    split; [exact N|]. split.
    + intro k. rewrite K, Hkeys. simpl. intuition congruence.
    + intro k. rewrite C, Hcount. simpl count_occ.
      destruct (string_dec x k) as [-> | Hne].
      * rewrite String.eqb_refl. lia.
      * destruct (String.eqb k x) eqn:E; [|lia].
        apply String.eqb_eq in E. congruence.
Qed.

Lemma count_intents_counts (intents : list string) :
  NoDup (dict_keys (count_intents intents))
  /\ (forall k, In k (dict_keys (count_intents intents)) <-> In k intents)
  /\ (forall k, count_of (count_intents intents) k
                = Z.of_nat (count_occ string_dec intents k)).
Proof.
  destruct (count_intents_from intents [] (NoDup_nil _)) as [N [K C]].
  cbv zeta in N, K, C. fold (count_intents intents) in N, K, C.
  split; [exact N|]. split.
  - intro k. rewrite K. simpl. tauto.
  - intro k. rewrite C. reflexivity.
Qed.

(** The intents returned are intents of the input, each once. *)
Lemma top_intents_in (intents : list string) (top_n : nat) (k : string) :
  In k (_get_top_intents intents top_n) ->
  In k intents /\ NoDup (_get_top_intents intents top_n).
Proof.
  unfold _get_top_intents.
  destruct (count_intents_counts intents) as [N [K _]].
  set (before := fun a b : string =>
                   (count_of (count_intents intents) b
                    <? count_of (count_intents intents) a)%Z).
  pose proof (order_by_permutation before (dict_keys (count_intents intents))) as Hp.
  intro Hk. split.
  - apply K. apply firstn_in in Hk. apply (Permutation_in k Hp Hk).
  - rewrite <- (map_id (firstn top_n _)).
    apply firstn_keeps_distinct_keys. rewrite map_id.
    apply (Permutation_NoDup (Permutation_sym Hp) N).
Qed.

(** X21: [_get_top_intents] returns at most [top_n] intents, each one
    an intent of the input and none twice, ordered by their number of
    occurrences in the input, most frequent first; an intent of the input
    that is left out occurs at most as often as each intent returned, and
    is left out only when [top_n] intents are returned. *)
Theorem top_intents_most_frequent (intents : list string) (top_n : nat) :
  let top := _get_top_intents intents top_n in
  let occurrences k := count_occ string_dec intents k in
  (List.length top <= top_n)%nat
  /\ NoDup top
  /\ (forall k, In k top -> In k intents)
  /\ ForallOrdPairs (fun a b => (occurrences b <= occurrences a)%nat) top
  /\ (forall k, In k intents -> ~ In k top ->
        List.length top = top_n
        /\ forall t, In t top -> (occurrences k <= occurrences t)%nat).
Proof.
  cbv zeta. unfold _get_top_intents.
  destruct (count_intents_counts intents) as [N [K C]].
  set (d := count_intents intents) in *.
  set (before := fun a b : string => (count_of d b <? count_of d a)%Z).
  assert (Hasym : forall a b, before a b = true -> before b a = false).
  { intros a b. unfold before. rewrite Z.ltb_lt, Z.ltb_ge. lia. }
  assert (Htrans : forall a b c, before a b = true -> before b c = true ->
                                 before a c = true).
  { intros a b c. unfold before. rewrite !Z.ltb_lt. lia. }
  assert (Hle : forall a b, before b a = false ->
                  (count_occ string_dec intents b <= count_occ string_dec intents a)%nat).
  { intros a b. unfold before. rewrite Z.ltb_ge, !C. lia. }
  pose proof (order_by_sorted before Hasym Htrans (dict_keys d)) as Hs.
  pose proof (order_by_permutation before (dict_keys d)) as Hp.
  split; [apply firstn_le_length|]. split; [|split; [|split]].
  - rewrite <- (map_id (firstn top_n _)).
    apply firstn_keeps_distinct_keys. rewrite map_id.
    apply (Permutation_NoDup (Permutation_sym Hp) N).
  - intros k Hk. apply K. apply firstn_in in Hk.
    apply (Permutation_in k Hp Hk).
  - apply firstn_sorted.
    clear -Hs Hle. induction Hs as [|a l Ha Hl IH]; constructor; [|exact IH].
    rewrite Forall_forall in *. intros b Hb. now apply Hle, Ha.
  - intros k Hin Hnot.
    assert (Ho : In k (order_by before (dict_keys d))).
    { apply (Permutation_in k (Permutation_sym Hp)). now apply K. }
    destruct (in_firstn_or_skipn top_n _ k Ho) as [H | H]; [contradiction|].
    split; [now apply (skipn_nonempty_length top_n _ k)|].
    intros t Ht. apply Hle.
    exact (firstn_keeps_the_first _ top_n _ Hs t k Ht H).
Qed.

End TopIntents.

Section PersonalizationData.
Import UserAgent Conversation Spec Notions.
Local Open Scope string_scope.

(** The loop that reads the clock once per interaction. *)
Lemma for_each_clock_reading {A B} (f : Z -> A -> B) (l : list A) :
  forall st,
    exists flags,
      for_each (fun x => let* now := utcnow in ret (f now x)) l st
      = (mkStore (interactions st) (memories st) (clock st)
                 (ticks st + List.length l), Ok flags)
      /\ List.length flags = List.length l.
Proof.
  induction l as [|x l IH]; intro st.
  - exists []. simpl. unfold ret. rewrite Nat.add_0_r.
    split; [now destruct st | reflexivity].
  - destruct (IH (mkStore (interactions st) (memories st) (clock st) (S (ticks st))))
      as [flags [E Hlen]].
    exists (f (clock st (ticks st)) x :: flags).
    simpl. unfold bind at 1. unfold bind at 1. unfold utcnow at 1.
    unfold ret at 1. unfold bind at 1. rewrite E. unfold ret.
    cbn [interactions memories clock ticks].
    split; [|simpl; now rewrite Hlen].
    f_equal. f_equal. lia.
Qed.

Lemma isum_shift (l : list Z) :
  forall a, fold_left Z.add l a = (a + fold_left Z.add l 0)%Z.
Proof.
  induction l as [|x l IH]; intro a; simpl; [lia|].
  rewrite (IH (a + x)%Z), (IH x). lia.
Qed.

Lemma isum_nonneg (l : list Z) : Forall (fun x => 0 <= x)%Z l -> (0 <= isum l)%Z.
Proof.
  unfold isum. induction 1 as [|x l Hx _ IH]; simpl; [lia|].
  rewrite isum_shift. lia.
Qed.

Lemma distinct_bounds (l : list string) :
  (distinct l <= Z.of_nat (List.length l))%Z
  /\ (l <> [] -> 1 <= distinct l)%Z.
Proof.
  unfold distinct. split.
  - apply Nat2Z.inj_le.
    induction l as [|x l IH]; simpl; [lia|].
    destruct (in_dec string_dec x l); simpl; lia.
  - intro Hne. destruct l as [|x l]; [congruence|].
    assert (Hin : In x (nodup string_dec (x :: l))) by (apply nodup_In; now left).
    destruct (nodup string_dec (x :: l)); [destruct Hin | simpl; lia].
Qed.

(** X22: [get_personalization_data] writes no table.  For a learner id
    beyond the 64-bit range it raises [OverflowError] and touches nothing.
    For every other learner id it does not raise: for a learner without
    interactions it returns the count 0 alone and does not read the
    clock; otherwise the count is the number of the
    learner's interactions, the clock is read once per interaction, the
    number of sessions is between 1 and the count, the recent activity
    between 0 and the count, at most three preferred intents are listed,
    the average input length is not negative, and the average rating is 0
    when no interaction has a rating. *)
Theorem personalization_data_report (lid : Z) (st : Store) :
  let mine := filter (fun i => (Interaction.learner_id i =? lid)%Z) (interactions st) in
  if int64 lid then
    exists st' data,
      get_personalization_data lid st = (st', Ok data)
      /\ interactions st' = interactions st
      /\ memories st' = memories st
      /\ ticks st' = (ticks st + List.length mine)%nat
      /\ match data with
         | OnlyCount n => n = 0%Z /\ mine = []
         | Statistics p =>
             p_interaction_count p = Z.of_nat (List.length mine)
             /\ (1 <= p_interaction_count p)%Z
             /\ (1 <= session_count p <= p_interaction_count p)%Z
             /\ (0 <= recent_activity p <= p_interaction_count p)%Z
             /\ (List.length (preferred_intents p) <= 3)%nat
             /\ (forall k, In k (preferred_intents p) -> In k (intent_values mine))
             /\ (0 <= Conversation.avg_input_length p)%Q
             /\ (given_ratings mine = [] -> avg_rating p = 0%Q)
         end
  else get_personalization_data lid st = (st, Raise OverflowError).
Proof.
  cbv zeta. unfold get_personalization_data.
  destruct (int64 lid); [|reflexivity]. cbn [negb].
  remember (filter (fun i => (Interaction.learner_id i =? lid)%Z) (interactions st))
    as mine.
  destruct mine as [|i0 rest] eqn:Emine.
  - exists st, (OnlyCount 0). simpl. rewrite Nat.add_0_r. tauto.
  - rewrite <- Emine in *. clear Heqmine.
    assert (Hn : (0 < Z.of_nat (List.length mine))%Z) by (subst mine; simpl; lia).
    assert (Hrating : exists avg,
               match given_ratings mine with
               | [] => ret 0%Q
               | _ :: _ => lift (truediv (isum (given_ratings mine))
                                   (Z.of_nat (List.length (given_ratings mine))))
               end st = (st, Ok avg)
               /\ (given_ratings mine = [] -> avg = 0%Q)).
    { destruct (given_ratings mine) as [|r rs] eqn:Er.
      - exists 0%Q. split; reflexivity.
      - eexists. split; [reflexivity | discriminate]. }
    destruct Hrating as [avg [Eavg Havg]].
    destruct (for_each_clock_reading
                (fun now i => (days (now - Interaction.created_at i) <=? 7)%Z)
                mine st) as [flags [Eflags Hflags]].
    exists (mkStore (interactions st) (memories st) (clock st)
                    (ticks st + List.length mine)).
    eexists. split.
    + unfold bind at 1. rewrite Eavg. unfold bind at 1. unfold lift, truediv.
      destruct (Z.of_nat (List.length mine) =? 0)%Z eqn:Ez;
        [apply Z.eqb_eq in Ez; lia|].
      unfold bind at 1. rewrite Eflags. unfold ret. reflexivity.
    + cbn [interactions memories ticks p_interaction_count session_count
           recent_activity preferred_intents Conversation.avg_input_length avg_rating].
      split; [reflexivity|]. split; [reflexivity|]. split; [reflexivity|].
      split; [reflexivity|]. split; [lia|].
      destruct (distinct_bounds (map Interaction.session_id mine)) as [D1 D2].
      rewrite length_map in D1. split.
      { split; [|exact D1]. apply D2. subst mine. discriminate. }
      split.
      { split; [lia|]. apply Nat2Z.inj_le. rewrite <- Hflags.
        apply filter_length_le. }
      split; [unfold _get_top_intents; apply firstn_le_length|].
      split.
      { intros k Hk.
        destruct (top_intents_in (intent_values mine) 3 k Hk) as [H _]. exact H. }
      split; [|exact Havg].
      apply Qle_shift_div_l.
      * change 0%Q with (inject_Z 0). now rewrite <- Zlt_Qlt.
      * rewrite Qmult_0_l. change 0%Q with (inject_Z 0). rewrite <- Zle_Qle.
        apply isum_nonneg. apply Forall_forall. intros x Hx.
        apply in_map_iff in Hx. destruct Hx as [i [<- _]]. unfold len. lia.
Qed.

End PersonalizationData.

(* ===================================================================== *)
(** * Learner profiles *)
(* ===================================================================== *)

Section LearnerProfiles.
Import Learners Notions.
Local Open Scope string_scope.







End LearnerProfiles.

(* ===================================================================== *)
(** * The validation summary *)
(* ===================================================================== *)

Section ValidationSummary.
Import CheckerAgent Summary Notions.
Local Open Scope string_scope.

Lemma round3_rate (k n : Z) :
  (0 <= k <= n)%Z -> (0 < n)%Z ->
  unit_interval (round3 (inject_Z k / inject_Z n)).
Proof.
  intros Hk Hn. apply round3_unit_interval.
  assert (Hq : (0 < inject_Z n)%Q).
  { change 0%Q with (inject_Z 0). now rewrite <- Zlt_Qlt. }
  split.
  - apply Qle_shift_div_l; [exact Hq|]. rewrite Qmult_0_l.
    change 0%Q with (inject_Z 0). rewrite <- Zle_Qle. lia.
  - apply Qle_shift_div_r; [exact Hq|]. rewrite Qmult_1_l.
    rewrite <- Zle_Qle. lia.
Qed.

(** The inner loop appends to lists of the four criteria and adds no key. *)
Lemma collect_quality_keys (entries : list (string * QualityEntry.t)) :
  forall quality_scores,
    dict_keys (collect_quality quality_scores entries) = dict_keys quality_scores.
Proof.
  unfold collect_quality.
  induction entries as [|[c e] entries IH]; intro qs; simpl; [reflexivity|].
  rewrite IH. unfold scores_of.
  destruct (dict_get String.eqb qs c) as [scores|] eqn:E; [|reflexivity].
  destruct (dict_keys_after_set qs c (scores ++ [QualityEntry.score e])%list) as [K _].
  apply K. apply dict_get_key_in. now exists scores.
Qed.

(** What the aggregation loop keeps true: the two counters stay between
    0 and the number of rounds, the dictionary keeps its keys, and the sum
    of scores between 0 and 1 stays between 0 and the number of rounds. *)
Lemma aggregate_counts (validations : list ValidationResults.t) :
  forall acc,
    let acc' := fold_left aggregate validations acc in
    let n := Z.of_nat (List.length validations) in
    (approved_count acc <= approved_count acc' <= approved_count acc + n)%Z
    /\ (bias_count acc <= bias_count acc' <= bias_count acc + n)%Z
    /\ dict_keys (quality_scores acc') = dict_keys (quality_scores acc)
    /\ (Forall (fun v => unit_interval (ValidationResults.overall_score v)) validations ->
        (total_score acc <= total_score acc')%Q
        /\ (total_score acc' <= total_score acc + inject_Z n)%Q).
Proof.
  induction validations as [|v vs IH]; intro acc; cbv zeta.
  - simpl. split; [lia|]. split; [lia|]. split; [reflexivity|].
    intros _. split; [apply Qle_refl|]. rewrite Qplus_0_r. apply Qle_refl.
  - simpl fold_left. destruct (IH (aggregate acc v)) as [A [B [K T]]].
    cbv zeta in A, B, K, T.
    change (List.length (v :: vs)) with (S (List.length vs)).
    rewrite Nat2Z.inj_succ.
    assert (Ha : approved_count (aggregate acc v)
                 = if ValidationResults.approved v
                   then (approved_count acc + 1)%Z else approved_count acc)
      by reflexivity.
    assert (Hb : bias_count (aggregate acc v)
                 = match BiasDetection.detected_biases
                           (ValidationResults.bias_detection v) with
                   | [] => bias_count acc
                   | _ :: _ => (bias_count acc + 1)%Z
                   end) by reflexivity.
    assert (Ht : total_score (aggregate acc v)
                 = (total_score acc + ValidationResults.overall_score v)%Q)
      by reflexivity.
    rewrite Ha in A. rewrite Hb in B. rewrite Ht in T.
    split; [destruct (ValidationResults.approved v); lia|].
    split; [destruct (BiasDetection.detected_biases
                        (ValidationResults.bias_detection v)); lia|].
    split.
    + rewrite K. unfold aggregate. cbn [quality_scores]. apply collect_quality_keys.
    + intro HF. inversion HF as [|? ? [H0 H1] HF']; subst.
      destruct (T HF') as [T0 T1].
      rewrite <- Z.add_1_l, inject_Z_plus. change (inject_Z 1) with 1%Q.
      split; lra.
Qed.

Lemma fdiv_by_positive (x : Q) (n : Z) :
  (0 < n)%Z -> fdiv x (inject_Z n) = Ok (x / inject_Z n)%Q.
Proof.
  intro Hn. unfold fdiv. destruct (Qeq_bool (inject_Z n) 0) eqn:E; [|reflexivity].
  apply Qeq_bool_eq in E. exfalso.
  assert (H : (0 < inject_Z n)%Q).
  { change 0%Q with (inject_Z 0). now rewrite <- Zlt_Qlt. }
  rewrite E in H. now apply Qlt_irrefl in H.
Qed.

Lemma average_returns (scores : list Q) : exists a, average scores = Ok a.
Proof.
  unfold average. destruct scores as [|s scores]; [eexists; reflexivity|].
  rewrite fdiv_by_length. eexists. reflexivity.
Qed.

Lemma average_each_returns (quality_scores : list (string * list Q)) :
  exists d, average_each quality_scores = Ok d
            /\ dict_keys d = dict_keys quality_scores.
Proof.
  induction quality_scores as [|[c scores] rest [d [E K]]]; simpl.
  - exists []. split; reflexivity.
  - destruct (average_returns scores) as [a Ea]. rewrite Ea, E. simpl.
    eexists. split; [reflexivity|]. simpl. now rewrite K.
Qed.

Lemma recommendation_initial (quality_scores : list (string * Q)) (overall_score : Q) :
  forall text,
    In text
       (List.app
          (if Qlt_bool overall_score 0.7
           then ["Focus on improving overall response quality"] else [])
          (flat_map (fun '(criterion, score) =>
                       if Qlt_bool score 0.7
                       then ["Improve " ++ criterion ++ " in responses"] else [])
                    quality_scores)) ->
    text <> "Maintain current high quality standards".
Proof.
  intros text H. apply in_app_or in H. destruct H as [H | H].
  - destruct (Qlt_bool overall_score 0.7); [|destruct H].
    destruct H as [<- | []]. discriminate.
  - apply in_flat_map in H. destruct H as [[c s] [_ H]].
    destruct (Qlt_bool s 0.7); [|destruct H].
    destruct H as [<- | []]. simpl. discriminate.
Qed.

Lemma learner_recommendations_nonempty
      (quality_scores : list (string * Q)) (overall_score : Q) :
  exists r rs, _generate_learner_recommendations quality_scores overall_score = r :: rs.
Proof.
  unfold _generate_learner_recommendations.
  destruct (_ ++ _)%list as [|r rs]; do 2 eexists; reflexivity.
Qed.

(** X24: the recommendations for a learner are never empty.  They are
    the single line about maintaining the current standards exactly when
    the overall score and every criterion average are at least 0.7;
    otherwise there is one line for an overall score below 0.7 and one for
    each criterion below 0.7, so at most one more than there are
    criteria. *)
Theorem learner_recommendations_never_empty
        (quality_scores : list (string * Q)) (overall_score : Q) :
  let recommendations := _generate_learner_recommendations quality_scores overall_score in
  recommendations <> []
  /\ (recommendations = ["Maintain current high quality standards"]
      <-> (0.7 <= overall_score)%Q
          /\ forall criterion score,
               In (criterion, score) quality_scores -> (0.7 <= score)%Q)
  /\ (List.length recommendations <= 1 + List.length quality_scores)%nat.
Proof.
  cbv zeta. unfold _generate_learner_recommendations.
  pose proof (recommendation_initial quality_scores overall_score) as Hinit.
  set (overall := if Qlt_bool overall_score 0.7
                  then ["Focus on improving overall response quality"] else []) in *.
  set (per_criterion :=
         flat_map (fun '(criterion, score) =>
                     if Qlt_bool score 0.7
                     then ["Improve " ++ criterion ++ " in responses"] else [])
                  quality_scores) in *.
  assert (Hnil : (overall ++ per_criterion)%list = []
                 <-> (0.7 <= overall_score)%Q
                     /\ forall criterion score,
                          In (criterion, score) quality_scores -> (0.7 <= score)%Q).
  { split.
    - intro H. apply app_eq_nil in H. destruct H as [Ho Hp]. split.
      + unfold overall in Ho. destruct (Qlt_bool overall_score 0.7) eqn:E;
          [discriminate | now apply Qlt_bool_false_iff].
      + intros c s Hin. unfold per_criterion in Hp.
        rewrite flat_map_nil_iff in Hp. specialize (Hp _ Hin). simpl in Hp.
        destruct (Qlt_bool s 0.7) eqn:E;
          [discriminate | now apply Qlt_bool_false_iff].
    - intros [Ho Hp].
      assert (Eo : overall = []).
      { unfold overall. apply Qlt_bool_false_iff in Ho. now rewrite Ho. }
      assert (Ep : per_criterion = []).
      { unfold per_criterion. apply flat_map_nil_iff. intros [c s] Hin.
        specialize (Hp c s Hin). apply Qlt_bool_false_iff in Hp. now rewrite Hp. }
      now rewrite Eo, Ep. }
  assert (Hlen : (List.length (overall ++ per_criterion)
                  <= 1 + List.length quality_scores)%nat).
  { rewrite length_app.
    assert (Ho : (List.length overall <= 1)%nat).
    { unfold overall. destruct (Qlt_bool overall_score 0.7); simpl; lia. }
    assert (Hp : (List.length per_criterion <= List.length quality_scores)%nat).
    { unfold per_criterion. apply flat_map_at_most_one. intros [c s].
      destruct (Qlt_bool s 0.7); simpl; lia. }
    lia. }
  destruct (overall ++ per_criterion)%list as [|r rs] eqn:E.
  - split; [discriminate|]. split; [|simpl; lia].
    split; [intros _; now apply Hnil | reflexivity].
  - split; [discriminate|]. split; [|exact Hlen].
    split.
    + intro H. exfalso. apply (Hinit r); [now left|]. now injection H.
    + intro H. apply Hnil in H. discriminate H.
Qed.

(** X25: for a learner id within the 64-bit range and a period of 0 to
    36500 days, [get_validation_summary] does not raise, reads the clock
    once and writes nothing.  It returns the message alone exactly when the
    learner has no validated interaction from the last [days] days.
    Otherwise the report counts these interactions (at least one), the
    approval rate and the bias detection rate lie between 0 and 1, the
    averages are given for the four criteria of the table, in their order,
    the recommendations are not empty, and when the stored overall scores
    lie between 0 and 1 so does their rounded average. *)
Theorem validation_summary_report (lid days : Z) (st : Store) :
  int64 lid = true ->
  (0 <= days <= 36500)%Z ->
  let found := validated_since st lid (clock st (ticks st) - days * 86400000000)%Z in
  exists summary,
    get_validation_summary lid days st
    = (mkStore (interactions st) (memories st) (clock st) (S (ticks st)), Ok summary)
    /\ match summary with
       | NothingFound text =>
           found = [] /\ text = "No validated interactions found"
       | Found report =>
           found <> []
           /\ period_days report = days
           /\ total_interactions report = Z.of_nat (List.length found)
           /\ unit_interval (approval_rate report)
           /\ unit_interval (bias_detection_rate report)
           /\ dict_keys (avg_quality_scores report)
              = ["clarity"; "accuracy"; "helpfulness"; "engagement"]
           /\ recommendations report <> []
           /\ (Forall (fun v => unit_interval (ValidationResults.overall_score (snd v)))
                      found ->
               unit_interval (avg_overall_score report))
       end.
Proof.
  intros Hlid _.
  cbv zeta. unfold get_validation_summary, bind, utcnow.
  cbn [interactions memories clock ticks]. rewrite Hlid. cbn [negb].
  change (validated_since (mkStore (interactions st) (memories st) (clock st)
                                   (S (ticks st))) lid
            (clock st (ticks st) - days * 86400000000))
    with (validated_since st lid (clock st (ticks st) - days * 86400000000)).
  destruct (validated_since st lid (clock st (ticks st) - days * 86400000000))
    as [|x xs] eqn:Ef.
  - eexists. split; [reflexivity|]. split; reflexivity.
  - rewrite <- Ef. cbv zeta.
    set (found := validated_since st lid
                    (clock st (ticks st) - days * 86400000000)) in *.
    assert (Hn : (0 < Z.of_nat (List.length found))%Z).
    { rewrite Ef. simpl. lia. }
    destruct (aggregate_counts (map snd found) initial_totals) as [A [B [K T]]].
    cbv zeta in A, B, K, T. rewrite length_map in A, B, T.
    cbn [approved_count bias_count initial_totals total_score] in A, B, T.
    set (acc := fold_left aggregate (map snd found) initial_totals) in *.
    destruct (average_each_returns (quality_scores acc)) as [d [Ed Kd]].
    cbv iota. rewrite (fdiv_by_positive _ _ Hn).
    unfold rbind at 1. rewrite Ed. unfold rbind at 1.
    unfold truediv.
    destruct (Z.of_nat (List.length found) =? 0)%Z eqn:Ez;
      [apply Z.eqb_eq in Ez; lia|].
    unfold rbind. eexists. split; [reflexivity|].
    cbn [period_days total_interactions approval_rate bias_detection_rate
         avg_quality_scores recommendations avg_overall_score].
    split; [rewrite Ef; discriminate|]. split; [reflexivity|].
    split; [reflexivity|].
    split; [apply round3_rate; lia|]. split; [apply round3_rate; lia|].
    split; [rewrite Kd, K; reflexivity|].
    split.
    + destruct (learner_recommendations_nonempty d
                  (total_score acc / inject_Z (Z.of_nat (List.length found)))) as [r [rs E]].
      rewrite E. discriminate.
    + intro HF. apply round3_unit_interval.
      destruct T as [T0 T1]; [now apply Forall_map|].
      assert (Hq : (0 < inject_Z (Z.of_nat (List.length found)))%Q).
      { change 0%Q with (inject_Z 0). now rewrite <- Zlt_Qlt. }
      split.
      * apply Qle_shift_div_l; [exact Hq|]. now rewrite Qmult_0_l.
      * apply Qle_shift_div_r; [exact Hq|]. rewrite Qmult_1_l.
        now rewrite Qplus_0_l in T1.
Qed.

(** A learner whose one interaction carries no validation: the message
    alone. *)
Lemma validation_summary_report_run :
  int64 7 = true
  /\ (0 <= 7 <= 36500)%Z
  /\ exists summary,
       get_validation_summary 7 7 Samples.first_turn_store
       = (mkStore (interactions Samples.first_turn_store)
                  (memories Samples.first_turn_store)
                  (clock Samples.first_turn_store)
                  (S (ticks Samples.first_turn_store)), Ok summary)
       /\ summary = NothingFound "No validated interactions found".
Proof.
  split; [reflexivity|]. split; [lia|].
  destruct (validation_summary_report 7 7 Samples.first_turn_store eq_refl)
    as [summary [E H]]; [lia|].
  exists summary. split; [exact E|].
  destruct summary as [text | report].
  - destruct H as [_ Ht]. now rewrite Ht.
  - destruct H as [Hne _]. exfalso. apply Hne. reflexivity.
Defined.

End ValidationSummary.

Section ContextSummary.
Import UserAgent Conversation Spec Notions.
Local Open Scope string_scope.

(** X26: the context summary.  Without interactions it is the
    new-session text; with interactions of which none has an intent it
    reports an ongoing conversation and their number; otherwise it names
    an intent that occurs among the interactions at least as often as
    every other intent, together with the number of interactions. *)
Theorem context_summary_names_most_frequent (interactions : list Interaction.t) :
  let n := str_int (Z.of_nat (List.length interactions)) in
  let intents := intent_values interactions in
  match interactions, intents with
  | [], _ => _generate_context_summary interactions = "New conversation session."
  | _ :: _, [] =>
      _generate_context_summary interactions
      = "Ongoing conversation with " ++ n ++ " interactions."
  | _ :: _, _ :: _ =>
      exists primary,
        _generate_context_summary interactions
        = "Recent focus on " ++ primary ++ " with " ++ n ++ " interactions."
        /\ In primary intents
        /\ forall k, (count_occ string_dec intents k
                      <= count_occ string_dec intents primary)%nat
  end.
Proof.
  cbv zeta. destruct interactions as [|i rest]; [reflexivity|].
  unfold _generate_context_summary. cbv beta iota zeta.
  generalize (i :: rest). intro l.
  destruct (count_intents_counts (intent_values l)) as [N [K C]].
  destruct (intent_values l) as [|v vs] eqn:Ev.
  - destruct (dict_keys (count_intents [])) as [|k ks] eqn:Ek; [reflexivity|].
    exfalso. apply (K k). now left.
  - rewrite <- Ev in *.
    destruct (dict_keys (count_intents (intent_values l))) as [|k ks] eqn:Ek.
    + exfalso. apply (K v). rewrite Ev. now left.
    + set (f := fun k => inject_Z (count_of (count_intents (intent_values l)) k)).
      destruct (max_by_spec f k ks) as [l1 [l2 [E [H1 H2]]]].
      exists (max_by f k ks). split; [reflexivity|].
      assert (Hin : In (max_by f k ks) (k :: ks)).
      { rewrite E. apply in_app_iff. right. now left. }
      split; [now apply K|].
      intro x. apply Nat2Z.inj_le. rewrite <- !C.
      destruct (in_dec string_dec x (k :: ks)) as [Hx | Hx].
      * rewrite E in Hx. apply in_app_iff in Hx.
        destruct Hx as [Hx | [<- | Hx]].
        -- specialize (H1 x Hx).
           change (inject_Z (count_of (count_intents (intent_values l)) x)
                   < inject_Z (count_of (count_intents (intent_values l))
                                        (max_by f k ks)))%Q in H1.
           rewrite <- Zlt_Qlt in H1. lia.
        -- lia.
        -- specialize (H2 x Hx).
           change (inject_Z (count_of (count_intents (intent_values l)) x)
                   <= inject_Z (count_of (count_intents (intent_values l))
                                         (max_by f k ks)))%Q in H2.
           now rewrite <- Zle_Qle in H2.
      * assert (Hz : count_occ string_dec (intent_values l) x = 0%nat).
        { apply count_occ_not_In. intro Hv. apply Hx. now apply K. }
        rewrite !C, Hz. simpl. lia.
Qed.

End ContextSummary.

Section RecentInteractions.
Import CheckerAgent Conversation Spec Notions.
Local Open Scope string_scope.


End RecentInteractions.

Section FeedbackThenRetrieve.
Import UserAgent Spec Notions.
Local Open Scope string_scope.







End FeedbackThenRetrieve.

Section LearnerRoutes.
Import Learners Notions.
Local Open Scope string_scope.








End LearnerRoutes.
